(** * GAIA evaluation pipeline: experiment runner and evaluator

    A shallow embedding of the parts of [gaia/eval/eval.py] (class
    [RagEvaluator]) and [gaia/eval/batch_experiment.py] (class
    [BatchExperimentRunner]) that decide pass/fail verdicts, score
    similarity, rank evaluated models and run one experiment over a list
    of work items.

    Conventions.
    - A Python [float] is an IEEE-754 binary64 number: Rocq's primitive
      [float], with its correctly rounded [+], [*], [/] and its
      comparisons (every comparison with NaN is [false], as in Python).
    - A Python [str] is a [string] whose characters are the code points
      0..255; the predicates [isspace], [isalnum] and the map [lower] are
      tabulated for exactly that range.
    - A Python [dict] used as a map is a [gmap]; a [dict] whose iteration
      order matters is an association list.
    - [None] is [None]; truthiness of containers and strings is written
      out ([truthy_*]).
    - A call that may raise returns an [Outcome]. *)

From Stdlib Require Import Floats Ascii String NArith ZArith Sorted.
From stdpp Require Import gmap strings list pretty.

(* Decimal literals such as [0.4] denote the nearest binary64 number, as
   they do in Python. *)
Set Warnings "-inexact-float".

(* ===================================================================== *)
(** * Python preliminaries *)
(* ===================================================================== *)

(** Result of a call that may raise: [Raised msg] carries [str(e)]. *)
Inductive Outcome (A : Type) : Type :=
  | Returned (a : A)
  | Raised (msg : string).
Arguments Returned {A} a.
Arguments Raised {A} msg.

Module Py.

Definition code (c : ascii) : N := N_of_ascii c.

(** [str.isspace] on one code point below 256. *)
Definition isspace (c : ascii) : bool :=
  let n := code c in
  ((9 <=? n) && (n <=? 13) || (28 <=? n) && (n <=? 32)
   || (n =? 133) || (n =? 160))%N.

(** [str.isalnum] on one code point below 256. *)
Definition isalnum (c : ascii) : bool :=
  let n := code c in
  ((48 <=? n) && (n <=? 57) || (65 <=? n) && (n <=? 90)
   || (97 <=? n) && (n <=? 122)
   || (n =? 170) || (n =? 178) || (n =? 179) || (n =? 181)
   || (n =? 185) || (n =? 186) || (188 <=? n) && (n <=? 190)
   || (192 <=? n) && (n <=? 214) || (216 <=? n) && (n <=? 246)
   || (248 <=? n))%N.

(** [str.lower] on one code point below 256. *)
Definition lower_char (c : ascii) : ascii :=
  let n := code c in
  if ((65 <=? n) && (n <=? 90)
      || (192 <=? n) && (n <=? 214) || (216 <=? n) && (n <=? 222))%N
  then ascii_of_N (n + 32) else c.

Fixpoint lower (s : string) : string :=
  match s with
  | EmptyString => EmptyString
  | String c r => String (lower_char c) (lower r)
  end.

Fixpoint lstrip (s : string) : string :=
  match s with
  | EmptyString => EmptyString
  | String c r => if isspace c then lstrip r else s
  end.

Definition rstrip (s : string) : string := String.rev (lstrip (String.rev s)).

(** [s.strip()] *)
Definition strip (s : string) : string := rstrip (lstrip s).

(** Truthiness of a string: non-empty. *)
Definition truthy_str (s : string) : bool :=
  match s with EmptyString => false | String _ _ => true end.

(** [sep.join(l)] *)
Fixpoint join (sep : string) (l : list string) : string :=
  match l with
  | [] => ""
  | [x] => x
  | x :: r => x +:+ sep +:+ join sep r
  end.

(** The characters of [s] that satisfy [p], joined (the generator
    expression of line 788). *)
Fixpoint filter_chars (p : ascii -> bool) (s : string) : string :=
  match s with
  | EmptyString => EmptyString
  | String c r => if p c then String c (filter_chars p r) else filter_chars p r
  end.

(** [s.replace(a, b)] for single characters [a], [b]. *)
Fixpoint replace_char (a b : ascii) (s : string) : string :=
  match s with
  | EmptyString => EmptyString
  | String c r => String (if Ascii.eqb c a then b else c) (replace_char a b r)
  end.

(** [int] to [float] for the small non-negative integers used here. *)
Definition float_of_nat (n : nat) : float :=
  PrimFloat.of_uint63 (Uint63.of_Z (Z.of_nat n)).

End Py.

(* ===================================================================== *)
(** * The evaluator: [RagEvaluator] *)
(* ===================================================================== *)

Module Eval.

Open Scope float_scope.

(** ** [calculate_similarity] *)

Section Similarity.

(** The scikit-learn pipeline of lines 34-36,
    [TfidfVectorizer(stop_words="english", lowercase=True)
       .fit_transform([text1, text2])] followed by
    [cosine_similarity(vectors[0:1], vectors[1:2])[0][0]].
    It is an external library: it either returns a number or raises
    (for instance on an empty vocabulary). *)
Variable tfidf_cosine : string -> string -> Outcome float.

Definition calculate_similarity (text1 text2 : string) : float :=
  if negb (Py.truthy_str (Py.strip text1))
     || negb (Py.truthy_str (Py.strip text2))
  then 0.0
  else
    match tfidf_cosine text1 text2 with
    | Returned similarity => similarity
    | Raised _ => 0.0   (* logged as a warning *)
    end.

End Similarity.


(** ** [determine_pass_fail] *)

(** One entry of Claude's analysis: [{"rating": ..., "explanation": ...}],
    either key possibly missing. *)
Record CriterionJudgment : Type := {
  rating : option string;
  explanation : option string;
}.

(** The verdict dictionary. The [reasoning] string (a rendering of the
    other fields with [%.3f] formats) is not part of the model. *)
Record Scores : Type := {
  similarity : float;
  qualitative_normalized : float;
  qualitative_details : list string;
}.

Record Verdict : Type := {
  is_pass : bool;
  pass_fail : string;
  criteria : string;
  scores : option Scores;
}.

Definition criteria_names : list string :=
  ["correctness"; "completeness"; "conciseness"; "relevance"].

(** Lines 69-73: the ratings actually present, lower-cased. *)
Definition extract_ratings (claude_analysis : gmap string CriterionJudgment)
  : gmap string string :=
  foldl (fun ratings criterion =>
           match claude_analysis !! criterion with
           | Some j => <[criterion := Py.lower (default "" (rating j))]> ratings
           | None => ratings
           end)
        ∅ criteria_names.

(** Line 76. *)
Definition score_map : gmap string nat :=
  <["excellent" := 4%nat]> (<["good" := 3%nat]> (<["fair" := 2%nat]>
    (<["poor" := 1%nat]> ∅))).

(** The [weights] dictionary of lines 79-84, in insertion order. *)
Definition weights : list (string * float) :=
  [("correctness", 0.4); ("completeness", 0.3);
   ("conciseness", 0.15); ("relevance", 0.15)].

Record Tally : Type := {
  total_score : float;
  max_possible : float;
  criteria_details : list string;
}.

(** One iteration of the loop of lines 90-97. *)
Definition tally_step (ratings : gmap string string) (t : Tally)
    (cw : string * float) : Tally :=
  let '(criterion, weight) := cw in
  match ratings !! criterion with
  | Some r =>
      let score := default 1%nat (score_map !! r) in
      let weighted_score := Py.float_of_nat score * weight in
      {| total_score := total_score t + weighted_score;
         max_possible := max_possible t + 4 * weight;
         criteria_details :=
           criteria_details t ++
             [criterion +:+ ": " +:+ r +:+ " (" +:+ pretty score +:+ "/4)"] |}
  | None => t
  end.

Definition tally (ratings : gmap string string) : Tally :=
  foldl (tally_step ratings)
        {| total_score := 0; max_possible := 0; criteria_details := [] |}
        weights.

(** Python's [/] on floats raises on a zero divisor. *)
Definition truediv (a b : float) : Outcome float :=
  if b =? 0 then Raised "float division by zero" else Returned (a / b).

(** Line 100. *)
Definition normalized_score (t : Tally) : Outcome float :=
  if 0 <? max_possible t then truediv (total_score t) (max_possible t)
  else Returned 0.

(** Lines 107-111. *)
Definition correctness_acceptable (ratings : gmap string string) : bool :=
  bool_decide (default "poor" (ratings !! "correctness")
                 ∈ ["fair"; "good"; "excellent"]).

(** Line 112. *)
Definition qualitative_pass (normalized : float)
    (ratings : gmap string string) : bool :=
  (0.6 <=? normalized) && correctness_acceptable ratings.

(** Lines 115-119: either signal passes, unless correctness is "poor". *)
Definition final_pass (similarity_pass : bool) (normalized : float)
    (ratings : gmap string string) : bool :=
  let final := similarity_pass || qualitative_pass normalized ratings in
  if bool_decide (default "" (ratings !! "correctness") = "poor")
  then false else final.

Definition pass_fail_of (b : bool) : string := if b then "pass" else "fail".

Definition determine_pass_fail (similarity threshold : float)
    (claude_analysis : option (gmap string CriterionJudgment))
  : Outcome Verdict :=
  let similarity_pass := threshold <=? similarity in
  match claude_analysis with
  | Some analysis =>
      if bool_decide (analysis = ∅) then
        Returned {| is_pass := similarity_pass;
                    pass_fail := pass_fail_of similarity_pass;
                    criteria := "similarity_only";
                    scores := None |}
      else
        let ratings := extract_ratings analysis in
        let t := tally ratings in
        match normalized_score t with
        | Raised e => Raised e
        | Returned normalized =>
            let final := final_pass similarity_pass normalized ratings in
            Returned
              {| is_pass := final;
                 pass_fail := pass_fail_of final;
                 criteria := "comprehensive";
                 scores :=
                   Some {| similarity := similarity;
                           qualitative_normalized := normalized;
                           qualitative_details := criteria_details t |} |}
        end
  | None =>
      Returned {| is_pass := similarity_pass;
                  pass_fail := pass_fail_of similarity_pass;
                  criteria := "similarity_only";
                  scores := None |}
  end.

End Eval.

(* ===================================================================== *)
(** * The report synthesiser: [RagEvaluator.generate_summary_report] *)
(* ===================================================================== *)

Module Report.

Import Eval.
Open Scope float_scope.

(** A value stored under a key of a per-question [analysis] dictionary:
    a plain string (as under "overall_quality") or a rated criterion. *)
Inductive AnalysisValue : Type :=
  | AText (s : string)
  | AJudgment (j : CriterionJudgment).

(** One record of [per_question]; absent keys are [None]. *)
Record Question : Type := {
  analysis : option (gmap string AnalysisValue);
  similarity_score : option float;
  passed_threshold : option bool;
}.

(** The fields of an evaluation document ([*.eval.json]) that the report
    reads; absent keys are [None] or missing from the map. *)
Record EvalDocument : Type := {
  metrics : gmap string float;            (* overall_rating.metrics *)
  overall_rating : option string;         (* overall_rating.rating *)
  doc_total_cost : option float;          (* total_cost.total_cost *)
  doc_per_question : option (list Question);
}.

(** The [model_info] dictionary of lines 1455-1475 (the fields the
    ranking and the type detection read). *)
Record ModelInfo : Type := {
  name : string;
  pass_rate : float;
  mean_similarity : float;
  rating : string;
  total_cost : float;
  per_question : list Question;
}.

(** Lines 1441-1480: one [model_info] per evaluation file that loads;
    a file whose loading raises is skipped with a warning. *)
Definition model_info (model_name : string) (eval_data : EvalDocument) : ModelInfo :=
  {| name := model_name;
     pass_rate := default 0 (metrics eval_data !! "pass_rate");
     mean_similarity := default 0 (metrics eval_data !! "mean_similarity");
     rating := default "unknown" (overall_rating eval_data);
     total_cost := default 0 (doc_total_cost eval_data);
     per_question := default [] (doc_per_question eval_data) |}.

Fixpoint load_models_data (eval_files : list (string * Outcome EvalDocument))
  : list ModelInfo :=
  match eval_files with
  | [] => []
  | (model_name, Returned eval_data) :: rest =>
      model_info model_name eval_data :: load_models_data rest
  | (_, Raised _) :: rest => load_models_data rest
  end.

(** [list.sort]: a stable sort by [<]. Insertion after the elements that
    are not greater gives the list CPython's sort gives whenever [<] is a
    strict weak order on the keys. *)
Fixpoint insert_sorted {A} (lt : A -> A -> bool) (x : A) (l : list A) : list A :=
  match l with
  | [] => [x]
  | y :: r => if lt x y then x :: l else y :: insert_sorted lt x r
  end.

Definition stable_sort {A} (lt : A -> A -> bool) (l : list A) : list A :=
  foldl (fun sorted x => insert_sorted lt x sorted) [] l.

(** [l.sort(key=key, reverse=True)]: reverse, sort stably, reverse. *)
Definition sort_reverse {A} (key : A -> float) (l : list A) : list A :=
  reverse (stable_sort (fun a b => key a <? key b) (reverse l)).

(** A pass rate that is a number: [x == x], false of NaN alone. *)
Definition is_number (x : float) : bool := x =? x.

Definition summarization_keys : list string :=
  ["executive_summary_quality"; "detail_completeness";
   "action_items_structure"; "key_decisions_clarity";
   "participant_information"; "topic_organization"].

(** [_detect_evaluation_type] *)
Definition _detect_evaluation_type (models_data : list ModelInfo) : string :=
  match models_data with
  | [] => "unknown"
  | first_model :: _ =>
      match per_question first_model with
      | [] => "unknown"
      | first_question :: _ =>
          let a := default ∅ (analysis first_question) in
          if existsb (fun key => bool_decide (is_Some (a !! key))) summarization_keys
          then "summarization"
          else "rag"
      end
  end.

(** The four counters of lines 1181-1196. *)
Record QualityCounts : Type := {
  excellent_count : nat;
  good_count : nat;
  fair_count : nat;
  poor_count : nat;
}.

Definition count_question (c : QualityCounts) (question : Question) : QualityCounts :=
  let a := default ∅ (analysis question) in
  match default (AText "") (a !! "overall_quality") with
  | AText q =>
      if String.eqb q "excellent" then
        {| excellent_count := S (excellent_count c); good_count := good_count c;
           fair_count := fair_count c; poor_count := poor_count c |}
      else if String.eqb q "good" then
        {| excellent_count := excellent_count c; good_count := S (good_count c);
           fair_count := fair_count c; poor_count := poor_count c |}
      else if String.eqb q "fair" then
        {| excellent_count := excellent_count c; good_count := good_count c;
           fair_count := S (fair_count c); poor_count := poor_count c |}
      else if String.eqb q "poor" then
        {| excellent_count := excellent_count c; good_count := good_count c;
           fair_count := fair_count c; poor_count := S (poor_count c) |}
      else c
  | AJudgment _ => c
  end.

Definition quality_counts (model : ModelInfo) : QualityCounts :=
  foldl count_question
        {| excellent_count := 0; good_count := 0; fair_count := 0; poor_count := 0 |}
        (per_question model).

Definition total_summaries (c : QualityCounts) : nat :=
  (excellent_count c + good_count c + fair_count c + poor_count c)%nat.

(** Lines 1200-1205: the weighted quality score, out of 4. *)
Definition quality_score (c : QualityCounts) : float :=
  Py.float_of_nat (excellent_count c * 4 + good_count c * 3
                   + fair_count c * 2 + poor_count c * 1)
  / Py.float_of_nat (total_summaries c).

(** What the report text is built from: the executive ranking line, one
    ["**name** (score)"] per entry joined with [" > "], and the model the
    text calls the best performer, [models_data[0]]. The rest of the
    markdown is a rendering of [models_data]. *)
Record ReportContent : Type := {
  ranking : list (string * float);
  best_performer : option string;
}.

(** Lines 1178-1208: one ranking entry per model with at least one rated
    summary, with its quality score, in the order of [models_data]. *)
Fixpoint summarization_ranking (models_data : list ModelInfo)
  : list (string * float) :=
  match models_data with
  | [] => []
  | model :: rest =>
      let c := quality_counts model in
      if (0 <? total_summaries c)%nat
      then (name model, quality_score c) :: summarization_ranking rest
      else summarization_ranking rest
  end.

(** [_generate_summarization_report] *)
Definition _generate_summarization_report (models_data : list ModelInfo)
  : ReportContent :=
  {| ranking := summarization_ranking models_data;
     best_performer := name <$> head models_data |}.

(** [_generate_markdown_report]: every model with its pass rate, in the
    order of [models_data] (lines 1516-1523). *)
Definition _generate_markdown_report (models_data : list ModelInfo)
  : ReportContent :=
  {| ranking := map (fun model => (name model, pass_rate model)) models_data;
     best_performer := name <$> head models_data |}.

Record SummaryReport : Type := {
  evaluation_type : string;
  report_content : ReportContent;
  summary_data : list ModelInfo;
}.

(** [generate_summary_report], from the loaded evaluation files on: the
    input pairs each file's model name (its stem without ".eval") with
    the outcome of loading it. *)
Definition generate_summary_report
    (eval_files : list (string * Outcome EvalDocument)) : Outcome SummaryReport :=
  match eval_files with
  | [] => Raised "No .eval.json files found"
  | _ =>
      let models_data := load_models_data eval_files in
      match models_data with
      | [] => Raised "No valid evaluation data found"
      | _ =>
          let models_data := sort_reverse pass_rate models_data in
          let evaluation_type := _detect_evaluation_type models_data in
          Returned
            {| evaluation_type := evaluation_type;
               report_content :=
                 if String.eqb evaluation_type "summarization"
                 then _generate_summarization_report models_data
                 else _generate_markdown_report models_data;
               summary_data := models_data |}
      end
  end.

End Report.

(* ===================================================================== *)
(** * The experiment runner: [BatchExperimentRunner] *)
(* ===================================================================== *)

Module Batch.

Open Scope float_scope.

Definition nl : string := String (ascii_of_nat 10) "".

(** ** Configuration and work items *)

Record ExperimentConfig : Type := {
  name : string;
  llm_type : string;
  model : string;
  system_prompt : string;
  experiment_type : string;
  max_tokens : Z;
  temperature : float;
  parameters : gmap string string;
}.

(** [ExperimentConfig.__post_init__] *)
Definition post_init (e : ExperimentConfig) : Outcome ExperimentConfig :=
  if bool_decide (experiment_type e ∈ ["qa"; "summarization"]) then Returned e
  else Raised ("experiment_type must be 'qa' or 'summarization', got: "
               +:+ experiment_type e).

(** A work item: the dictionary with its ["type"] tag. [Other t] is an
    item whose tag [t] is none of "qa", "qa_raw", "summarization". *)
Inductive DataItem : Type :=
  | QA (query ground_truth : string)
  | QARaw (transcript : string) (source_file : option string)
          (queries : list string)
  | Summarization (transcript : string)
                  (groundtruth_summaries : option (gmap string string))
                  (source_file : option string)
  | Other (data_type : string).

(** ** The model clients *)

Inductive Client : Type :=
  | ClaudeClient (model : string) (max_tokens : Z)
  | LemonadeClient (model : string) (parameters : gmap string string).

(** [create_llm_client] *)
Definition create_llm_client (e : ExperimentConfig) : Outcome Client :=
  if String.eqb (Py.lower (llm_type e)) "claude" then
    Returned (ClaudeClient (model e) (max_tokens e))
  else if String.eqb (Py.lower (llm_type e)) "lemonade" then
    Returned (LemonadeClient (model e) (parameters e))
  else Raised ("Unsupported LLM type: " +:+ llm_type e).

(** What [ClaudeClient.get_completion_with_usage] returns: [content] is
    the text that lines 100-110 extract from [response_data["content"]];
    [claude_usage] and [claude_cost] are the values under "usage" and
    "cost", [None] when the value is Python's [None]. *)
Record ClaudeResponse : Type := {
  content : string;
  claude_usage : option (gmap string Z);
  claude_cost : option (gmap string float);
}.

(** What [LemonadeClient.completions] returns: the ["choices"] list, if
    the key is there, each choice with its ["text"], if it has one. *)
Record LemonadeResponse : Type := {
  choices : option (list (option string));
}.

(** One backend call as the run saw it. *)
Record CallRecord : Type := {
  call_prompt : string;
  call_failure : option string;   (* [Some str(e)] if the call raised *)
}.

(** The result document that [run_experiment] writes. *)
Inductive ResultEntry : Type :=
  | QAEntry (query ground_truth response : string)
  | TranscriptQAEntry (transcript source_file : string)
                      (qa_results : list (string * string))
  | SummarizationEntry (transcript : string)
                       (generated_summaries : list (string * string))
                       (source_file : string)
                       (groundtruth_summaries : option (gmap string string)).

Record Metadata : Type := {
  md_experiment_name : string;
  md_experiment_type : string;
  md_llm_type : string;
  md_model : string;
  md_system_prompt : string;
  md_max_tokens : Z;
  md_temperature : float;
  md_parameters : gmap string string;
  md_timestamp : string;
  md_similarity_threshold : float;
  md_total_items : nat;
  md_total_usage : gmap string Z;
  md_total_cost : gmap string float;
  md_errors : list string;
}.

Record ResultDocument : Type := {
  metadata : Metadata;
  doc_analysis : gmap string (list ResultEntry);
}.

(** The world a run acts on: the backend calls made so far, the lines
    written with [self.log.error], and the files on disk. *)
Record World : Type := {
  calls : list CallRecord;
  error_log : list string;
  files : gmap string ResultDocument;
}.

Definition M (A : Type) : Type := World -> A * World.

#[export] Instance M_ret : MRet M := fun A a w => (a, w).
#[export] Instance M_bind : MBind M :=
  fun A B f m w => let '(a, w') := m w in f a w'.

Definition log_error (msg : string) : M unit :=
  fun w => (tt, {| calls := calls w; error_log := error_log w ++ [msg];
                   files := files w |}).

Definition write_file (path : string) (doc : ResultDocument) : M unit :=
  fun w => (tt, {| calls := calls w; error_log := error_log w;
                   files := <[path := doc]> (files w) |}).

Definition failure_of {A} (r : Outcome A) : option string :=
  match r with Returned _ => None | Raised e => Some e end.

Definition record_call {A} (prompt : string) (r : Outcome A) : M (Outcome A) :=
  fun w => (r, {| calls := calls w ++ [{| call_prompt := prompt;
                                           call_failure := failure_of r |}];
                  error_log := error_log w; files := files w |}).

(** ** Usage and cost dictionaries *)

Definition zero_usage : gmap string Z :=
  <["input_tokens" := 0%Z]> (<["output_tokens" := 0%Z]>
    (<["total_tokens" := 0%Z]> ∅)).

Definition zero_cost : gmap string float :=
  <["input_cost" := 0.0]> (<["output_cost" := 0.0]>
    (<["total_cost" := 0.0]> ∅)).

(** [if d: for key in total: total[key] += d.get(key, 0)] *)
Definition accumulate_usage (total : gmap string Z)
    (d : option (gmap string Z)) : gmap string Z :=
  match d with
  | Some d =>
      if bool_decide (d = ∅) then total
      else map_imap (fun key v => Some (v + default 0 (d !! key))%Z) total
  | None => total
  end.

(** [if d: for key in total: total[key] += d.get(key, 0.0)] *)
Definition accumulate_cost (total : gmap string float)
    (d : option (gmap string float)) : gmap string float :=
  match d with
  | Some d =>
      if bool_decide (d = ∅) then total
      else map_imap (fun key v => Some (v + default 0.0 (d !! key))) total
  | None => total
  end.

(** The dictionary every [process_*] function returns. *)
Record ProcResult (R : Type) : Type := {
  response : R;
  usage : option (gmap string Z);
  cost : option (gmap string float);
  error : option string;
}.
Arguments response {R} _.
Arguments usage {R} _.
Arguments cost {R} _.
Arguments error {R} _.

(** Truthiness of [result["error"]]: a non-empty string. *)
Definition truthy_error (e : option string) : bool :=
  match e with Some e => Py.truthy_str e | None => false end.

(** The text of the first choice, if there are choices and it has one;
    the empty string otherwise (lines 150-152). *)
Definition lemonade_text (d : LemonadeResponse) : string :=
  match choices d with
  | Some (first :: _) => default "" first
  | _ => ""
  end.

(** [t[:500] + "..." if len(t) > 500 else t] *)
Definition excerpt (t : string) : string :=
  if (500 <? String.length t)%nat then substring 0 500 t +:+ "..." else t.

(** [_get_summary_prompts], in insertion order. *)
Definition _get_summary_prompts (base_system_prompt : string)
  : list (string * string) :=
  [("executive_summary",
    base_system_prompt +:+ nl +:+ nl +:+
    "Provide a brief executive summary (2-3 sentences) of the key outcomes and decisions from this transcript:");
   ("detailed_summary",
    base_system_prompt +:+ nl +:+ nl +:+
    "Provide a detailed summary of the transcript, covering all major topics, discussions, and outcomes in paragraph form:");
   ("action_items",
    base_system_prompt +:+ nl +:+ nl +:+
    "List the specific action items that were assigned during this meeting. Include who is responsible for each item when mentioned. Provide as a simple list:");
   ("key_decisions",
    base_system_prompt +:+ nl +:+ nl +:+
    "List the key decisions that were made during this meeting. Focus on concrete decisions and outcomes. Provide as a simple list:");
   ("participants",
    base_system_prompt +:+ nl +:+ nl +:+
    "List the participants mentioned in this transcript. Include their roles or titles when available. Provide as a simple list:");
   ("topics_discussed",
    base_system_prompt +:+ nl +:+ nl +:+
    "List the main topics and subjects that were discussed in this meeting. Provide as a simple list:")].

Section Runner.

(** The two backends, external to the program. Each call sees the
    client it is made on, the calls made before it, and its arguments;
    it returns a response or raises. *)
Variable get_completion_with_usage :
  Client -> list CallRecord -> string -> Outcome ClaudeResponse.
Variable completions :
  Client -> list CallRecord ->
  string (* model *) -> string (* prompt *) ->
  Z (* max_tokens *) -> float (* temperature *) -> Outcome LemonadeResponse.

(** [datetime.now().strftime("%Y-%m-%d %H:%M:%S")] *)
Variable now : string.

Definition call_claude (client : Client) (prompt : string)
  : M (Outcome ClaudeResponse) :=
  fun w => record_call prompt (get_completion_with_usage client (calls w) prompt) w.

Definition client_model (client : Client) : string :=
  match client with
  | ClaudeClient m _ => m
  | LemonadeClient m _ => m
  end.

Definition call_lemonade (client : Client) (prompt : string)
    (max_tokens : Z) (temperature : float) : M (Outcome LemonadeResponse) :=
  fun w => record_call prompt
             (completions client (calls w) (client_model client) prompt
                          max_tokens temperature) w.

Definition question_prompt (system_prompt question : string) : string :=
  system_prompt +:+ nl +:+ nl +:+ "Question: " +:+ question
    +:+ nl +:+ nl +:+ "Answer:".

(** [process_question_claude] *)
Definition process_question_claude (client : Client)
    (question system_prompt : string) : M (ProcResult string) :=
  r ← call_claude client (question_prompt system_prompt question);
  match r with
  | Returned response_data =>
      mret {| response := Py.strip (content response_data);
              usage := claude_usage response_data;
              cost := claude_cost response_data;
              error := None |}
  | Raised e =>
      _ ← log_error ("Error processing question with Claude: " +:+ e);
      mret {| response := "ERROR: " +:+ e;
              usage := Some zero_usage;
              cost := Some zero_cost;
              error := Some e |}
  end.

(** [process_question_lemonade] *)
Definition process_question_lemonade (client : Client)
    (question system_prompt : string) (max_tokens : Z) (temperature : float)
  : M (ProcResult string) :=
  r ← call_lemonade client (question_prompt system_prompt question)
                    max_tokens temperature;
  match r with
  | Returned response_data =>
      mret {| response := Py.strip (lemonade_text response_data);
              usage := Some zero_usage;
              cost := Some zero_cost;
              error := None |}
  | Raised e =>
      _ ← log_error ("Error processing question with Lemonade: " +:+ e);
      mret {| response := "ERROR: " +:+ e;
              usage := Some zero_usage;
              cost := Some zero_cost;
              error := Some e |}
  end.

(** The state of the loop over the six summary components. *)
Record SummaryState : Type := {
  ss_results : list (string * string);
  ss_usage : gmap string Z;
  ss_cost : gmap string float;
  ss_errors : list string;
}.

Definition summary_prompt (prompt_template transcript : string) : string :=
  prompt_template +:+ nl +:+ nl +:+ "Transcript:" +:+ nl +:+ transcript
    +:+ nl +:+ nl +:+ "Response:".

(** The loop of [process_summarization_claude] (lines 198-238); the
    half-second pause after a successful call leaves no trace here. *)
Fixpoint summarize_claude (client : Client) (transcript : string)
    (prompts : list (string * string)) (st : SummaryState) : M SummaryState :=
  match prompts with
  | [] => mret st
  | (component, prompt_template) :: rest =>
      r ← call_claude client (summary_prompt prompt_template transcript);
      st' ← match r with
            | Returned response_data =>
                mret {| ss_results :=
                          ss_results st ++ [(component, Py.strip (content response_data))];
                        ss_usage := accumulate_usage (ss_usage st)
                                                     (claude_usage response_data);
                        ss_cost := accumulate_cost (ss_cost st)
                                                   (claude_cost response_data);
                        ss_errors := ss_errors st |}
            | Raised e =>
                _ ← log_error ("Error processing " +:+ component
                               +:+ " with Claude: " +:+ e);
                mret {| ss_results := ss_results st ++ [(component, "ERROR: " +:+ e)];
                        ss_usage := ss_usage st;
                        ss_cost := ss_cost st;
                        ss_errors := ss_errors st ++ [component +:+ ": " +:+ e] |}
            end;
      summarize_claude client transcript rest st'
  end.

(** The loop of [process_summarization_lemonade] (lines 274-302). *)
Fixpoint summarize_lemonade (client : Client) (transcript : string)
    (max_tokens : Z) (temperature : float)
    (prompts : list (string * string)) (st : SummaryState) : M SummaryState :=
  match prompts with
  | [] => mret st
  | (component, prompt_template) :: rest =>
      r ← call_lemonade client (summary_prompt prompt_template transcript)
                        max_tokens temperature;
      st' ← match r with
            | Returned response_data =>
                mret {| ss_results :=
                          ss_results st
                            ++ [(component, Py.strip (lemonade_text response_data))];
                        ss_usage := ss_usage st;
                        ss_cost := ss_cost st;
                        ss_errors := ss_errors st |}
            | Raised e =>
                _ ← log_error ("Error processing " +:+ component
                               +:+ " with Lemonade: " +:+ e);
                mret {| ss_results := ss_results st ++ [(component, "ERROR: " +:+ e)];
                        ss_usage := ss_usage st;
                        ss_cost := ss_cost st;
                        ss_errors := ss_errors st ++ [component +:+ ": " +:+ e] |}
            end;
      summarize_lemonade client transcript max_tokens temperature rest st'
  end.

Definition summary_start : SummaryState :=
  {| ss_results := []; ss_usage := zero_usage; ss_cost := zero_cost;
     ss_errors := [] |}.

(** Lines 240-245 and 304-309: ["; ".join(errors) if errors else None]. *)
Definition summary_result (st : SummaryState) : ProcResult (list (string * string)) :=
  {| response := ss_results st;
     usage := Some (ss_usage st);
     cost := Some (ss_cost st);
     error := match ss_errors st with
              | [] => None
              | _ => Some (Py.join "; " (ss_errors st))
              end |}.

(** [process_summarization_claude] *)
Definition process_summarization_claude (client : Client)
    (transcript system_prompt : string) : M (ProcResult (list (string * string))) :=
  st ← summarize_claude client transcript (_get_summary_prompts system_prompt)
                        summary_start;
  mret (summary_result st).

(** [process_summarization_lemonade] *)
Definition process_summarization_lemonade (client : Client)
    (transcript system_prompt : string) (max_tokens : Z) (temperature : float)
  : M (ProcResult (list (string * string))) :=
  st ← summarize_lemonade client transcript max_tokens temperature
                          (_get_summary_prompts system_prompt) summary_start;
  mret (summary_result st).

(** ** [run_experiment] *)

Definition context_prompt (system_prompt transcript query : string) : string :=
  system_prompt +:+ nl +:+ nl +:+ "Transcript:" +:+ nl +:+ transcript
    +:+ nl +:+ nl +:+ "Question: " +:+ query +:+ nl +:+ nl +:+ "Answer:".

(** Lines 579-662: one query of a raw-transcript item. *)
Definition ask_query (e : ExperimentConfig) (client : Client)
    (transcript query : string) : M (ProcResult string) :=
  let prompt := context_prompt (system_prompt e) transcript query in
  match client with
  | ClaudeClient _ _ =>
      r ← call_claude client prompt;
      match r with
      | Returned response_data =>
          mret {| response := Py.strip (content response_data);
                  usage := claude_usage response_data;
                  cost := claude_cost response_data;
                  error := None |}
      | Raised err =>
          _ ← log_error ("Error processing QA with Claude: " +:+ err);
          mret {| response := "ERROR: " +:+ err;
                  usage := Some zero_usage;
                  cost := Some zero_cost;
                  error := Some err |}
      end
  | LemonadeClient _ _ =>
      r ← call_lemonade client prompt (max_tokens e) (temperature e);
      match r with
      | Returned response_data =>
          mret {| response := Py.strip (lemonade_text response_data);
                  usage := Some zero_usage;
                  cost := Some zero_cost;
                  error := None |}
      | Raised err =>
          _ ← log_error ("Error processing QA with Lemonade: " +:+ err);
          mret {| response := "ERROR: " +:+ err;
                  usage := Some zero_usage;
                  cost := Some zero_cost;
                  error := Some err |}
      end
  end.

(** Lines 679-683: the errors of an item's queries, joined with "; ". *)
Definition merge_error (total query_error : option string) : option string :=
  if truthy_error query_error then
    if truthy_error total
    then Some (default "" total +:+ "; " +:+ default "" query_error)
    else query_error
  else total.

(** Lines 577-683: [total] is [(qa_results, total_result)]. *)
Fixpoint ask_queries (e : ExperimentConfig) (client : Client)
    (transcript : string) (queries : list string)
    (total : ProcResult (list (string * string)))
  : M (ProcResult (list (string * string))) :=
  match queries with
  | [] => mret total
  | query :: rest =>
      query_result ← ask_query e client transcript query;
      ask_queries e client transcript rest
        {| response := response total ++ [(query, response query_result)];
           usage := Some (accumulate_usage (default ∅ (usage total))
                                           (usage query_result));
           cost := Some (accumulate_cost (default ∅ (cost total))
                                         (cost query_result));
           error := merge_error (error total) (error query_result) |}
  end.

Definition raw_start : ProcResult (list (string * string)) :=
  {| response := []; usage := Some zero_usage; cost := Some zero_cost;
     error := None |}.

Record RunState : Type := {
  results : list ResultEntry;
  total_usage : gmap string Z;
  total_cost : gmap string float;
  errors : list string;
}.

(** The label of line 744 on the errors of item [i] (counted from 0). *)
Definition item_label (i : nat) : string :=
  "Item " +:+ pretty (i + 1)%nat +:+ ": ".

(** Lines 735-746, for item number [i] (counted from 0). *)
Definition accumulate {R} (st : RunState) (i : nat) (result : ProcResult R)
    (result_entry : ResultEntry) : RunState :=
  {| results := results st ++ [result_entry];
     total_usage := accumulate_usage (total_usage st) (usage result);
     total_cost := accumulate_cost (total_cost st) (cost result);
     errors :=
       if truthy_error (error result)
       then errors st ++ [item_label i +:+ default "" (error result)]
       else errors st |}.

(** The body of the loop of lines 538-750. The backend kind was fixed
    when the client was created, by the same tests on
    [experiment.llm_type.lower()] that the loop repeats. The pause
    between items leaves no trace here. *)
Definition process_item (e : ExperimentConfig) (client : Client) (i : nat)
    (data_item : DataItem) (st : RunState) : M RunState :=
  match data_item with
  | QA query ground_truth =>
      result ← match client with
               | ClaudeClient _ _ =>
                   process_question_claude client query (system_prompt e)
               | LemonadeClient _ _ =>
                   process_question_lemonade client query (system_prompt e)
                                             (max_tokens e) (temperature e)
               end;
      mret (accumulate st i result
                       (QAEntry query ground_truth (response result)))
  | QARaw transcript source_file queries =>
      result ← ask_queries e client transcript queries raw_start;
      mret (accumulate st i result
                       (TranscriptQAEntry (excerpt transcript)
                                          (default "" source_file)
                                          (response result)))
  | Summarization transcript groundtruth_summaries source_file =>
      result ← match client with
               | ClaudeClient _ _ =>
                   process_summarization_claude client transcript (system_prompt e)
               | LemonadeClient _ _ =>
                   process_summarization_lemonade client transcript
                     (system_prompt e) (max_tokens e) (temperature e)
               end;
      mret (accumulate st i result
                       (SummarizationEntry (excerpt transcript) (response result)
                                           (default "" source_file)
                                           groundtruth_summaries))
  | Other data_type =>
      _ ← log_error ("Unsupported data type: " +:+ data_type);
      mret st
  end.

(** [for i, data_item in enumerate(data_items)], from index [i] on. *)
Fixpoint run_items (e : ExperimentConfig) (client : Client) (i : nat)
    (data_items : list DataItem) (st : RunState) : M RunState :=
  match data_items with
  | [] => mret st
  | data_item :: rest =>
      st' ← process_item e client i data_item st;
      run_items e client (S i) rest st'
  end.

Definition run_start : RunState :=
  {| results := []; total_usage := zero_usage; total_cost := zero_cost;
     errors := [] |}.

(** Lines 773-781. *)
Definition analysis_of (e : ExperimentConfig) (results : list ResultEntry)
  : gmap string (list ResultEntry) :=
  if String.eqb (experiment_type e) "qa" then
    match results with
    | TranscriptQAEntry _ _ _ :: _ => {[ "transcript_qa_results" := results ]}
    | _ => {[ "qa_results" := results ]}
    end
  else if String.eqb (experiment_type e) "summarization" then
    {[ "summarization_results" := results ]}
  else ∅.

(** Lines 787-792. *)
Definition result_filename (e : ExperimentConfig) : string :=
  let keep c := Py.isalnum c
                || bool_decide (c ∈ [" "%char; "-"%char; "_"%char]) in
  let safe_name := Py.rstrip (Py.filter_chars keep (name e)) in
  Py.replace_char " " "_" safe_name +:+ ".experiment.json".

Definition output_data (e : ExperimentConfig) (data_items : list DataItem)
    (st : RunState) : ResultDocument :=
  {| metadata :=
       {| md_experiment_name := name e;
          md_experiment_type := experiment_type e;
          md_llm_type := llm_type e;
          md_model := model e;
          md_system_prompt := system_prompt e;
          md_max_tokens := max_tokens e;
          md_temperature := temperature e;
          md_parameters := parameters e;
          md_timestamp := now;
          md_similarity_threshold := 0.7;
          md_total_items := length data_items;
          md_total_usage := total_usage st;
          md_total_cost := total_cost st;
          md_errors := errors st |};
     doc_analysis := analysis_of e (results st) |}.

(** [run_experiment]: the path of the written document, or the error
    of [create_llm_client]. Writing the file is taken to succeed. *)
Definition run_experiment (e : ExperimentConfig) (data_items : list DataItem)
    (output_dir : string) : M (Outcome string) :=
  match create_llm_client e with
  | Raised err => mret (Raised err)
  | Returned client =>
      st ← run_items e client 0 data_items run_start;
      let result_path := output_dir +:+ "/" +:+ result_filename e in
      _ ← write_file result_path (output_data e data_items st);
      mret (Returned result_path)
  end.

End Runner.

(** ** Vocabulary of the properties *)

(** The kinds of item the loop handles. *)
Definition supported (data_item : DataItem) : bool :=
  match data_item with Other _ => false | _ => true end.

(** The result entry an item gives rise to, whatever the backend says. *)
Definition entry_matches (data_item : DataItem) (entry : ResultEntry) : Prop :=
  match data_item, entry with
  | QA query ground_truth, QAEntry q g _ => q = query /\ g = ground_truth
  | QARaw transcript source_file queries, TranscriptQAEntry t s qa =>
      t = excerpt transcript /\ s = default "" source_file /\ qa.*1 = queries
  | Summarization transcript gt source_file, SummarizationEntry t _ s g =>
      t = excerpt transcript /\ s = default "" source_file /\ g = gt
  | _, _ => False
  end.

(** Backend calls an item costs: one per Q&A pair, one per query of a raw
    transcript, one per summary component. *)
Definition backend_calls (data_item : DataItem) : nat :=
  match data_item with
  | QA _ _ => 1
  | QARaw _ _ queries => length queries
  | Summarization _ _ _ => 6
  | Other _ => 0
  end.

Definition call_failed (c : CallRecord) : bool :=
  match call_failure c with Some _ => true | None => false end.


(** The document a run left on disk, if it returned its path. *)
Definition persisted (out : Outcome string * World) : option ResultDocument :=
  match out with
  | (Returned path, w) => files w !! path
  | (Raised _, _) => None
  end.



(** The error log only grows under [m]. *)
Definition log_grows {A} (m : M A) : Prop :=
  forall w, error_log w `prefix_of` error_log (m w).2.






End Batch.

(* ===================================================================== *)
(** * Sample inputs *)
(* ===================================================================== *)

Module Samples.

Import Batch.
Open Scope float_scope.


(** A local backend that is down on every call. *)
Definition unreachable_lemonade
  : Client -> list CallRecord -> string -> string -> Z -> float ->
    Outcome LemonadeResponse :=
  fun _ _ _ _ _ _ => Raised "connection refused".

(** A hosted backend that answers every prompt. *)
Definition helpful_claude
  : Client -> list CallRecord -> string -> Outcome ClaudeResponse :=
  fun _ _ _ =>
    Returned {| content := " Alice and Bob. ";
                claude_usage :=
                  Some (<["input_tokens" := 40%Z]> (<["output_tokens" := 5%Z]>
                          (<["total_tokens" := 45%Z]> ∅)));
                claude_cost :=
                  Some (<["input_cost" := 0.00012]> (<["output_cost" := 0.000075]>
                          (<["total_cost" := 0.000195]> ∅))) |}.

Definition empty_world : World :=
  {| calls := []; error_log := []; files := ∅ |}.

Definition claude_qa : ExperimentConfig :=
  {| name := "Claude QA"; llm_type := "Claude"; model := "claude-sonnet";
     system_prompt := "Answer briefly."; experiment_type := "qa";
     max_tokens := 512; temperature := 0.1; parameters := ∅ |}.


(** One raw transcript with two queries. *)
Definition two_queries : list DataItem :=
  [QARaw "Alice: ship it. Bob: agreed." (Some "standup.txt")
         ["Who attended?"; "What was decided?"]].



Definition timestamp : string := "2025-01-01 00:00:00".



(** A stand-in for the vectoriser: identical texts score 1, texts made of
    the stop word "the" alone leave an empty vocabulary, all others score 0. *)
Definition exact_match_cosine (text1 text2 : string) : Outcome float :=
  if String.eqb (Py.strip text1) "the" then
    Raised "empty vocabulary; perhaps the documents only contain stop words"
  else if String.eqb text1 text2 then Returned 1 else Returned 0.

(** Rubrics. *)
Definition rated (r : string) : Eval.CriterionJudgment :=
  {| Eval.rating := Some r; Eval.explanation := Some "as judged" |}.

Definition rubric (correctness others : string)
  : gmap string Eval.CriterionJudgment :=
  <["correctness" := rated correctness]>
    (<["completeness" := rated others]>
       (<["conciseness" := rated others]>
          (<["relevance" := rated others]> ∅))).

(** A rubric with none of the four Q&A criteria. *)
Definition summary_rubric : gmap string Eval.CriterionJudgment :=
  <["executive_summary_quality" := rated "good"]> ∅.

(** Two summarization evaluations, in file order: the first model's only
    summary is rated poor, the second's excellent. Their metrics carry a
    quality score and no pass rate, as [_analyze_summarization_results]
    writes them. *)
Definition summary_question (overall_quality : string) : Report.Question :=
  {| Report.analysis :=
       Some (<["executive_summary_quality" := Report.AJudgment (rated overall_quality)]>
               (<["overall_quality" := Report.AText overall_quality]> ∅));
     Report.similarity_score := None;
     Report.passed_threshold := None |}.

Definition summary_evaluation (overall_quality : string) (quality_score : float)
  : Report.EvalDocument :=
  {| Report.metrics := <["quality_score" := quality_score]> ∅;
     Report.overall_rating := Some overall_quality;
     Report.doc_total_cost := None;
     Report.doc_per_question := Some [summary_question overall_quality] |}.

Definition summarization_files : list (string * Outcome Report.EvalDocument) :=
  [("weak_model", Returned (summary_evaluation "poor" 1));
   ("strong_model", Returned (summary_evaluation "excellent" 4))].

(** Two Q&A evaluations, the lower pass rate first. *)
Definition qa_evaluation (pass_rate mean_similarity : float) : Report.EvalDocument :=
  {| Report.metrics := <["pass_rate" := pass_rate]>
                         (<["mean_similarity" := mean_similarity]> ∅);
     Report.overall_rating := Some "fair";
     Report.doc_total_cost := None;
     Report.doc_per_question :=
       Some [{| Report.analysis := None;
                Report.similarity_score := Some mean_similarity;
                Report.passed_threshold := Some true |}] |}.

Definition qa_files : list (string * Outcome Report.EvalDocument) :=
  [("model_a", Returned (qa_evaluation 0.5 0.6));
   ("model_b", Returned (qa_evaluation 0.9 0.8))].

End Samples.

(* ===================================================================== *)
(** * Further definitions *)
(* ===================================================================== *)

Module Names.

(** The characters a result file name is made of, the suffix apart. *)
Definition safe_char (c : ascii) : bool :=
  Py.isalnum c || Ascii.eqb c "-" || Ascii.eqb c "_".

End Names.

Module Scoring.
Import Eval.
Open Scope float_scope.

(** [score_map.get(rating, 1)] *)
Definition score_of (rating : string) : nat := default 1%nat (score_map !! rating).

(** The two sums of lines 95-96 for one criterion, given its score if the
    criterion is rated. *)
Definition add_weighted (t : float * float) (sw : option nat * float)
  : float * float :=
  match sw.1 with
  | Some score => (t.1 + Py.float_of_nat score * sw.2, t.2 + 4 * sw.2)
  | None => t
  end.

(** [(total_score, max_possible)] from the scores of the four criteria, in
    the order of [weights]. *)
Definition score_totals (scores : list (option nat)) : float * float :=
  foldl add_weighted (0, 0) (zip scores (weights.*2)).

(** The scores of the four criteria under [ratings]. *)
Definition rating_scores (ratings : gmap string string) : list (option nat) :=
  map (fun criterion => score_of <$> ratings !! criterion) criteria_names.

(** The quotient of line 100. *)
Definition quotient (t : float * float) : float :=
  if 0 <? t.2 then t.1 / t.2 else 0.

(** A score, if there is one, is one of the four that [score_map] and its
    default give. *)
Definition in_range (s : option nat) : Prop :=
  match s with Some n => n ∈ [1; 2; 3; 4]%nat | None => True end.

(** A rating that counts as good: "good" or "excellent". *)
Definition well_rated (rating : string) : Prop := rating ∈ ["good"; "excellent"].

(** The rating stored for a judgment: lower-cased, empty if missing
    (line 72). *)
Definition stored_rating (j : CriterionJudgment) : string :=
  Py.lower (default "" (rating j)).

(** A score that a rating of good or excellent gives, or none. *)
Definition high (s : option nat) : Prop :=
  match s with Some n => n ∈ [3; 4]%nat | None => True end.

(** A score that any other rating gives, or none. *)
Definition low (s : option nat) : Prop :=
  match s with Some n => n ∈ [1; 2]%nat | None => True end.

End Scoring.

Module ReportVocabulary.
Import Report.

(** An evaluation file that loaded. *)
Definition loads (f : string * Outcome EvalDocument) : bool :=
  match f.2 with Returned _ => true | Raised _ => false end.

End ReportVocabulary.

Module Accounting.
Import Batch.

(** Backend calls a whole run costs. *)
Definition total_backend_calls (data_items : list DataItem) : nat :=
  sum_list (backend_calls <$> data_items).

Definition unsupported_items (data_items : list DataItem) : list DataItem :=
  List.filter (fun data_item => negb (supported data_item)) data_items.

(** What happened to the world: [n] calls were added, one log line was
    written for each of them that failed and [u] more, and no file was
    touched. *)
Definition effect (n u : nat) (w w' : World) : Prop :=
  exists new lines,
    calls w' = calls w ++ new /\ length new = n
    /\ error_log w' = error_log w ++ lines
    /\ length lines = (length (List.filter call_failed new) + u)%nat
    /\ files w' = files w.

(** The tokens a usage dictionary reports under [key]:
    [d.get(key, 0)], and nothing when there is no dictionary. *)
Definition gain (d : option (gmap string Z)) (key : string) : Z :=
  default 0%Z (d ≫= (.!! key)).

Definition usage_keys : list string :=
  ["input_tokens"; "output_tokens"; "total_tokens"].

Section Replay.

Variable get_completion_with_usage :
  Client -> list CallRecord -> string -> Outcome ClaudeResponse.

(** The tokens the Claude backend reported for the call with [prompt]
    made after the calls [before]. *)
Definition reported (client : Client) (before : list CallRecord)
    (prompt key : string) : Z :=
  match get_completion_with_usage client before prompt with
  | Returned response_data => gain (claude_usage response_data) key
  | Raised _ => 0%Z
  end.

(** The tokens reported over the calls [new] made after [before]. *)
Fixpoint reported_total (client : Client) (before new : list CallRecord)
    (key : string) : Z :=
  match new with
  | [] => 0%Z
  | c :: rest =>
      (reported client before (call_prompt c) key
       + reported_total client (before ++ [c]) rest key)%Z
  end.

(** [g] tokens under [key] were reported by the calls added. *)
Definition metered (client : Client) (key : string) (g : Z) (w w' : World) : Prop :=
  exists new, calls w' = calls w ++ new
              /\ g = reported_total client (calls w) new key.

End Replay.


End Accounting.

Module Filing.
Import Batch.

Definition is_raw (data_item : DataItem) : bool :=
  match data_item with QARaw _ _ _ => true | _ => false end.

(** The key of the [analysis] dictionary under which a run files its
    results (lines 773-781), told from the items: a Q&A experiment files
    under "transcript_qa_results" when the first item that gives a result
    is a raw transcript, and under "qa_results" otherwise. *)
Definition filing_key (e : ExperimentConfig) (data_items : list DataItem) : string :=
  if String.eqb (experiment_type e) "qa" then
    match head (List.filter supported data_items) with
    | Some data_item =>
        if is_raw data_item then "transcript_qa_results" else "qa_results"
    | None => "qa_results"
    end
  else "summarization_results".

End Filing.

Module Analyze.
Import Batch.

(** The "metadata" dictionary of a results file, as far as the
    evaluator reads it; absent keys are [None]. *)
Record LoadedMetadata : Type := {
  lm_test_file : option string;
  lm_timestamp : option string;
  lm_similarity_threshold : option float;
}.

(** What the evaluator reads of a results file: the dictionaries under
    "analysis" and "metadata", if any, and a top-level "qa_results"
    list, if any. *)
Record LoadedResults : Type := {
  lr_analysis : option (gmap string (list ResultEntry));
  lr_qa_results : option (list ResultEntry);
  lr_metadata : option LoadedMetadata;
}.

(** Reading back the document that [run_experiment] wrote: it has the
    keys "metadata" and "analysis" and no other, and its metadata has a
    time stamp and a similarity threshold and no "test_file". *)
Definition reload (doc : ResultDocument) : LoadedResults :=
  {| lr_analysis := Some (doc_analysis doc);
     lr_qa_results := None;
     lr_metadata :=
       Some {| lm_test_file := None;
               lm_timestamp := Some (md_timestamp (metadata doc));
               lm_similarity_threshold :=
                 Some (md_similarity_threshold (metadata doc)) |} |}.

(** The analysis dictionary, with per-question entries of type [Q]. *)
Record Analysis (Q : Type) : Type := {
  overall_analysis : string;
  strengths : list string;
  weaknesses : list string;
  recommendations : list string;
  use_case_fit : string;
  per_question : list Q;
  overall_rating : string * string;   (* rating, explanation *)
}.
Arguments overall_analysis {Q} _.
Arguments strengths {Q} _.
Arguments weaknesses {Q} _.
Arguments recommendations {Q} _.
Arguments use_case_fit {Q} _.
Arguments per_question {Q} _.
Arguments overall_rating {Q} _.

(** Lines 251-264. *)
Definition nothing_to_analyze {Q} : Analysis Q :=
  {| overall_analysis := "No QA or summarization results found to analyze";
     strengths := [];
     weaknesses := ["No data available for analysis"];
     recommendations := ["Ensure input data contains QA or summarization results"];
     use_case_fit := "Unable to determine";
     per_question := [];
     overall_rating := ("error", "No analyzable results found") |}.

(** Lines 267-275. *)
Definition analysis_failed {Q} (e : string) : Analysis Q :=
  {| overall_analysis := "Analysis failed: " +:+ e;
     strengths := [];
     weaknesses := ["Analysis failed to complete"];
     recommendations := ["Check logs for error details"];
     use_case_fit := "";
     per_question := [];
     overall_rating := ("error", e) |}.

Section AnalyzeWithClaude.

Context {Q : Type}.

(** The two analysers that [analyze_with_claude] hands over to. *)
Variable _analyze_qa_results :
  LoadedResults -> list ResultEntry -> Outcome (Analysis Q).
Variable _analyze_summarization_results :
  LoadedResults -> list ResultEntry -> option string -> Outcome (Analysis Q).

(** [analyze_with_claude], from the loaded results file on: the analysis
    and the lines written with [self.log.error]. *)
Definition analyze_with_claude (loaded : Outcome LoadedResults)
    (groundtruth_path : option string) : Analysis Q * list string :=
  let attempt :=
    match loaded with
    | Raised e => Raised e
    | Returned results =>
        let analysis_data := default ∅ (lr_analysis results) in
        let qa_results :=
          default (default [] (lr_qa_results results))
                  (analysis_data !! "qa_results") in
        let summarization_results :=
          default [] (analysis_data !! "summarization_results") in
        match qa_results, summarization_results with
        | _ :: _, _ => _analyze_qa_results results qa_results
        | [], _ :: _ =>
            _analyze_summarization_results results summarization_results
                                           groundtruth_path
        | [], [] => Returned nothing_to_analyze
        end
    end in
  match attempt with
  | Returned analysis => (analysis, [])
  | Raised e => (analysis_failed e, ["Error in analyze_with_claude: " +:+ e])
  end.

End AnalyzeWithClaude.

End Analyze.

Module Loader.
Import Batch.

(** One entry of [analysis.qa_pairs] in a groundtruth file; absent keys
    are [None]. *)
Record QAPair : Type := {
  pair_query : option string;
  pair_question : option string;
  pair_response : option string;
  pair_answer : option string;
  pair_ground_truth : option string;
}.

(** The fields of a groundtruth document that the loaders read; absent
    keys are [None]. *)
Record Groundtruth : Type := {
  gt_qa_pairs : option (list QAPair);              (* analysis.qa_pairs *)
  gt_summaries : option (gmap string string);      (* analysis.summaries *)
  gt_source_file : option string;                  (* metadata.source_file *)
  gt_use_case : option string;                     (* metadata.use_case *)
  gt_claude_model : option string;                 (* metadata.claude_model *)
  gt_system_prompt : option string;                (* metadata.system_prompt *)
  gt_max_tokens : option Z;                        (* metadata.max_tokens *)
  gt_temperature : option float;                   (* metadata.temperature *)
}.

(** The file system as the loaders see it, through [pathlib], [open]
    and [json.load]. *)
Record FileSystem : Type := {
  path_str : string -> string;                (* [str(Path(p))] *)
  is_file : string -> bool;
  is_dir : string -> bool;
  path_exists : string -> bool;
  suffix : string -> string;                  (* [Path(p).suffix] *)
  path_stem : string -> string;               (* [Path(p).stem] *)
  path_join : string -> string -> string;     (* [str(Path(d) / name)] *)
  read_text : string -> Outcome string;       (* [open(p).read()] *)
  load_json : string -> Outcome Groundtruth;  (* [json.load(open(p))] *)
  glob_txt : string -> list string;           (* [str(f)] for [f] in [glob("*.txt")] *)
}.

(** [qa_pair.get("query", qa_pair.get("question", ""))] *)
Definition pair_query_text (qa_pair : QAPair) : string :=
  default (default "" (pair_question qa_pair)) (pair_query qa_pair).

(** [qa_pair.get("response", qa_pair.get("answer", ""))] *)
Definition pair_answer_text (qa_pair : QAPair) : string :=
  default (default "" (pair_answer qa_pair)) (pair_response qa_pair).

(** [_get_default_queries] *)
Definition _get_default_queries : list string :=
  ["What were the main topics discussed in this meeting?";
   "What action items were assigned and to whom?";
   "What decisions were made during this meeting?";
   "Who participated in this meeting and what were their roles?";
   "What are the next steps or follow-up items?"].

Section Loading.

Variable fs : FileSystem.

(** [_load_queries_from_groundtruth] *)
Definition _load_queries_from_groundtruth (groundtruth_file : string)
  : Outcome (list string) :=
  match load_json fs groundtruth_file with
  | Raised e => Raised e
  | Returned groundtruth_data =>
      match default [] (gt_qa_pairs groundtruth_data) with
      | [] => Raised ("No QA pairs found in groundtruth file: " +:+ groundtruth_file)
      | qa_pairs =>
          match List.filter Py.truthy_str (pair_query_text <$> qa_pairs) with
          | [] => Raised ("No valid queries found in groundtruth file: "
                          +:+ groundtruth_file)
          | queries => Returned queries
          end
      end
  end.

(** [_load_from_groundtruth_file] *)
Definition _load_from_groundtruth_file (groundtruth_file experiment_type : string)
  : Outcome (list DataItem) :=
  match load_json fs groundtruth_file with
  | Raised e => Raised e
  | Returned groundtruth_data =>
      if String.eqb experiment_type "qa" then
        match default [] (gt_qa_pairs groundtruth_data) with
        | [] => Raised "No QA pairs found in groundtruth file for QA experiment"
        | qa_pairs =>
            Returned ((fun qa_pair => QA (pair_query_text qa_pair)
                                         (pair_answer_text qa_pair)) <$> qa_pairs)
        end
      else if String.eqb experiment_type "summarization" then
        let summaries := default ∅ (gt_summaries groundtruth_data) in
        if bool_decide (summaries = ∅) then
          Raised "No summaries found in groundtruth file for summarization experiment"
        else
          let source_file := default "" (gt_source_file groundtruth_data) in
          if negb (Py.truthy_str source_file) || negb (path_exists fs source_file) then
            Raised ("Source transcript file not found: " +:+ source_file)
          else
            match read_text fs source_file with
            | Raised e => Raised e
            | Returned text =>
                let transcript_content := Py.strip text in
                if negb (Py.truthy_str transcript_content) then
                  Raised ("Empty transcript file: " +:+ source_file)
                else
                  Returned [Summarization transcript_content (Some summaries)
                                          (Some source_file)]
            end
      else Raised ("Unsupported experiment type: " +:+ experiment_type)
  end.

(** Truthiness of an optional path: given and non-empty. *)
Definition truthy_path (p : option string) : bool :=
  match p with Some p => Py.truthy_str p | None => false end.

(** [_load_from_transcript_file] *)
Definition _load_from_transcript_file (transcript_file experiment_type : string)
    (queries_source : option string) : Outcome (list DataItem) :=
  match read_text fs transcript_file with
  | Raised e => Raised e
  | Returned text =>
      let transcript_content := Py.strip text in
      if negb (Py.truthy_str transcript_content) then
        Raised ("Empty transcript file: " +:+ transcript_file)
      else if String.eqb experiment_type "qa" then
        match (if truthy_path queries_source
               then _load_queries_from_groundtruth (default "" queries_source)
               else Returned _get_default_queries) with
        | Raised e => Raised e
        | Returned queries =>
            Returned [QARaw transcript_content (Some transcript_file) queries]
        end
      else if String.eqb experiment_type "summarization" then
        Returned [Summarization transcript_content None (Some transcript_file)]
      else Raised ("Unsupported experiment type: " +:+ experiment_type)
  end.

(** The loop of [_load_from_transcript_directory]: the first file that
    fails to load ends it. *)
Fixpoint load_transcript_files (transcript_files : list string)
    (experiment_type : string) (queries_source : option string)
    (data : list DataItem) : Outcome (list DataItem) :=
  match transcript_files with
  | [] => Returned data
  | transcript_file :: rest =>
      match _load_from_transcript_file transcript_file experiment_type
                                       queries_source with
      | Raised e => Raised e
      | Returned file_data =>
          load_transcript_files rest experiment_type queries_source
                                (data ++ file_data)
      end
  end.

(** [_load_from_transcript_directory] *)
Definition _load_from_transcript_directory (transcript_dir experiment_type : string)
    (queries_source : option string) : Outcome (list DataItem) :=
  match glob_txt fs (path_str fs transcript_dir) with
  | [] => Raised ("No .txt files found in directory: " +:+ path_str fs transcript_dir)
  | transcript_files =>
      load_transcript_files transcript_files experiment_type queries_source []
  end.

(** [load_data_from_source]: an error is logged and raised again. *)
Definition load_data_from_source (input_path experiment_type : string)
    (queries_source : option string) : M (Outcome (list DataItem)) :=
  let input_path := path_str fs input_path in
  let loaded :=
    if is_file fs input_path then
      if String.eqb (suffix fs input_path) ".json"
      then _load_from_groundtruth_file input_path experiment_type
      else _load_from_transcript_file input_path experiment_type queries_source
    else if is_dir fs input_path then
      _load_from_transcript_directory input_path experiment_type queries_source
    else Raised ("Input path not found: " +:+ input_path) in
  match loaded with
  | Returned data => mret (Returned data)
  | Raised e =>
      _ ← log_error ("Error loading data from source: " +:+ e);
      mret (Raised e)
  end.

End Loading.

(** What a loaded work item looks like for an experiment of type
    [experiment_type]: a Q&A pair or a raw transcript with its questions
    for "qa", a transcript for "summarization"; transcripts are
    stripped and not empty, and a raw transcript comes with at least one
    question, none of them empty. *)
Definition well_formed (experiment_type : string) (data_item : DataItem) : Prop :=
  match data_item with
  | QA _ _ => experiment_type = "qa"
  | QARaw transcript (Some _) queries =>
      experiment_type = "qa"
      /\ transcript <> "" /\ Py.strip transcript = transcript
      /\ queries <> [] /\ Forall (fun query => query <> "") queries
  | Summarization transcript _ (Some _) =>
      experiment_type = "summarization"
      /\ transcript <> "" /\ Py.strip transcript = transcript
  | _ => False
  end.

(** The source file of an item that has one. *)
Definition source_of (data_item : DataItem) : option string :=
  match data_item with
  | QARaw _ source_file _ => source_file
  | Summarization _ _ source_file => source_file
  | _ => None
  end.

(** [lstrip] on the list of characters of a string. *)
Fixpoint lstrip_chars (l : list ascii) : list ascii :=
  match l with
  | [] => []
  | c :: r => if Py.isspace c then lstrip_chars r else l
  end.

End Loader.

Module Config.
Import Batch Loader.
Open Scope float_scope.

(** One entry of the "experiments" array of a configuration file;
    absent keys are [None]. *)
Record ExperimentEntry : Type := {
  en_name : option string;
  en_llm_type : option string;
  en_model : option string;
  en_system_prompt : option string;
  en_experiment_type : option string;
  en_max_tokens : option Z;
  en_temperature : option float;
  en_parameters : option (gmap string string);
}.

Record ConfigDocument : Type := {
  cfg_experiments : option (list ExperimentEntry);
}.

(** [exp_data[key]]: a missing key raises [KeyError(key)], whose
    string is the key in single quotes. *)
Definition required (key : string) (v : option string) : Outcome string :=
  match v with
  | Some v => Returned v
  | None => Raised ("'" +:+ key +:+ "'")
  end.

(** Lines 59-68: the keyword arguments are evaluated in order, then the
    dataclass is built and [__post_init__] runs. *)
Definition experiment_of_entry (exp_data : ExperimentEntry)
  : Outcome ExperimentConfig :=
  match required "name" (en_name exp_data) with
  | Raised e => Raised e
  | Returned name =>
  match required "llm_type" (en_llm_type exp_data) with
  | Raised e => Raised e
  | Returned llm_type =>
  match required "model" (en_model exp_data) with
  | Raised e => Raised e
  | Returned model =>
  match required "system_prompt" (en_system_prompt exp_data) with
  | Raised e => Raised e
  | Returned system_prompt =>
      post_init
        {| name := name; llm_type := llm_type; model := model;
           system_prompt := system_prompt;
           experiment_type := default "qa" (en_experiment_type exp_data);
           max_tokens := default 512%Z (en_max_tokens exp_data);
           temperature := default 0.7 (en_temperature exp_data);
           parameters := default ∅ (en_parameters exp_data) |}
  end end end end.

(** The loop of lines 58-69 over the entries still to parse;
    [experiments] is [self.experiments]. *)
Fixpoint parse_experiments (entries : list ExperimentEntry)
    (experiments : list ExperimentConfig) : Outcome (list ExperimentConfig) :=
  match entries with
  | [] => Returned experiments
  | exp_data :: rest =>
      match experiment_of_entry exp_data with
      | Raised e => Raised e
      | Returned experiment => parse_experiments rest (experiments ++ [experiment])
      end
  end.

(** [load_config], from the outcome of opening and parsing the file on:
    an error is logged and raised again. *)
Definition load_config (config_data : Outcome ConfigDocument)
  : M (Outcome (list ExperimentConfig)) :=
  let parsed :=
    match config_data with
    | Raised e => Raised e
    | Returned config_data =>
        match cfg_experiments config_data with
        | None => Raised "Configuration file must contain 'experiments' array"
        | Some entries => parse_experiments entries []
        end
    end in
  match parsed with
  | Returned experiments => mret (Returned experiments)
  | Raised e =>
      _ ← log_error ("Error loading config file: " +:+ e);
      mret (Raised e)
  end.

(** The experiment that a configuration entry describes: the four
    required keys as given, the others with their defaults. *)
Definition configures (exp_data : ExperimentEntry) (e : ExperimentConfig) : Prop :=
  en_name exp_data = Some (name e)
  /\ en_llm_type exp_data = Some (llm_type e)
  /\ en_model exp_data = Some (model e)
  /\ en_system_prompt exp_data = Some (system_prompt e)
  /\ experiment_type e = default "qa" (en_experiment_type exp_data)
  /\ max_tokens e = default 512%Z (en_max_tokens exp_data)
  /\ temperature e = default 0.7 (en_temperature exp_data)
  /\ parameters e = default ∅ (en_parameters exp_data).

Section RunAll.

Variable get_completion_with_usage :
  Client -> list CallRecord -> string -> Outcome ClaudeResponse.
Variable completions :
  Client -> list CallRecord -> string -> string -> Z -> float ->
  Outcome LemonadeResponse.
Variable now : string.

(** The input files as they are when the world is [w]. *)
Variable fs : World -> FileSystem.



End RunAll.

(** The path of the result file of an experiment. *)
Definition result_path (output_dir : string) (e : ExperimentConfig) : string :=
  output_dir +:+ "/" +:+ result_filename e.


End Config.

Module Evaluate.
Import Eval Batch Analyze.
Open Scope float_scope.

#[export] Instance Outcome_ret : MRet Outcome := fun A a => Returned a.
#[export] Instance Outcome_bind : MBind Outcome :=
  fun A B f r => match r with Returned a => f a | Raised e => Raised e end.

(** [d[key]] on a dictionary that may lack [key]: [KeyError(key)], whose
    string is the key in single quotes. *)
Definition key_error (key : string) : string := "'" +:+ key +:+ "'".

Definition subscript {A} (key : string) (v : option A) : Outcome A :=
  match v with Some v => Returned v | None => Raised (key_error key) end.

(** [result["ground_truth"]] and [result["response"]] on a result entry:
    only a Q&A entry has these keys. *)
Definition entry_ground_truth (result : ResultEntry) : Outcome string :=
  match result with
  | QAEntry _ ground_truth _ => Returned ground_truth
  | _ => Raised (key_error "ground_truth")
  end.

Definition entry_response (result : ResultEntry) : Outcome string :=
  match result with
  | QAEntry _ _ response => Returned response
  | _ => Raised (key_error "response")
  end.

(** The metrics dictionary that [evaluate] returns. *)
Record Metrics : Type := {
  test_file : string;
  timestamp : string;
  threshold : float;
  num_questions : nat;
  mean : float;
  median : float;
  std : float;
  min : float;
  max : float;
  num_passed : nat;
  num_failed : Z;
  accuracy : float;
  accuracy_percentage : float;
  pass_rate : float;
  rating : string;          (* overall_rating.rating *)
}.

(** [a / b] on integers: true division, which raises on a zero divisor. *)
Definition int_truediv (a b : nat) : Outcome float :=
  match b with
  | O => Raised "division by zero"
  | _ => Returned (Py.float_of_nat a / Py.float_of_nat b)
  end.

(** [sum(pass_results)]: the number of [True]. *)
Definition count_true (l : list bool) : nat := length (List.filter id l).

(** Lines 208-215. *)
Definition rating_of (pass_rate mean_similarity : float) : string :=
  if (0.9 <=? pass_rate) && (0.8 <=? mean_similarity) then "excellent"
  else if (0.8 <=? pass_rate) && (0.7 <=? mean_similarity) then "good"
  else if (0.6 <=? pass_rate) && (0.6 <=? mean_similarity) then "fair"
  else "poor".

Section Evaluate.

Variable tfidf_cosine : string -> string -> Outcome float.

(** numpy's reductions, on the list of similarities. *)
Variable np_mean np_median np_std np_min np_max : list float -> Outcome float.

(** The loop of lines 166-171. *)
Fixpoint score_results (qa_results : list ResultEntry) (threshold : float)
    (similarities : list float) (pass_results : list bool)
  : Outcome (list float * list bool) :=
  match qa_results with
  | [] => Returned (similarities, pass_results)
  | result :: rest =>
      ground_truth ← entry_ground_truth result;
      response ← entry_response result;
      let similarity := calculate_similarity tfidf_cosine ground_truth response in
      score_results rest threshold (similarities ++ [similarity])
                    (pass_results ++ [threshold <=? similarity])
  end.

(** [evaluate] after [load_results]. *)
Definition evaluate_loaded (results : LoadedResults) : Outcome Metrics :=
  analysis ← subscript "analysis" (lr_analysis results);
  qa_results ← subscript "qa_results" (analysis !! "qa_results");
  metadata ← subscript "metadata" (lr_metadata results);
  threshold ← subscript "similarity_threshold" (lm_similarity_threshold metadata);
  scored ← score_results qa_results threshold [] [];
  let similarities := scored.1 in
  let pass_results := scored.2 in
  let total_questions := length pass_results in
  let passed_questions := count_true pass_results in
  let failed_questions := (Z.of_nat total_questions - Z.of_nat passed_questions)%Z in
  let accuracy :=
    if (0 <? total_questions)%nat
    then Py.float_of_nat passed_questions / Py.float_of_nat total_questions
    else 0.0 in
  test_file ← subscript "test_file" (lm_test_file metadata);
  timestamp ← subscript "timestamp" (lm_timestamp metadata);
  mean ← np_mean similarities;
  median ← np_median similarities;
  std ← np_std similarities;
  min ← np_min similarities;
  max ← np_max similarities;
  pass_rate ← int_truediv passed_questions (length qa_results);
  mret {| test_file := test_file; timestamp := timestamp; threshold := threshold;
          num_questions := length qa_results;
          mean := mean; median := median; std := std; min := min; max := max;
          num_passed := passed_questions; num_failed := failed_questions;
          accuracy := accuracy; accuracy_percentage := accuracy * 100.0;
          pass_rate := pass_rate;
          rating := rating_of pass_rate mean |}.

(** [evaluate], from the outcome of opening and parsing the results file
    on; [load_results] logs its error and raises it again. *)
Definition evaluate (loaded : Outcome LoadedResults) : M (Outcome Metrics) :=
  match loaded with
  | Raised e =>
      _ ← log_error ("Error loading results file: " +:+ e);
      mret (Raised e)
  | Returned results => mret (evaluate_loaded results)
  end.

End Evaluate.

Definition is_qa (data_item : DataItem) : bool :=
  match data_item with QA _ _ => true | _ => false end.

End Evaluate.

Module Span.

(** [s.find(c)] for a single character [c]: the index of its first
    occurrence, or -1. *)
Fixpoint find (c : ascii) (s : string) : Z :=
  match s with
  | EmptyString => (-1)%Z
  | String a r =>
      if Ascii.eqb a c then 0%Z
      else let k := find c r in if (k <? 0)%Z then (-1)%Z else (k + 1)%Z
  end.

(** [s.rfind(c)] for a single character [c]: the index of its last
    occurrence, or -1. *)
Fixpoint rfind (c : ascii) (s : string) : Z :=
  match s with
  | EmptyString => (-1)%Z
  | String a r =>
      let k := rfind c r in
      if (0 <=? k)%Z then (k + 1)%Z
      else if Ascii.eqb a c then 0%Z else (-1)%Z
  end.

(** [s[i:j]] for [0 <= i <= j]. *)
Definition slice (s : string) (i j : Z) : string :=
  substring (Z.to_nat i) (Z.to_nat (j - i)) s.

(** Lines 382-385 (and 536-539): the text from the first opening brace
    to the last closing brace, if there is a closing brace after the
    first opening one. *)
Definition json_content (response_text : string) : option string :=
  let json_start := find "{" response_text in
  let json_end := (rfind "}" response_text + 1)%Z in
  if (0 <=? json_start)%Z && (json_start <? json_end)%Z
  then Some (slice response_text json_start json_end)
  else None.

(** [c] occurs in [s]. *)
Definition occurs (c : ascii) (s : string) : Prop :=
  In c (list_ascii_of_string s).

End Span.

Module Template.
Import Batch Analyze Loader.
Open Scope float_scope.

(** The template that [create_template] writes. *)
Record TemplateDocument : Type := {
  tp_test_file : string;
  tp_timestamp : string;
  tp_similarity_threshold : float;
  tp_instructions : string;
  tp_qa_results : list ResultEntry;
}.

(** Reading a template back as a results file. *)
Definition reload_template (t : TemplateDocument) : LoadedResults :=
  {| lr_analysis := Some {[ "qa_results" := tp_qa_results t ]};
     lr_qa_results := None;
     lr_metadata :=
       Some {| lm_test_file := Some (tp_test_file t);
               lm_timestamp := Some (tp_timestamp t);
               lm_similarity_threshold := Some (tp_similarity_threshold t) |} |}.

(** [qa_pair.get("question", qa_pair.get("query", ""))] *)
Definition template_query (qa_pair : QAPair) : string :=
  default (default "" (pair_query qa_pair)) (pair_question qa_pair).

(** [qa_pair.get("answer", qa_pair.get("response",
                                        qa_pair.get("ground_truth", "")))] *)
Definition template_ground_truth (qa_pair : QAPair) : string :=
  default (default (default "" (pair_ground_truth qa_pair))
                   (pair_response qa_pair))
          (pair_answer qa_pair).

(** The placeholder of question number [i] (counted from 0). *)
Definition placeholder (i : nat) : string :=
  "[FILL IN YOUR RAG SYSTEM RESPONSE FOR QUESTION " +:+ pretty (i + 1)%nat +:+ "]".

(** Lines 1101-1111, from question number [i] on. *)
Fixpoint template_entries (i : nat) (qa_pairs : list QAPair) : list ResultEntry :=
  match qa_pairs with
  | [] => []
  | qa_pair :: rest =>
      QAEntry (template_query qa_pair) (template_ground_truth qa_pair)
              (placeholder i)
        :: template_entries (S i) rest
  end.

(** [s.endswith(suffix)] *)
Definition endswith (s suffix : string) : bool :=
  (String.length suffix <=? String.length s)%nat
  && String.eqb (substring (String.length s - String.length suffix)
                           (String.length suffix) s) suffix.

(** Lines 1118-1124. *)
Definition template_filename (groundtruth_filename : string) : string :=
  let base_name :=
    if endswith groundtruth_filename ".groundtruth"
    then substring 0 (String.length groundtruth_filename - 12) groundtruth_filename
    else groundtruth_filename in
  base_name +:+ ".template.json".

Section CreateTemplate.

Variable fs : FileSystem.
Variable now : string.

(** [create_template]: the path it returns together with the template
    it wrote there. Writing is taken to succeed; an error is logged and
    raised again. *)
Definition create_template (groundtruth_file output_dir : string)
    (similarity_threshold : float) : M (Outcome (string * TemplateDocument)) :=
  let created :=
    match load_json fs groundtruth_file with
    | Raised e => Raised e
    | Returned groundtruth_data =>
        match default [] (gt_qa_pairs groundtruth_data) with
        | [] => Raised "No QA pairs found in ground truth file"
        | qa_pairs =>
            Returned
              (path_join fs output_dir
                         (template_filename (path_stem fs groundtruth_file)),
               {| tp_test_file := groundtruth_file;
                  tp_timestamp := now;
                  tp_similarity_threshold := similarity_threshold;
                  tp_instructions :=
                    "Fill in the 'response' fields with your RAG system outputs, then evaluate using gaia eval";
                  tp_qa_results := template_entries 0 qa_pairs |})
        end
    end in
  match created with
  | Returned r => mret (Returned r)
  | Raised e =>
      _ ← log_error ("Error creating template: " +:+ e);
      mret (Raised e)
  end.

End CreateTemplate.

(** A pair that the template and the batch loader read alike: it does
    not carry two different questions under "query" and "question", nor
    two different answers under "response" and "answer", and it has no
    "ground_truth" that only the template would read. *)
Definition read_alike (qa_pair : QAPair) : Prop :=
  (pair_query qa_pair = None \/ pair_question qa_pair = None
   \/ pair_query qa_pair = pair_question qa_pair)
  /\ (pair_response qa_pair = None \/ pair_answer qa_pair = None
      \/ pair_response qa_pair = pair_answer qa_pair)
  /\ (pair_response qa_pair = None -> pair_answer qa_pair = None ->
      pair_ground_truth qa_pair = None).

(** The question and the reference answer of an entry or item. *)
Definition entry_question (entry : ResultEntry) : option (string * string) :=
  match entry with
  | QAEntry query ground_truth _ => Some (query, ground_truth)
  | _ => None
  end.

Definition item_question (data_item : DataItem) : option (string * string) :=
  match data_item with
  | QA query ground_truth => Some (query, ground_truth)
  | _ => None
  end.

End Template.

Module Generate.
Import Batch Loader Config.
Open Scope float_scope.

(** Lines 951-955. *)
Definition model_variants : list (string * string) :=
  [("claude-3-haiku-20240307", "Haiku");
   ("claude-3-opus-20240229", "Opus");
   ("claude-sonnet-4-20250514", "Sonnet-4")].

(** Lines 926-932: the prompt used when the metadata has none. *)
Definition default_prompt (use_case : string) : string :=
  if String.eqb use_case "qa" then
    "You are an expert meeting analyst. Answer questions about the transcript accurately and concisely based only on the provided information."
  else if String.eqb use_case "summarization" then
    "You are an expert meeting analyst. Create a concise summary of the transcript including key topics, decisions, and action items."
  else
    "You are an expert analyst. Process the provided content according to the task requirements.".

(** [min(0.7, x)]: the first argument unless the second is smaller. *)
Definition min_07 (x : float) : float := if x <? 0.7 then x else 0.7.

Section CreateConfig.

Variable fs : FileSystem.

(** [original_model.replace("claude-", "").replace("-", "-").title()] *)
Variable model_title : string -> string.

Definition entry (name model use_case prompt : string) (max_tokens : Z)
    (temperature : float) : ExperimentEntry :=
  {| en_name := Some name;
     en_llm_type := Some "claude";
     en_model := Some model;
     en_system_prompt := Some prompt;
     en_experiment_type := Some use_case;
     en_max_tokens := Some max_tokens;
     en_temperature := Some temperature;
     en_parameters := Some ∅ |}.

(** Lines 934-995: the experiments of the generated configuration. *)
Definition generated_experiments (groundtruth_data : Groundtruth)
  : list ExperimentEntry :=
  let use_case := default "qa" (gt_use_case groundtruth_data) in
  let original_model :=
    default "claude-sonnet-4-20250514" (gt_claude_model groundtruth_data) in
  let original_prompt := default "" (gt_system_prompt groundtruth_data) in
  let max_tokens :=
    default (if String.eqb use_case "qa" then 512%Z else 1024%Z)
            (gt_max_tokens groundtruth_data) in
  let temperature := default 0.1 (gt_temperature groundtruth_data) in
  let original_prompt :=
    if Py.truthy_str original_prompt then original_prompt
    else default_prompt use_case in
  let base_name := model_title original_model in
  let make name model temperature :=
    entry name model use_case original_prompt max_tokens temperature in
  [make (base_name +:+ "-Original") original_model temperature]
  ++ omap (fun variant : string * string =>
             if negb (String.eqb variant.1 original_model)
             then Some (make ("Claude-" +:+ variant.2 +:+ "-Same-Prompt")
                             variant.1 temperature)
             else None)
          model_variants
  ++ (if negb (temperature =? 0.0)
      then [make (base_name +:+ "-Creative") original_model
                 (min_07 (temperature + 0.3))]
      else [])
  ++ (if negb (temperature =? 0.0)
      then [make (base_name +:+ "-Deterministic") original_model 0.0]
      else []).

(** [create_config_from_groundtruth]: the path it returns, with the
    configuration it wrote there. Writing is taken to succeed; an error
    is logged and raised again. *)
Definition create_config_from_groundtruth (groundtruth_file output_file : string)
  : M (Outcome (string * ConfigDocument)) :=
  match load_json fs groundtruth_file with
  | Returned groundtruth_data =>
      mret (Returned (path_str fs output_file,
                      {| cfg_experiments :=
                           Some (generated_experiments groundtruth_data) |}))
  | Raised e =>
      _ ← log_error ("Error creating config from groundtruth: " +:+ e);
      mret (Raised e)
  end.

End CreateConfig.

(** An entry that [generated_experiments] makes for [use_case]. *)
Definition generated_for (use_case : string) (exp_data : ExperimentEntry) : Prop :=
  exists name model prompt max_tokens temperature,
    exp_data = entry name model use_case prompt max_tokens temperature.

End Generate.

Module Summaries.
Import Eval Report Batch Span Evaluate.
Open Scope float_scope.

(** One entry of [per_question] in a summarization analysis. The
    "analysis" dictionary is Claude's parsed reply, or an "error" entry;
    "usage" and "cost" are there once the reply was parsed. *)
Record SummaryAnalysis : Type := {
  summary_index : nat;
  sa_source_file : string;
  sa_analysis : gmap string AnalysisValue;
  sa_overall_quality : AnalysisValue;
  sa_usage : option (option (gmap string Z));
  sa_cost : option (option (gmap string float));
}.

(** The "metrics" of the overall rating (lines 979-995). *)
Record SummaryMetrics : Type := {
  sm_total_summaries : nat;
  sm_excellent_count : nat;
  sm_good_count : nat;
  sm_fair_count : nat;
  sm_poor_count : nat;
  sm_quality_score : float;
}.

(** The analysis that [_analyze_summarization_results] returns for a
    non-empty list of results. *)
Record SummarizationAnalysis : Type := {
  san_per_question : list SummaryAnalysis;
  san_rating : string;
  san_metrics : SummaryMetrics;
  san_total_usage : gmap string Z;
  san_total_cost : gmap string float;
}.

(** What [_analyze_summarization_results] returns: the fixed dictionary
    of lines 682-694 when there is no result, an analysis otherwise. *)
Inductive SummarizationOutcome : Type :=
  | NoSummaries
  | Analysed (a : SummarizationAnalysis).

(** [quality_ratings.count(q)] *)
Definition count_quality (q : string) (l : list SummaryAnalysis) : nat :=
  length (List.filter
            (fun s => match sa_overall_quality s with
                      | AText r => String.eqb r q
                      | AJudgment _ => false
                      end) l).

(** [count >= total_summaries * 0.7] *)
Definition most (count total : nat) : bool :=
  Py.float_of_nat total * 0.7 <=? Py.float_of_nat count.

(** Lines 955-962. *)
Definition overall_summary_rating (excellent good fair total : nat) : string :=
  if most excellent total then "excellent"
  else if most (excellent + good) total then "good"
  else if most (excellent + good + fair) total then "fair"
  else "poor".

(** [{"error": msg}] *)
Definition error_analysis (msg : string) : gmap string AnalysisValue :=
  {[ "error" := AText msg ]}.

(** [total[key] += d.get(key, 0)] for the three keys of [total]. *)
Definition add_usage (total d : gmap string Z) : gmap string Z :=
  map_imap (fun key v => Some (v + default 0 (d !! key))%Z) total.

Definition add_cost (total d : gmap string float) : gmap string float :=
  map_imap (fun key v => Some (v + default 0.0 (d !! key))) total.

(** The state of the loop over the results. *)
Record LoopState : Type := {
  ls_per_question : list SummaryAnalysis;
  ls_total_usage : gmap string Z;
  ls_total_cost : gmap string float;
}.

Section Analyzer.

(** The evaluator's Claude client. *)
Variable get_completion_with_usage :
  list CallRecord -> string -> Outcome ClaudeResponse.

(** [json.loads], with the reply read as a dictionary of texts and
    rated criteria. *)
Variable json_loads : string -> Outcome (gmap string AnalysisValue).

(** The prompt for summary number [i] (the f-strings of lines 780-890,
    filled from the generated summaries and from the ground truth that
    lines 697-768 find for the summary). *)
Variable prompt_of : nat -> ResultEntry -> string.

Definition entry_source_file (summary_result : ResultEntry) : string :=
  match summary_result with
  | SummarizationEntry _ _ source_file _ => source_file
  | TranscriptQAEntry _ source_file _ => source_file
  | QAEntry _ _ _ => ""
  end.

Definition failed_summary (i : nat) (summary_result : ResultEntry) (e : string)
    (usage : option (option (gmap string Z)))
    (cost : option (option (gmap string float))) : SummaryAnalysis :=
  {| summary_index := i;
     sa_source_file := entry_source_file summary_result;
     sa_analysis := error_analysis e;
     sa_overall_quality := AText "error";
     sa_usage := usage;
     sa_cost := cost |}.

Definition none_has_no_get : string := "'NoneType' object has no attribute 'get'".

(** One iteration of the loop of lines 720-945. *)
Definition analyze_summary (i : nat) (summary_result : ResultEntry)
    (st : LoopState) : M LoopState :=
  let prompt := prompt_of i summary_result in
  r ← (fun w => record_call prompt (get_completion_with_usage (calls w) prompt) w);
  let failed e usage cost total_usage :=
    _ ← log_error ("Error analyzing summary " +:+ pretty i +:+ ": " +:+ e);
    mret {| ls_per_question :=
              ls_per_question st ++ [failed_summary i summary_result e usage cost];
            ls_total_usage := total_usage;
            ls_total_cost := ls_total_cost st |} in
  match r with
  | Raised e => failed e None None (ls_total_usage st)
  | Returned response_data =>
      let parsed :=
        match json_content (content response_data) with
        | Some json =>
            match json_loads json with
            | Returned analysis =>
                Returned (analysis,
                          default (AText "unknown") (analysis !! "overall_quality"))
            | Raised e => Raised e
            end
        | None =>
            Returned (error_analysis "Failed to parse Claude response", AText "error")
        end in
      match parsed with
      | Raised e => failed e None None (ls_total_usage st)
      | Returned (analysis, overall_quality) =>
          let usage := Some (claude_usage response_data) in
          let cost := Some (claude_cost response_data) in
          match claude_usage response_data with
          | None => failed none_has_no_get usage cost (ls_total_usage st)
          | Some u =>
              let total_usage := add_usage (ls_total_usage st) u in
              match claude_cost response_data with
              | None => failed none_has_no_get usage cost total_usage
              | Some c =>
                  mret {| ls_per_question :=
                            ls_per_question st
                              ++ [{| summary_index := i;
                                     sa_source_file := entry_source_file summary_result;
                                     sa_analysis := analysis;
                                     sa_overall_quality := overall_quality;
                                     sa_usage := usage;
                                     sa_cost := cost |}];
                          ls_total_usage := total_usage;
                          ls_total_cost := add_cost (ls_total_cost st) c |}
              end
          end
      end
  end.

(** [for i, summary_result in enumerate(summarization_results)], from
    index [i] on. *)
Fixpoint analyze_summaries (i : nat) (summarization_results : list ResultEntry)
    (st : LoopState) : M LoopState :=
  match summarization_results with
  | [] => mret st
  | summary_result :: rest =>
      st' ← analyze_summary i summary_result st;
      analyze_summaries (S i) rest st'
  end.

(** Lines 947-999: the overall analysis from the per-summary ones. *)
Definition summarize (st : LoopState) : SummarizationAnalysis :=
  let l := ls_per_question st in
  let excellent_count := count_quality "excellent" l in
  let good_count := count_quality "good" l in
  let fair_count := count_quality "fair" l in
  let poor_count := count_quality "poor" l in
  let total_summaries := length l in
  {| san_per_question := l;
     san_rating :=
       overall_summary_rating excellent_count good_count fair_count total_summaries;
     san_metrics :=
       {| sm_total_summaries := total_summaries;
          sm_excellent_count := excellent_count;
          sm_good_count := good_count;
          sm_fair_count := fair_count;
          sm_poor_count := poor_count;
          sm_quality_score :=
            if (0 <? total_summaries)%nat
            then Py.float_of_nat (excellent_count * 4 + good_count * 3
                                  + fair_count * 2 + poor_count * 1)
                 / Py.float_of_nat total_summaries
            else 0 |};
     san_total_usage := ls_total_usage st;
     san_total_cost := ls_total_cost st |}.

(** [_analyze_summarization_results] *)
Definition _analyze_summarization_results (summarization_results : list ResultEntry)
  : M SummarizationOutcome :=
  match summarization_results with
  | [] => mret NoSummaries
  | _ =>
      st ← analyze_summaries 0 summarization_results
             {| ls_per_question := []; ls_total_usage := zero_usage;
                ls_total_cost := zero_cost |};
      mret (Analysed (summarize st))
  end.

End Analyzer.

(** The evaluation file that [generate_enhanced_report] writes for a
    summarization analysis, as [generate_summary_report] reads it. *)
Definition as_question (s : SummaryAnalysis) : Question :=
  {| analysis := Some (sa_analysis s);
     similarity_score := None;
     passed_threshold := None |}.

Definition as_eval_document (a : SummarizationAnalysis) : EvalDocument :=
  {| metrics :=
       <["total_summaries" := Py.float_of_nat (sm_total_summaries (san_metrics a))]>
       (<["excellent_count" := Py.float_of_nat (sm_excellent_count (san_metrics a))]>
       (<["good_count" := Py.float_of_nat (sm_good_count (san_metrics a))]>
       (<["fair_count" := Py.float_of_nat (sm_fair_count (san_metrics a))]>
       (<["poor_count" := Py.float_of_nat (sm_poor_count (san_metrics a))]>
       (<["quality_score" := sm_quality_score (san_metrics a)]> ∅)))));
     overall_rating := Some (san_rating a);
     doc_total_cost := san_total_cost a !! "total_cost";
     doc_per_question := Some (as_question <$> san_per_question a) |}.

(** An entry whose stored quality is what its analysis says: the value
    under "overall_quality", or a text other than the four ratings when
    the analysis has none. *)
Definition quality_stored (s : SummaryAnalysis) : Prop :=
  match sa_analysis s !! "overall_quality" with
  | Some q => sa_overall_quality s = q
  | None => exists t, sa_overall_quality s = AText t
                      /\ t ∉ ["excellent"; "good"; "fair"; "poor"]
  end.

End Summaries.

Module QAAnalysis.
Import Eval Report Batch Analyze Span Evaluate Summaries.
Open Scope float_scope.

(** The [qa_inputs] dictionary of a question, after
    [qa_inputs.update(pass_fail_result)]. *)
Record QAInputs : Type := {
  qi_query : string;
  qi_ground_truth : string;
  qi_response : string;
  qi_similarity : float;
  qi_threshold : float;
  qi_verdict : Verdict;
}.

(** The [qa_inputs] dictionary as lines 315-321 build it, before the
    verdict is added. *)
Record Prepared : Type := {
  p_query : string;
  p_ground_truth : string;
  p_response : string;
  p_similarity : float;
  p_threshold : float;
}.

(** [qa_inputs.update(pass_fail_result)] *)
Definition with_verdict (p : Prepared) (verdict : Verdict) : QAInputs :=
  {| qi_query := p_query p; qi_ground_truth := p_ground_truth p;
     qi_response := p_response p; qi_similarity := p_similarity p;
     qi_threshold := p_threshold p; qi_verdict := verdict |}.

(** One entry of [per_question]:
    - Claude's parsed rubric with "qa_inputs", "usage" and "cost" added;
    - an entry with "error" and "raw_response" when the reply had no
      JSON or could not be used;
    - an entry with status "raw_data_only", written by the overload
      handler. *)
Inductive QuestionAnalysis : Type :=
  | Judged (rubric : gmap string CriterionJudgment) (qa_inputs : QAInputs)
           (usage : option (gmap string Z)) (cost : option (gmap string float))
  | Unjudged (error raw_response : string) (qa_inputs : QAInputs)
             (usage : option (gmap string Z)) (cost : option (gmap string float))
  | RawDataOnly (qa_inputs : QAInputs).

Definition inputs_of (q : QuestionAnalysis) : QAInputs :=
  match q with
  | Judged _ qa_inputs _ _ => qa_inputs
  | Unjudged _ _ qa_inputs _ _ => qa_inputs
  | RawDataOnly qa_inputs => qa_inputs
  end.

(** The "overall_rating" of Claude's overall reply. *)
Record RatingReply : Type := {
  rr_rating : option string;
  rr_metrics : option (gmap string float);
}.

(** Claude's overall reply, read as a dictionary: its "overall_rating",
    if it has one. The texts of the reply are left out. *)
Record OverallReply : Type := {
  or_overall_rating : option RatingReply;
}.

(** The analysis dictionary that [_analyze_qa_results] returns for a
    non-empty list of results: [an_overall_rating] is the value under
    "overall_rating"; "total_usage" and "total_cost" are missing from
    the partial analysis of the overload handler. *)
Record QAAnalysis : Type := {
  an_per_question : list QuestionAnalysis;
  an_overall_rating : RatingReply;
  an_error : option string;
  an_total_usage : option (gmap string Z);
  an_total_cost : option (gmap string float);
}.

Inductive QAOutcome : Type :=
  | NoQAResults
  | AnalysedQA (a : QAAnalysis).

(** [needle in s] *)
Fixpoint contains (needle s : string) : bool :=
  String.prefix needle s
  || match s with
     | EmptyString => false
     | String _ r => contains needle r
     end.

(** Line 600: an error that the handler takes for an overload. *)
Definition is_overload (api_error : string) : bool :=
  contains "529" api_error || contains "overloaded" (Py.lower api_error).

(** [determine_pass_fail(similarity_score, threshold, None)] *)
Definition similarity_only (similarity threshold : float) : Verdict :=
  {| is_pass := threshold <=? similarity;
     pass_fail := pass_fail_of (threshold <=? similarity);
     criteria := "similarity_only";
     scores := None |}.

(** [total[key] += d.get(key, 0)], where [d] may be [None]. *)
Definition add_usage_of (total : gmap string Z) (d : option (gmap string Z))
  : Outcome (gmap string Z) :=
  match d with
  | Some d => Returned (add_usage total d)
  | None => Raised none_has_no_get
  end.

Definition add_cost_of (total : gmap string float) (d : option (gmap string float))
  : Outcome (gmap string float) :=
  match d with
  | Some d => Returned (add_cost total d)
  | None => Raised none_has_no_get
  end.

Definition usage_of (q : QuestionAnalysis)
  : option (option (gmap string Z) * option (gmap string float)) :=
  match q with
  | Judged _ _ usage cost => Some (usage, cost)
  | Unjudged _ _ _ usage cost => Some (usage, cost)
  | RawDataOnly _ => None
  end.

(** Lines 567-578: the usage and cost of the questions, summed. *)
Fixpoint sum_questions (per_question : list QuestionAnalysis)
    (total_usage : gmap string Z) (total_cost : gmap string float)
  : Outcome (gmap string Z * gmap string float) :=
  match per_question with
  | [] => Returned (total_usage, total_cost)
  | question_analysis :: rest =>
      match usage_of question_analysis with
      | Some (usage, cost) =>
          total_usage ← add_usage_of total_usage usage;
          total_cost ← add_cost_of total_cost cost;
          sum_questions rest total_usage total_cost
      | None => sum_questions rest total_usage total_cost
      end
  end.

Definition initial_rating : RatingReply :=
  {| rr_rating := Some ""; rr_metrics := None |}.

Definition pending_rating : RatingReply :=
  {| rr_rating := Some "pending"; rr_metrics := None |}.

Section Analyzer.

Variable tfidf_cosine : string -> string -> Outcome float.

(** The evaluator's Claude client. *)
Variable get_completion_with_usage :
  list CallRecord -> string -> Outcome ClaudeResponse.

(** [json.loads] on the reply for a question, read as a rubric, and on
    the overall reply. A reply that does not parse, or a rubric that
    [determine_pass_fail] cannot read, raises. *)
Variable loads_rubric : string -> Outcome (gmap string CriterionJudgment).
Variable loads_overall : string -> Outcome OverallReply.

(** The prompts (the f-strings of lines 323-357 and 456-510) and
    [str(response_data)]. *)
Variable question_prompt_of : string -> string -> string -> float -> string.
Variable overall_prompt_of : float -> list QuestionAnalysis -> string.
Variable show_response : ClaudeResponse -> string.

Definition ask (prompt : string) : M (Outcome ClaudeResponse) :=
  fun w => record_call prompt (get_completion_with_usage (calls w) prompt) w.

(** [results["metadata"]["similarity_threshold"]] *)
Definition threshold_of (results : LoadedResults) : Outcome float :=
  metadata ← subscript "metadata" (lr_metadata results);
  subscript "similarity_threshold" (lm_similarity_threshold metadata).

Definition entry_query (result : ResultEntry) : Outcome string :=
  match result with
  | QAEntry query _ _ => Returned query
  | _ => Raised (key_error "query")
  end.

(** Lines 309-322: the similarity, the threshold and the inputs of a
    question, before the verdict. *)
Definition prepare (results : LoadedResults) (qa_result : ResultEntry)
  : Outcome Prepared :=
  ground_truth ← entry_ground_truth qa_result;
  response ← entry_response qa_result;
  let similarity_score := calculate_similarity tfidf_cosine ground_truth response in
  threshold ← threshold_of results;
  query ← entry_query qa_result;
  mret {| p_query := query; p_ground_truth := ground_truth;
          p_response := response; p_similarity := similarity_score;
          p_threshold := threshold |}.

(** The inner [try] of lines 361-417 on the reply of Claude. *)
Definition judge (inputs : Prepared) (response_data : ClaudeResponse)
  : M QuestionAnalysis :=
  let similarity := p_similarity inputs in
  let threshold := p_threshold inputs in
  let usage := claude_usage response_data in
  let cost := claude_cost response_data in
  let attempt :=
    match json_content (content response_data) with
    | Some json =>
        qa_analysis ← loads_rubric json;
        pass_fail_result ← determine_pass_fail similarity threshold (Some qa_analysis);
        mret (Some (qa_analysis, pass_fail_result))
    | None => mret None
    end in
  match attempt with
  | Returned (Some (qa_analysis, pass_fail_result)) =>
      mret (Judged qa_analysis (with_verdict inputs pass_fail_result) usage cost)
  | Returned None =>
      _ ← log_error "No JSON found in response for question";
      mret (Unjudged "Failed to parse analysis" (content response_data)
                     (with_verdict inputs (similarity_only similarity threshold))
                     usage cost)
  | Raised e =>
      _ ← log_error ("Error processing analysis: " +:+ e);
      mret (Unjudged e (show_response response_data)
                     (with_verdict inputs (similarity_only similarity threshold))
                     usage cost)
  end.

(** The loop of lines 308-417: the first exception ends it, and leaves
    the entries appended so far in [analysis["per_question"]]. *)
Fixpoint analyze_questions (results : LoadedResults) (qa_results : list ResultEntry)
    (per_question : list QuestionAnalysis)
  : M (list QuestionAnalysis * option string) :=
  match qa_results with
  | [] => mret (per_question, None)
  | qa_result :: rest =>
      match prepare results qa_result with
      | Raised e => mret (per_question, Some e)
      | Returned inputs =>
          r ← ask (question_prompt_of (p_query inputs) (p_ground_truth inputs)
                                      (p_response inputs) (p_similarity inputs));
          match r with
          | Raised e => mret (per_question, Some e)
          | Returned response_data =>
              q ← judge inputs response_data;
              analyze_questions results rest (per_question ++ [q])
          end
      end
  end.

(** Lines 512-559: the overall analysis. *)
Definition analyze_overall (threshold : float)
    (per_question : list QuestionAnalysis)
  : M (Outcome (RatingReply * option string
                * option (gmap string Z) * option (gmap string float))) :=
  r ← ask (overall_prompt_of threshold per_question);
  match r with
  | Raised e => mret (Raised e)
  | Returned overall_response_data =>
      let overall_usage := claude_usage overall_response_data in
      let overall_cost := claude_cost overall_response_data in
      match json_content (content overall_response_data) with
      | Some json =>
          match loads_overall json with
          | Returned overall_analysis =>
              mret (Returned (default initial_rating
                                      (or_overall_rating overall_analysis),
                              None, overall_usage, overall_cost))
          | Raised e =>
              _ ← log_error ("Error processing overall analysis: " +:+ e);
              mret (Returned (initial_rating, Some e, overall_usage, overall_cost))
          end
      | None =>
          _ ← log_error "No JSON found in overall analysis response";
          mret (Returned (initial_rating, Some "Failed to parse overall analysis",
                          overall_usage, overall_cost))
      end
  end.

(** Lines 601-651: the overload handler appends a raw entry for every
    result to the entries that are already there. *)
Fixpoint raw_entries (results : LoadedResults) (qa_results : list ResultEntry)
    (per_question : list QuestionAnalysis) : Outcome (list QuestionAnalysis) :=
  match qa_results with
  | [] => Returned per_question
  | qa_result :: rest =>
      inputs ← prepare results qa_result;
      raw_entries results rest
        (per_question
           ++ [RawDataOnly
                 (with_verdict inputs (similarity_only (p_similarity inputs)
                                                       (p_threshold inputs)))])
  end.

(** The handler of lines 599-651 for an exception [api_error] raised
    when [analysis["per_question"]] is [per_question]. *)
Definition handle_error (results : LoadedResults) (qa_results : list ResultEntry)
    (per_question : list QuestionAnalysis) (api_error : string)
  : Outcome QAOutcome :=
  if is_overload api_error then
    per_question ← raw_entries results qa_results per_question;
    mret (AnalysedQA {| an_per_question := per_question;
                        an_overall_rating := pending_rating;
                        an_error := None;
                        an_total_usage := None;
                        an_total_cost := None |})
  else Raised api_error.

(** [_analyze_qa_results] *)
Definition _analyze_qa_results (results : LoadedResults)
    (qa_results : list ResultEntry) : M (Outcome QAOutcome) :=
  match qa_results with
  | [] => mret (Returned NoQAResults)
  | _ =>
      looped ← analyze_questions results qa_results [];
      match looped with
      | (per_question, Some api_error) =>
          mret (handle_error results qa_results per_question api_error)
      | (per_question, None) =>
          match threshold_of results with
          | Raised e => mret (handle_error results qa_results per_question e)
          | Returned threshold =>
              overall ← analyze_overall threshold per_question;
              match overall with
              | Raised e => mret (handle_error results qa_results per_question e)
              | Returned (rating, error, overall_usage, overall_cost) =>
                  let totals :=
                    totals ← sum_questions per_question zero_usage zero_cost;
                    total_usage ← add_usage_of totals.1 overall_usage;
                    total_cost ← add_cost_of totals.2 overall_cost;
                    mret (total_usage, total_cost) in
                  match totals with
                  | Raised e => mret (handle_error results qa_results per_question e)
                  | Returned (total_usage, total_cost) =>
                      mret (Returned
                              (AnalysedQA
                                 {| an_per_question := per_question;
                                    an_overall_rating := rating;
                                    an_error := error;
                                    an_total_usage := Some total_usage;
                                    an_total_cost := Some total_cost |}))
                  end
              end
          end
      end
  end.

End Analyzer.

(** The inputs of a Q&A result at [threshold]. *)
Definition prepared (tfidf_cosine : string -> string -> Outcome float)
    (threshold : float) (query ground_truth response : string) : Prepared :=
  {| p_query := query; p_ground_truth := ground_truth; p_response := response;
     p_similarity := calculate_similarity tfidf_cosine ground_truth response;
     p_threshold := threshold |}.

(** The analysed entry of a question: its inputs are those of the
    result, the similarity is the computed one, and the verdict is that
    of [determine_pass_fail] on the rubric, or on the similarity alone
    when there is no usable rubric. *)
Definition analyses (tfidf_cosine : string -> string -> Outcome float)
    (threshold : float) (qa_result : ResultEntry) (q : QuestionAnalysis) : Prop :=
  exists query ground_truth response,
    qa_result = QAEntry query ground_truth response
    /\ let p := prepared tfidf_cosine threshold query ground_truth response in
       match q with
       | Judged rubric qa_inputs _ _ =>
           exists verdict,
             determine_pass_fail (p_similarity p) threshold (Some rubric)
             = Returned verdict
             /\ qa_inputs = with_verdict p verdict
       | Unjudged _ _ qa_inputs _ _ =>
           qa_inputs = with_verdict p (similarity_only (p_similarity p) threshold)
       | RawDataOnly _ => False
       end.

(** The raw entry of a question. *)
Definition raw_of (tfidf_cosine : string -> string -> Outcome float)
    (threshold : float) (qa_result : ResultEntry) (q : QuestionAnalysis) : Prop :=
  exists query ground_truth response,
    qa_result = QAEntry query ground_truth response
    /\ let p := prepared tfidf_cosine threshold query ground_truth response in
       q = RawDataOnly
             (with_verdict p (similarity_only (p_similarity p) threshold)).

(** A Q&A entry. *)
Definition is_qa_entry (entry : ResultEntry) : Prop :=
  exists query ground_truth response, entry = QAEntry query ground_truth response.

Definition succeeded (c : CallRecord) : Prop := call_failure c = None.

(** The partial analysis of the overload handler. *)
Definition partial_analysis (per_question : list QuestionAnalysis) : QAAnalysis :=
  {| an_per_question := per_question;
     an_overall_rating := pending_rating;
     an_error := None;
     an_total_usage := None;
     an_total_cost := None |}.



(** The pass rate that a reply of Claude to the overall prompt states:
    [overall_rating.metrics.pass_rate] of its JSON, if the reply has
    JSON that parses and says so. *)
Definition stated_pass_rate (loads_overall : string -> Outcome OverallReply)
    (reply : Outcome ClaudeResponse) : option float :=
  match reply with
  | Returned response_data =>
      match json_content (content response_data) with
      | Some json =>
          match loads_overall json with
          | Returned overall_analysis =>
              rating ← or_overall_rating overall_analysis;
              metrics ← rr_metrics rating;
              metrics !! "pass_rate"
          | Raised _ => None
          end
      | None => None
      end
  | Raised _ => None
  end.

End QAAnalysis.

Module MoreSamples.
Import Batch Samples.
Open Scope float_scope.

(** A configuration that names a backend the runner does not know. *)
Definition openai_qa : ExperimentConfig :=
  {| name := "GPT QA"; llm_type := "OpenAI"; model := "gpt-4o";
     system_prompt := "Answer briefly."; experiment_type := "qa";
     max_tokens := 512; temperature := 0.1; parameters := ∅ |}.


(** A local backend that answers every prompt. *)
Definition local_lemonade
  : Client -> list CallRecord -> string -> string -> Z -> float ->
    Outcome LemonadeResponse :=
  fun _ _ _ _ _ _ => Returned {| choices := Some [Some " Alice and Bob. "] |}.

(** A rubric that rates completeness alone. *)
Definition completeness_only (r : string) : gmap string Eval.CriterionJudgment :=
  <["completeness" := rated r]> ∅.

(** A raw transcript, then a Q&A pair. *)
Definition transcript_then_question : list DataItem :=
  [QARaw "Alice: ship it. Bob: agreed." (Some "standup.txt") ["Who attended?"];
   QA "Who attended?" "Alice and Bob"].

(** Three Q&A pairs. *)
Definition three_questions : list DataItem :=
  [QA "Who attended?" "Alice and Bob";
   QA "What was decided?" "To ship";
   QA "When?" "Friday"].

(** A groundtruth document with two Q&A pairs. *)
Definition standup_pairs : list Loader.QAPair :=
  [{| Loader.pair_query := Some "Who attended?"; Loader.pair_question := None;
      Loader.pair_response := Some "Alice and Bob"; Loader.pair_answer := None;
      Loader.pair_ground_truth := None |};
   {| Loader.pair_query := None; Loader.pair_question := Some "What was decided?";
      Loader.pair_response := None; Loader.pair_answer := Some "To ship";
      Loader.pair_ground_truth := None |}].

Definition standup_groundtruth : Loader.Groundtruth :=
  {| Loader.gt_qa_pairs := Some standup_pairs;
     Loader.gt_summaries := None;
     Loader.gt_source_file := Some "notes/standup.txt";
     Loader.gt_use_case := Some "qa";
     Loader.gt_claude_model := None;
     Loader.gt_system_prompt := None;
     Loader.gt_max_tokens := None;
     Loader.gt_temperature := Some 0.1 |}.

(** A disk with one transcript, [notes/standup.txt], and its
    groundtruth, [gt/standup.groundtruth.json]. *)
Definition standup_disk : Loader.FileSystem :=
  {| Loader.path_str := fun p => p;
     Loader.is_file := fun p => String.eqb p "notes/standup.txt"
                                || String.eqb p "gt/standup.groundtruth.json";
     Loader.is_dir := fun p => String.eqb p "notes";
     Loader.path_exists := fun p => String.eqb p "notes/standup.txt"
                                    || String.eqb p "gt/standup.groundtruth.json"
                                    || String.eqb p "notes";
     Loader.suffix := fun p => if String.eqb p "gt/standup.groundtruth.json"
                               then ".json" else ".txt";
     Loader.path_stem := fun p => if String.eqb p "gt/standup.groundtruth.json"
                                  then "standup.groundtruth" else "standup";
     Loader.path_join := fun d name => d +:+ "/" +:+ name;
     Loader.read_text := fun p =>
       if String.eqb p "notes/standup.txt"
       then Returned " Alice: ship it. Bob: agreed. "
       else Raised "No such file or directory";
     Loader.load_json := fun p =>
       if String.eqb p "gt/standup.groundtruth.json"
       then Returned standup_groundtruth
       else Raised "Expecting value: line 1 column 1 (char 0)";
     Loader.glob_txt := fun d => if String.eqb d "notes"
                                 then ["notes/standup.txt"] else [] |}.

(** The item that the transcript loads to for a Q&A experiment. *)
Definition standup_items : list DataItem :=
  [QARaw "Alice: ship it. Bob: agreed." (Some "notes/standup.txt")
         Loader._get_default_queries].

(** A stand-in for numpy's reductions: the first element. *)
Definition first_of (l : list float) : Outcome float :=
  match l with
  | x :: _ => Returned x
  | [] => Raised "zero-size array to reduction operation"
  end.

(** A results file with two answered questions, at threshold 0.7. *)
Definition answered : list ResultEntry :=
  [QAEntry "Who attended?" "Alice and Bob" "Alice and Bob";
   QAEntry "What was decided?" "To ship" "Nothing"].

Definition answered_results : Analyze.LoadedResults :=
  {| Analyze.lr_analysis := Some {[ "qa_results" := answered ]};
     Analyze.lr_qa_results := None;
     Analyze.lr_metadata :=
       Some {| Analyze.lm_test_file := Some "gt/standup.groundtruth.json";
               Analyze.lm_timestamp := Some timestamp;
               Analyze.lm_similarity_threshold := Some 0.7 |} |}.

(** Two summaries of one transcript. *)
Definition summarized : list ResultEntry :=
  [SummarizationEntry "Alice: ship it." [("executive_summary", "Shipping.")]
                      "standup.txt" None;
   SummarizationEntry "Bob: agreed." [("executive_summary", "Agreement.")]
                      "retro.txt" None].

(** An evaluator backend that replies with a JSON object. *)
Definition judging_claude : list CallRecord -> string -> Outcome ClaudeResponse :=
  fun _ _ =>
    Returned {| content := "Here it is: {...} Done.";
                claude_usage :=
                  Some (<["input_tokens" := 40%Z]> (<["output_tokens" := 5%Z]>
                          (<["total_tokens" := 45%Z]> ∅)));
                claude_cost :=
                  Some (<["input_cost" := 0.00012]> (<["output_cost" := 0.000075]>
                          (<["total_cost" := 0.000195]> ∅))) |}.

(** An evaluator backend that answers one call and is overloaded from
    then on. *)
Definition tiring_claude : list CallRecord -> string -> Outcome ClaudeResponse :=
  fun trace prompt =>
    match trace with
    | [] => judging_claude trace prompt
    | _ => Raised "Error code: 529 - Overloaded"
    end.

(** Stand-ins for [json.loads]. *)
Definition good_rubric : string -> Outcome (gmap string Eval.CriterionJudgment) :=
  fun _ => Returned (rubric "good" "good").

Definition stated_overall : string -> Outcome QAAnalysis.OverallReply :=
  fun _ =>
    Returned {| QAAnalysis.or_overall_rating :=
                  Some {| QAAnalysis.rr_rating := Some "good";
                          QAAnalysis.rr_metrics :=
                            Some (<["pass_rate" := 0.25]> ∅) |} |}.

Definition excellent_summary : string -> Outcome (gmap string Report.AnalysisValue) :=
  fun _ => Returned (<["overall_quality" := Report.AText "excellent"]> ∅).

(** Stand-ins for the prompts. *)
Definition asks : string -> string -> string -> float -> string :=
  fun query _ _ _ => query.

Definition asks_overall : float -> list QAAnalysis.QuestionAnalysis -> string :=
  fun _ _ => "Review these results.".

Definition asks_summary : nat -> ResultEntry -> string :=
  fun i _ => "Analyze summary " +:+ pretty i.

Definition shows : ClaudeResponse -> string := fun r => content r.

Definition same_title : string -> string := fun model => model.

End MoreSamples.

(* ===================================================================== *)
(** * Properties *)
(* ===================================================================== *)

Section SimilarityFacts.
Import Eval.
Open Scope float_scope.

Variable tfidf_cosine : string -> string -> Outcome float.


End SimilarityFacts.

Section PassFailFacts.
Import Eval.
Open Scope float_scope.

(** A strictly positive float is not zero: the guard of line 100
    excludes the zero divisor. *)
Lemma ltb_zero_eqb_zero (m : float) : (0 <? m) = true -> (m =? 0) = false.
Proof.
  rewrite FloatAxioms.ltb_spec, FloatAxioms.eqb_spec.
  change (Prim2SF 0) with (S754_zero false).
  destruct (Prim2SF m) as [s| s | | s mm e]; try destruct s; cbn; congruence.
Qed.

Lemma normalized_score_returns (t : Tally) :
  exists n, normalized_score t = Returned n.
Proof.
  unfold normalized_score, truediv.
  destruct (0 <? max_possible t) eqn:Hpos; [|eauto].
  rewrite (ltb_zero_eqb_zero _ Hpos). eauto.
Qed.

Lemma extract_ratings_lookup (analysis : gmap string CriterionJudgment) (c : string) :
  c ∈ criteria_names ->
  extract_ratings analysis !! c
  = (fun j => Py.lower (default "" (rating j))) <$> (analysis !! c).
Proof.
  intros Hc. unfold extract_ratings, criteria_names in *. cbn [foldl].
  repeat (apply elem_of_cons in Hc as [-> | Hc]);
    [ | | | | by apply elem_of_nil in Hc ];
    destruct (analysis !! "correctness"), (analysis !! "completeness"),
             (analysis !! "conciseness"), (analysis !! "relevance");
    by simplify_map_eq.
Qed.

Lemma lookup_nonempty (analysis : gmap string CriterionJudgment) c j :
  analysis !! c = Some j -> bool_decide (analysis = ∅) = false.
Proof.
  intros H. apply bool_decide_eq_false. intros ->. by rewrite lookup_empty in H.
Qed.

Lemma extract_ratings_absent (analysis : gmap string CriterionJudgment) :
  (forall c, c ∈ criteria_names -> analysis !! c = None) ->
  extract_ratings analysis = ∅.
Proof.
  intros H. unfold extract_ratings, criteria_names in *. cbn [foldl].
  by rewrite !H by (repeat constructor).
Qed.

(** The final decision when the correctness rating is the string "poor". *)
Lemma final_pass_poor sp n (ratings : gmap string string) :
  ratings !! "correctness" = Some "poor" -> final_pass sp n ratings = false.
Proof. intros H. unfold final_pass. by rewrite H. Qed.

(** C2: whatever the similarity and the threshold, a rubric whose
    correctness rating is "poor" yields a verdict with [is_pass = false]:
    the veto of lines 118-119 overrides a similarity at or above the
    threshold. *)
Theorem poor_correctness_vetoes (similarity threshold : float)
    (analysis : gmap string CriterionJudgment) (j : CriterionJudgment) :
  analysis !! "correctness" = Some j ->
  rating j = Some "poor" ->
  exists v, determine_pass_fail similarity threshold (Some analysis) = Returned v
            /\ is_pass v = false.
Proof.
  intros Hj Hr. unfold determine_pass_fail.
  rewrite (lookup_nonempty _ _ _ Hj).
  destruct (normalized_score_returns (tally (extract_ratings analysis))) as [n ->].
  eexists; split; [reflexivity|]. cbn [is_pass].
  apply final_pass_poor.
  rewrite extract_ratings_lookup by (repeat constructor).
  by rewrite Hj; cbn; rewrite Hr.
Qed.

(** C4: without a rubric ([None] or the empty dictionary) the verdict
    passes exactly when [similarity >= threshold], and its criteria
    field is "similarity_only". *)
Theorem no_rubric_similarity_only (similarity threshold : float)
    (claude_analysis : option (gmap string CriterionJudgment)) :
  claude_analysis = None \/ claude_analysis = Some ∅ ->
  exists v, determine_pass_fail similarity threshold claude_analysis = Returned v
            /\ (is_pass v = true <-> (threshold <=? similarity) = true)
            /\ criteria v = "similarity_only".
Proof.
  intros [-> | ->]; cbn; eexists; (split; [reflexivity|]); by cbn.
Qed.

(** C3: a rubric rating all four criteria "good" has normalized score
    exactly 0.75 in binary64 arithmetic, and at similarity 0.5 against
    threshold 0.7 (a failed similarity check) the verdict passes, through
    the qualitative path. *)
Theorem all_good_passes_qualitatively (analysis : gmap string CriterionJudgment) :
  (forall c, c ∈ criteria_names ->
     exists j, analysis !! c = Some j /\ rating j = Some "good") ->
  (0.7 <=? 0.5) = false
  /\ normalized_score (tally (extract_ratings analysis)) = Returned 0.75
  /\ qualitative_pass 0.75 (extract_ratings analysis) = true
  /\ determine_pass_fail 0.5 0.7 (Some analysis)
     = Returned
         {| is_pass := true;
            pass_fail := "pass";
            criteria := "comprehensive";
            scores :=
              Some {| similarity := 0.5;
                      qualitative_normalized := 0.75;
                      qualitative_details :=
                        ["correctness: good (3/4)"; "completeness: good (3/4)";
                         "conciseness: good (3/4)"; "relevance: good (3/4)"] |} |}.
Proof.
  intros H.
  assert (Hl : forall c, c ∈ criteria_names ->
                 extract_ratings analysis !! c = Some "good").
  { intros c Hc. destruct (H c Hc) as (j & Hj & Hr).
    rewrite extract_ratings_lookup by done. by rewrite Hj; cbn; rewrite Hr. }
  destruct (H "correctness") as (j & Hj & _); [repeat constructor|].
  assert (Ht : tally (extract_ratings analysis)
               = {| total_score := 3; max_possible := 4;
                    criteria_details :=
                      ["correctness: good (3/4)"; "completeness: good (3/4)";
                       "conciseness: good (3/4)"; "relevance: good (3/4)"] |}).
  { unfold tally, weights. cbn [foldl tally_step].
    rewrite !Hl by (repeat constructor). reflexivity. }
  assert (Hq : qualitative_pass 0.75 (extract_ratings analysis) = true).
  { unfold qualitative_pass, correctness_acceptable.
    rewrite Hl by (repeat constructor). reflexivity. }
  split; [reflexivity|]. split; [by rewrite Ht|]. split; [done|].
  unfold determine_pass_fail. rewrite (lookup_nonempty _ _ _ Hj), Ht.
  change (normalized_score _) with (Returned (A:=float) 0.75). cbv iota beta.
  unfold final_pass. rewrite Hq, Hl by (repeat constructor). reflexivity.
Qed.

(** C8: [determine_pass_fail] returns a verdict for every rubric (the
    division of line 100 never sees a zero divisor); when none of the
    four recognised criteria is present, the maximum achievable score is
    0, the normalized score is defined as 0, the qualitative check fails
    and the verdict is decided by similarity alone. *)
Theorem determine_pass_fail_total (similarity threshold : float)
    (claude_analysis : option (gmap string CriterionJudgment)) :
  (exists v, determine_pass_fail similarity threshold claude_analysis = Returned v)
  /\ forall analysis,
       claude_analysis = Some analysis ->
       (forall c, c ∈ criteria_names -> analysis !! c = None) ->
       max_possible (tally (extract_ratings analysis)) = 0
       /\ normalized_score (tally (extract_ratings analysis)) = Returned 0
       /\ qualitative_pass 0 (extract_ratings analysis) = false
       /\ exists v,
            determine_pass_fail similarity threshold claude_analysis = Returned v
            /\ is_pass v = (threshold <=? similarity)
            /\ (analysis <> ∅ ->
                criteria v = "comprehensive"
                /\ scores v = Some {| similarity := similarity;
                                      qualitative_normalized := 0;
                                      qualitative_details := [] |}).
Proof.
  split.
  - unfold determine_pass_fail. destruct claude_analysis as [analysis|]; [|eauto].
    destruct (bool_decide (analysis = ∅)); [eauto|].
    destruct (normalized_score_returns (tally (extract_ratings analysis))) as [n ->].
    eauto.
  - intros analysis -> Habs.
    assert (Ht : tally ∅ = {| total_score := 0; max_possible := 0;
                              criteria_details := [] |}) by reflexivity.
    assert (Hq : qualitative_pass 0 ∅ = false) by reflexivity.
    rewrite (extract_ratings_absent _ Habs), Ht.
    repeat (split; [done|]).
    unfold determine_pass_fail. rewrite (extract_ratings_absent _ Habs), Ht.
    destruct (bool_decide (analysis = ∅)) eqn:He.
    + eexists. split; [reflexivity|]. split; [reflexivity|].
      intros Hne. by apply bool_decide_eq_true in He.
    + change (normalized_score _) with (Returned (A:=float) 0). cbv iota beta.
      eexists. split; [reflexivity|].
      cbn [is_pass criteria scores criteria_details]. split; [|done].
      unfold final_pass. rewrite Hq, lookup_empty. cbn [default].
      rewrite bool_decide_eq_false_2 by done. apply orb_false_r.
Qed.


End PassFailFacts.

Section RunnerFacts.
Import Batch.
Open Scope float_scope.

Context (claude : Client -> list CallRecord -> string -> Outcome ClaudeResponse).
Context (lemonade : Client -> list CallRecord -> string -> string -> Z -> float ->
                    Outcome LemonadeResponse).
Context (now : string).

Lemma bind_run {A B} (m : M A) (f : A -> M B) (w : World) :
  (m ≫= f) w = f (m w).1 (m w).2.
Proof. unfold mbind, M_bind. by destruct (m w). Qed.

(** *** The error log only grows *)

Lemma log_grows_ret {A} (a : A) : log_grows (mret a).
Proof. by intros w. Qed.

Lemma log_grows_bind {A B} (m : M A) (f : A -> M B) :
  log_grows m -> (forall a, log_grows (f a)) -> log_grows (m ≫= f).
Proof.
  intros Hm Hf w. rewrite bind_run. etrans; [apply Hm | apply Hf].
Qed.

Lemma log_grows_log_error msg : log_grows (log_error msg).
Proof. intros w. by apply prefix_app_r. Qed.

Lemma log_grows_call_claude client prompt :
  log_grows (call_claude claude client prompt).
Proof. by intros w. Qed.

Lemma log_grows_call_lemonade client prompt mt t :
  log_grows (call_lemonade lemonade client prompt mt t).
Proof. by intros w. Qed.

Ltac log_grows :=
  repeat first
    [ apply log_grows_ret
    | apply log_grows_log_error
    | apply log_grows_call_claude
    | apply log_grows_call_lemonade
    | apply log_grows_bind; [|intros []]
    | apply log_grows_bind; [|intros ?]
    | progress cbv beta iota ].

Lemma log_grows_process_question_claude client q sp :
  log_grows (process_question_claude claude client q sp).
Proof. unfold process_question_claude. log_grows. Qed.

Lemma log_grows_process_question_lemonade client q sp mt t :
  log_grows (process_question_lemonade lemonade client q sp mt t).
Proof. unfold process_question_lemonade. log_grows. Qed.

Lemma log_grows_summarize_claude client transcript prompts st :
  log_grows (summarize_claude claude client transcript prompts st).
Proof.
  revert st. induction prompts as [|[component template] rest IH]; intros st;
    cbn [summarize_claude]; log_grows; apply IH.
Qed.

Lemma log_grows_summarize_lemonade client transcript mt t prompts st :
  log_grows (summarize_lemonade lemonade client transcript mt t prompts st).
Proof.
  revert st. induction prompts as [|[component template] rest IH]; intros st;
    cbn [summarize_lemonade]; log_grows; apply IH.
Qed.

Lemma log_grows_ask_query e client transcript query :
  log_grows (ask_query claude lemonade e client transcript query).
Proof. unfold ask_query. destruct client; log_grows. Qed.

Lemma log_grows_ask_queries e client transcript queries total :
  log_grows (ask_queries claude lemonade e client transcript queries total).
Proof.
  revert total. induction queries as [|query rest IH]; intros total;
    cbn [ask_queries]; log_grows; [apply log_grows_ask_query | apply IH].
Qed.

Lemma log_grows_process_item e client i data_item st :
  log_grows (process_item claude lemonade e client i data_item st).
Proof.
  destruct data_item; cbn [process_item]; try destruct client; log_grows;
    first [ apply log_grows_process_question_claude
          | apply log_grows_process_question_lemonade
          | apply log_grows_ask_queries
          | unfold process_summarization_claude; log_grows;
            apply log_grows_summarize_claude
          | unfold process_summarization_lemonade; log_grows;
            apply log_grows_summarize_lemonade ].
Qed.

Lemma log_grows_run_items e client i data_items st :
  log_grows (run_items claude lemonade e client i data_items st).
Proof.
  revert i st. induction data_items as [|data_item rest IH]; intros i st;
    cbn [run_items]; log_grows; [apply log_grows_process_item | apply IH].
Qed.

(** *** What one iteration does to the loop state *)

Lemma ask_queries_queries e client transcript queries total w :
  (response (ask_queries claude lemonade e client transcript queries total w).1).*1
  = (response total).*1 ++ queries.
Proof.
  revert total w. induction queries as [|query rest IH]; intros total w;
    cbn [ask_queries].
  - by rewrite app_nil_r.
  - rewrite bind_run, IH. cbn [response]. by rewrite fmap_app, <- app_assoc.
Qed.

Lemma accumulate_errors {R} st i (result : ProcResult R) entry :
  errors (accumulate st i result entry) = errors st
  \/ exists msg, errors (accumulate st i result entry)
                 = errors st ++ [item_label i +:+ msg].
Proof.
  unfold accumulate. cbn [errors].
  destruct (truthy_error (error result)); [right; by eexists | by left].
Qed.

(** A supported item appends its result entry and at most one labelled
    error; an unsupported one leaves the state alone and writes a line
    to the log. *)
Lemma process_item_state e client i data_item st w :
  let out := process_item claude lemonade e client i data_item st w in
  match data_item with
  | Other t =>
      out = (st, {| calls := calls w;
                    error_log := error_log w ++ ["Unsupported data type: " +:+ t];
                    files := files w |})
  | _ =>
      exists entry,
        results out.1 = results st ++ [entry]
        /\ entry_matches data_item entry
        /\ (errors out.1 = errors st
            \/ exists msg, errors out.1 = errors st ++ [item_label i +:+ msg])
  end.
Proof.
  destruct data_item as [q g|tr sf qs|tr gt sf|t]; cbn [process_item]; [| | |done];
    rewrite bind_run; cbn [mret M_ret fst snd]; eexists;
    (split; [reflexivity|]); (split; [|apply accumulate_errors]); [done| |done].
  repeat split. by rewrite ask_queries_queries.
Qed.

Lemma item_label_succ i k : item_label (S i + k) = item_label (i + S k).
Proof. by rewrite Nat.add_succ_comm. Qed.

(** The whole loop, from item number [i] on. *)
Lemma run_items_state e client data_items : forall i st w,
  let out := run_items claude lemonade e client i data_items st w in
  exists new_results new_errors,
    results out.1 = results st ++ new_results
    /\ Forall2 entry_matches (List.filter supported data_items) new_results
    /\ errors out.1 = errors st ++ new_errors
    /\ (forall err, err ∈ new_errors ->
          exists k data_item msg,
            data_items !! k = Some data_item /\ supported data_item = true
            /\ err = item_label (i + k) +:+ msg)
    /\ (forall t, Other t ∈ data_items ->
          "Unsupported data type: " +:+ t ∈ error_log out.2).
Proof.
  induction data_items as [|data_item rest IH]; intros i st w; cbn zeta.
  - exists [], []. cbn. rewrite !app_nil_r. repeat split; try done.
    + intros err Herr. by apply elem_of_nil in Herr.
    + intros t Ht. by apply elem_of_nil in Ht.
  - cbn [run_items]. rewrite bind_run.
    pose proof (process_item_state e client i data_item st w) as Hstep.
    pose proof (log_grows_run_items e client (S i) rest
                  (process_item claude lemonade e client i data_item st w).1
                  (process_item claude lemonade e client i data_item st w).2) as Hlog.
    destruct (IH (S i) (process_item claude lemonade e client i data_item st w).1
                 (process_item claude lemonade e client i data_item st w).2)
      as (nr & ne & Hres & Hmatch & Herrs & Hlabel & Hunsup).
    cbn zeta in Hstep.
    assert (Hshift : forall err, err ∈ ne ->
              exists k d msg, (data_item :: rest) !! k = Some d
                              /\ supported d = true
                              /\ err = item_label (i + k) +:+ msg).
    { intros err Herr. destruct (Hlabel err Herr) as (k & d & msg & Hk & Hd & ->).
      exists (S k), d, msg. by rewrite item_label_succ. }
    destruct data_item as [q g|tr sf qs|tr gt sf|t].
    4: {
      rewrite Hstep in *. cbn [fst snd error_log] in *.
      exists nr, ne. repeat split; try done.
      intros t' Ht'. apply elem_of_cons in Ht' as [[= ->] | Ht']; [|by apply Hunsup].
      eapply elem_of_prefix; [|exact Hlog].
      apply elem_of_app. right. by apply list_elem_of_singleton. }
    all: destruct Hstep as (entry & Hentry & Hm & Herr);
      exists (entry :: nr);
      (destruct Herr as [Herr | [msg Herr]];
         [exists ne | exists ((item_label i +:+ msg) :: ne)]);
      rewrite Hres, Hentry, Herrs, Herr, <- ?app_assoc;
      (repeat split; try done);
      [ by constructor
      | intros t' Ht'; apply elem_of_cons in Ht' as [[=] | Ht']; by apply Hunsup
      | by constructor
      | intros err Hin; apply elem_of_cons in Hin as [-> | Hin];
          [ eexists 0%nat, _, msg; rewrite Nat.add_0_r; by repeat split
          | by apply Hshift ]
      | intros t' Ht'; apply elem_of_cons in Ht' as [[=] | Ht']; by apply Hunsup ].
Qed.

(** With a client at hand, [run_experiment] runs the loop, writes the
    document and returns its path. *)
Lemma run_experiment_persists e client data_items output_dir w0 :
  create_llm_client e = Returned client ->
  let out := run_experiment claude lemonade now e data_items output_dir w0 in
  let loop := run_items claude lemonade e client 0 data_items run_start w0 in
  persisted out = Some (output_data now e data_items loop.1)
  /\ calls out.2 = calls loop.2
  /\ error_log out.2 = error_log loop.2.
Proof.
  intros Hclient. cbn zeta. unfold run_experiment. rewrite Hclient.
  rewrite !bind_run. unfold write_file, persisted. cbn [mret M_ret fst snd files calls error_log].
  by rewrite lookup_insert_eq.
Qed.


(** *** Runs in which every backend call fails *)








Section AllCallsFail.

Hypothesis claude_fails :
  forall client trace prompt,
    exists msg, claude client trace prompt = Raised msg /\ msg <> "".
Hypothesis lemonade_fails :
  forall client trace m prompt mt t,
    exists msg, lemonade client trace m prompt mt t = Raised msg /\ msg <> "".



















End AllCallsFail.

End RunnerFacts.


Section RunnerExamples.
Import Batch Samples.



End RunnerExamples.


Section ReportFacts.
Import Eval Report.
Open Scope float_scope.

(** *** The order of binary64 numbers *)

Ltac sf_cases :=
  repeat match goal with
         | s : bool |- _ => destruct s
         | |- context [Z.compare ?a ?b] => destruct (Z.compare_spec a b)
         | H : context [Z.compare ?a ?b] |- _ => destruct (Z.compare_spec a b)
         | |- context [Pos.compare ?a ?b] => destruct (Pos.compare_spec a b)
         | H : context [Pos.compare ?a ?b] |- _ => destruct (Pos.compare_spec a b)
         end;
  cbn in *; try congruence; try lia.

Lemma SFltb_asym a b : SFltb a b = true -> SFltb b a = false.
Proof.
  unfold SFltb, SFcompare.
  destruct a as [sa|sa| |sa ma ea], b as [sb|sb| |sb mb eb]; cbn; try congruence;
    change (Pos.compare_cont Eq ?p ?q) with (Pos.compare p q); sf_cases.
Qed.

Lemma SFltb_false_leb a b :
  a <> S754_nan -> b <> S754_nan -> SFltb a b = false -> SFleb b a = true.
Proof.
  unfold SFltb, SFleb, SFcompare.
  destruct a as [sa|sa| |sa ma ea], b as [sb|sb| |sb mb eb]; cbn; try congruence;
    change (Pos.compare_cont Eq ?p ?q) with (Pos.compare p q); intros _ _; sf_cases.
Qed.

Lemma SFltb_false_trans a b c :
  a <> S754_nan -> b <> S754_nan -> c <> S754_nan ->
  SFltb b a = false -> SFltb c b = false -> SFltb c a = false.
Proof.
  unfold SFltb, SFcompare.
  destruct a as [sa|sa| |sa ma ea], b as [sb|sb| |sb mb eb], c as [sc|sc| |sc mc ec];
    cbn; try congruence;
    change (Pos.compare_cont Eq ?p ?q) with (Pos.compare p q); intros _ _ _; sf_cases.
Qed.

Lemma is_number_spec x : is_number x = true -> Prim2SF x <> S754_nan.
Proof.
  unfold is_number. rewrite FloatAxioms.eqb_spec. by destruct (Prim2SF x).
Qed.

Lemma ltb_asym x y : (x <? y) = true -> (y <? x) = false.
Proof. rewrite !FloatAxioms.ltb_spec. apply SFltb_asym. Qed.

Lemma ltb_false_leb x y :
  is_number x = true -> is_number y = true -> (x <? y) = false -> (y <=? x) = true.
Proof.
  intros Hx Hy. rewrite FloatAxioms.ltb_spec, FloatAxioms.leb_spec.
  apply SFltb_false_leb; by apply is_number_spec.
Qed.

Lemma ltb_false_trans x y z :
  is_number x = true -> is_number y = true -> is_number z = true ->
  (y <? x) = false -> (z <? y) = false -> (z <? x) = false.
Proof.
  intros Hx Hy Hz. rewrite !FloatAxioms.ltb_spec.
  apply SFltb_false_trans; by apply is_number_spec.
Qed.

(** *** The stable sort *)

Section Sorting.

Context {A : Type} (key : A -> float).

Let lt (a b : A) : bool := key a <? key b.

(** [a] may stand before [b] in ascending order. *)
Let ascending (a b : A) : Prop := lt b a = false.

Let numbered (l : list A) : Prop := Forall (fun a => is_number (key a) = true) l.

Lemma insert_sorted_perm x l : insert_sorted lt x l ≡ₚ x :: l.
Proof.
  induction l as [|y r IH]; [done|]. cbn [insert_sorted].
  destruct (lt x y); [done|]. by rewrite IH, Permutation_swap.
Qed.

Lemma stable_sort_perm_from sorted l :
  foldl (fun sorted x => insert_sorted lt x sorted) sorted l ≡ₚ sorted ++ l.
Proof.
  revert sorted. induction l as [|x l IH]; intros sorted; cbn.
  - by rewrite app_nil_r.
  - rewrite IH, insert_sorted_perm. apply Permutation_middle.
Qed.

Lemma stable_sort_perm l : stable_sort lt l ≡ₚ l.
Proof. apply (stable_sort_perm_from [] l). Qed.

Lemma insert_sorted_ascending x l :
  is_number (key x) = true -> numbered l ->
  StronglySorted ascending l -> StronglySorted ascending (insert_sorted lt x l).
Proof.
  intros Hx Hl Hs. induction Hs as [|y r Hs IH Hy]; cbn [insert_sorted].
  - repeat constructor.
  - apply Forall_cons in Hl as [Hny Hr].
    destruct (lt x y) eqn:Hxy.
    + constructor; [by constructor|]. constructor.
      * by apply ltb_asym.
      * rewrite Forall_forall in *. intros z Hz.
        apply (ltb_false_trans (key x) (key y) (key z)); auto.
        -- by apply ltb_asym.
        -- by apply Hy.
    + constructor; [by apply IH|].
      rewrite insert_sorted_perm. by constructor.
Qed.

Lemma stable_sort_ascending_from sorted l :
  numbered sorted -> numbered l -> StronglySorted ascending sorted ->
  StronglySorted ascending (foldl (fun sorted x => insert_sorted lt x sorted) sorted l).
Proof.
  revert sorted. induction l as [|x l IH]; intros sorted Hn Hl Hs; cbn; [done|].
  apply Forall_cons in Hl as [Hx Hl].
  apply IH; [|done|by apply insert_sorted_ascending].
  unfold numbered. rewrite insert_sorted_perm. by constructor.
Qed.

(** [l.sort(key=key, reverse=True)] leaves a permutation of [l] in which
    no element has a smaller key than a later one. *)
Lemma sort_reverse_descending l :
  numbered l ->
  sort_reverse key l ≡ₚ l
  /\ StronglySorted (fun a b => (key b <=? key a) = true) (sort_reverse key l).
Proof.
  intros Hl. unfold sort_reverse. fold lt. split.
  - by rewrite reverse_Permutation, stable_sort_perm, reverse_Permutation.
  - assert (Hrev : numbered (reverse l)) by (unfold numbered; by rewrite reverse_Permutation).
    pose proof (stable_sort_ascending_from [] (reverse l) (Forall_nil_2 _) Hrev
                  (SSorted_nil _)) as Hs.
    fold (stable_sort lt (reverse l)) in Hs.
    assert (Hn : numbered (stable_sort lt (reverse l)))
      by (unfold numbered; by rewrite stable_sort_perm).
    revert Hs Hn. generalize (stable_sort lt (reverse l)). clear.
    intros s Hs Hn. induction Hs as [|y r Hs IH Hy]; [constructor|].
    apply Forall_cons in Hn as [Hny Hr]. rewrite reverse_cons.
    specialize (IH Hr). clear Hs.
    assert (Hlast : Forall (fun a => (key y <=? key a) = true) (reverse r)).
    { rewrite reverse_Permutation. rewrite Forall_forall in *. intros z Hz.
      apply ltb_false_leb; auto. by apply Hy. }
    revert IH Hlast. generalize (reverse r). clear. intros l Hs.
    induction Hs as [|a l Hs IH Ha]; intros Hl; cbn.
    + repeat constructor.
    + apply Forall_cons in Hl as [Hya Hl]. constructor; [by apply IH|].
      apply Forall_app. split; [done|]. by repeat constructor.
Qed.

End Sorting.

Lemma markdown_ranking_names l :
  (ranking (_generate_markdown_report l)).*1 = name <$> l.
Proof. cbn. induction l as [|a l IH]; [done|]. cbn. by f_equal. Qed.

Lemma markdown_ranking_sorted l :
  StronglySorted (fun a b => (pass_rate b <=? pass_rate a) = true) l ->
  StronglySorted (fun a b => (b.2 <=? a.2) = true) (ranking (_generate_markdown_report l)).
Proof.
  cbn [_generate_markdown_report ranking].
  induction 1 as [|a l Hs IH Ha]; cbn [map]; constructor; [done|].
  apply Forall_forall. intros [n r] Hin.
  apply list_elem_of_In, in_map_iff in Hin as (b & [= <- <-] & Hb).
  rewrite Forall_forall in Ha. apply Ha. by apply list_elem_of_In.
Qed.

(** C7, Q&A half: when the evaluations are not summarization evaluations
    and their pass rates are numbers, the report's models are a
    permutation of the loaded ones and its ranking lists them in
    descending order of pass rate. *)
Lemma qa_ranking_descending eval_files report :
  Forall (fun model => is_number (pass_rate model) = true) (load_models_data eval_files) ->
  generate_summary_report eval_files = Returned report ->
  evaluation_type report <> "summarization" ->
  summary_data report ≡ₚ load_models_data eval_files
  /\ (ranking (report_content report)).*1 = name <$> summary_data report
  /\ StronglySorted (fun a b => (b.2 <=? a.2) = true) (ranking (report_content report)).
Proof.
  intros Hn Hrep Htype. unfold generate_summary_report in Hrep.
  destruct eval_files as [|f fs]; [discriminate|].
  destruct (load_models_data (f :: fs)) as [|m ms] eqn:Hload; [discriminate|].
  injection Hrep as <-. cbn [evaluation_type report_content summary_data] in *.
  apply String.eqb_neq in Htype. rewrite Htype.
  destruct (sort_reverse_descending pass_rate (m :: ms) Hn) as [Hperm Hsorted].
  split; [done|]. split; [apply markdown_ranking_names|].
  by apply markdown_ranking_sorted.
Qed.

End ReportFacts.

Section ReportExamples.
Import Eval Report Samples.
Open Scope float_scope.

(** C7, summarization half, on the code: two summarization evaluations
    whose weighted quality scores are 1 and 4 are ranked in file order,
    the lower score first, and the lower-scored model is the one the
    report calls the best performer. The only sort is by pass rate, which
    neither document has, and the summarization report lists the models
    as they come. *)
Lemma summarization_ranking_not_by_quality :
  exists report,
    generate_summary_report summarization_files = Returned report
    /\ evaluation_type report = "summarization"
    /\ ranking (report_content report) = [("weak_model", 1); ("strong_model", 4)]
    /\ best_performer (report_content report) = Some "weak_model"
    /\ (1 <? 4) = true.
Proof. eexists. by vm_compute. Qed.

(** C7, Q&A half, on an example: the model with the higher pass rate comes
    first, whatever the file order. *)
Lemma qa_ranking_by_pass_rate :
  exists report,
    generate_summary_report qa_files = Returned report
    /\ evaluation_type report = "rag"
    /\ ranking (report_content report) = [("model_b", 0.9); ("model_a", 0.5)]
    /\ best_performer (report_content report) = Some "model_b".
Proof. eexists. by vm_compute. Qed.

End ReportExamples.

Section Witnesses.
Import Eval Batch Samples.
Open Scope float_scope.


(** The veto at similarity 0.9 against threshold 0.7. *)
Lemma poor_correctness_vetoes_witness :
  rubric "poor" "excellent" !! "correctness" = Some (rated "poor")
  /\ rating (rated "poor") = Some "poor"
  /\ (0.7 <=? 0.9) = true
  /\ exists v, determine_pass_fail 0.9 0.7 (Some (rubric "poor" "excellent")) = Returned v
               /\ is_pass v = false.
Proof.
  split; [reflexivity|]. split; [reflexivity|]. split; [reflexivity|].
  apply (poor_correctness_vetoes 0.9 0.7 (rubric "poor" "excellent") (rated "poor"));
    reflexivity.
Defined.

(** The all-good rubric at similarity 0.5 against threshold 0.7. *)
Lemma all_good_passes_qualitatively_witness :
  (forall c, c ∈ criteria_names ->
     exists j, rubric "good" "good" !! c = Some j /\ rating j = Some "good")
  /\ exists v, determine_pass_fail 0.5 0.7 (Some (rubric "good" "good")) = Returned v
               /\ is_pass v = true
               /\ qualitative_normalized <$> scores v = Some 0.75.
Proof.
  assert (H : forall c, c ∈ criteria_names ->
                exists j, rubric "good" "good" !! c = Some j /\ rating j = Some "good").
  { intros c Hc. exists (rated "good"). split; [|reflexivity].
    unfold criteria_names in Hc.
    repeat (apply elem_of_cons in Hc as [-> | Hc]); try reflexivity.
    by apply elem_of_nil in Hc. }
  split; [exact H|]. eexists. split.
  - exact (proj2 (proj2 (proj2 (all_good_passes_qualitatively _ H)))).
  - split; reflexivity.
Defined.

(** No rubric, similarity 0.9 against threshold 0.7. *)
Lemma no_rubric_similarity_only_witness :
  exists v, determine_pass_fail 0.9 0.7 None = Returned v
            /\ (is_pass v = true <-> (0.7 <=? 0.9) = true)
            /\ criteria v = "similarity_only".
Proof. apply no_rubric_similarity_only. left. reflexivity. Defined.

(** A rubric of summarization criteria only, at similarity 0.9 against
    threshold 0.7. *)
Lemma determine_pass_fail_total_witness :
  (forall c, c ∈ criteria_names -> summary_rubric !! c = None)
  /\ normalized_score (tally (extract_ratings summary_rubric)) = Returned 0
  /\ exists v, determine_pass_fail 0.9 0.7 (Some summary_rubric) = Returned v
               /\ is_pass v = (0.7 <=? 0.9)
               /\ criteria v = "comprehensive".
Proof.
  assert (H : forall c, c ∈ criteria_names -> summary_rubric !! c = None).
  { intros c Hc. unfold criteria_names in Hc.
    repeat (apply elem_of_cons in Hc as [-> | Hc]); try reflexivity.
    by apply elem_of_nil in Hc. }
  split; [exact H|].
  destruct (proj2 (determine_pass_fail_total 0.9 0.7 (Some summary_rubric))
              summary_rubric eq_refl H)
    as (_ & Hn & _ & v & Hv & Hp & Hc).
  split; [exact Hn|]. exists v. split; [exact Hv|]. split; [exact Hp|].
  apply Hc. intros E.
  assert (C : summary_rubric !! "executive_summary_quality"
              = (∅ : gmap string CriterionJudgment) !! "executive_summary_quality")
    by (by rewrite E).
  discriminate C.
Defined.




End Witnesses.

(* ===================================================================== *)
(** * Further properties *)
(* ===================================================================== *)

Section FileNameFacts.
Import Batch Names.

Lemma chars_rev_app s1 s2 :
  list_ascii_of_string (String.rev_app s1 s2)
  = rev (list_ascii_of_string s1) ++ list_ascii_of_string s2.
Proof.
  revert s2. induction s1 as [|c s1 IH]; intros s2; cbn; [done|].
  rewrite IH. cbn. by rewrite <- app_assoc.
Qed.

Lemma chars_rev s :
  list_ascii_of_string (String.rev s) = rev (list_ascii_of_string s).
Proof. unfold String.rev. rewrite chars_rev_app. cbn. by rewrite app_nil_r. Qed.

Lemma chars_lstrip s c :
  In c (list_ascii_of_string (Py.lstrip s)) -> In c (list_ascii_of_string s).
Proof.
  induction s as [|a s IH]; cbn; [done|].
  destruct (Py.isspace a); cbn; auto.
Qed.

Lemma chars_rstrip s c :
  In c (list_ascii_of_string (Py.rstrip s)) -> In c (list_ascii_of_string s).
Proof.
  unfold Py.rstrip. rewrite chars_rev. intros H%in_rev%chars_lstrip.
  rewrite chars_rev in H. by apply in_rev in H.
Qed.

Lemma chars_filter p s c :
  In c (list_ascii_of_string (Py.filter_chars p s)) -> p c = true.
Proof.
  induction s as [|a s IH]; cbn; [done|].
  destruct (p a) eqn:Ha; cbn; [|done]. intros [<- | H]; auto.
Qed.

Lemma chars_replace a b s c :
  In c (list_ascii_of_string (Py.replace_char a b s)) ->
  c = b \/ (c <> a /\ In c (list_ascii_of_string s)).
Proof.
  induction s as [|x s IH]; cbn; [done|].
  destruct (Ascii.eqb x a) eqn:Hx.
  - intros [<- | H]; [by left|]. destruct (IH H) as [-> | [? ?]]; auto.
  - apply Ascii.eqb_neq in Hx. intros [<- | H]; [right; auto|].
    destruct (IH H) as [-> | [? ?]]; auto.
Qed.

(** X1: the name of a result file is the experiment's name reduced to
    alphanumerics, hyphens and underscores (no space, no path separator),
    followed by ".experiment.json". *)
Theorem result_filename_safe (e : ExperimentConfig) :
  exists stem,
    result_filename e = stem +:+ ".experiment.json"
    /\ Forall (fun c => safe_char c = true) (list_ascii_of_string stem)
    /\ ~ In " "%char (list_ascii_of_string stem)
    /\ ~ In "/"%char (list_ascii_of_string stem).
Proof.
  unfold result_filename. eexists. split; [reflexivity|].
  assert (Hsafe : forall c,
            In c (list_ascii_of_string
                    (Py.replace_char " " "_"
                       (Py.rstrip (Py.filter_chars
                          (fun c => Py.isalnum c
                                    || bool_decide (c ∈ [" "%char; "-"%char; "_"%char]))
                          (name e))))) ->
            safe_char c = true /\ c <> " "%char).
  { intros c [-> | [Hne Hc]]%chars_replace; [done|].
    apply chars_rstrip, chars_filter in Hc. split; [|done].
    unfold safe_char. apply orb_true_iff in Hc as [-> | Hc]; [done|].
    apply bool_decide_eq_true in Hc.
    repeat (apply elem_of_cons in Hc as [-> | Hc]);
      first [done | by apply elem_of_nil in Hc]. }
  split; [|split].
  - apply Forall_forall. intros c Hc. by apply Hsafe, list_elem_of_In.
  - intros H. by destruct (Hsafe _ H).
  - intros H. by destruct (Hsafe _ H).
Qed.

End FileNameFacts.

Section RunnerEdgeFacts.
Import Batch.

Context (claude : Client -> list CallRecord -> string -> Outcome ClaudeResponse).
Context (lemonade : Client -> list CallRecord -> string -> string -> Z -> float ->
                    Outcome LemonadeResponse).
Context (now : string).

(** X2: an experiment whose backend kind is neither "claude" nor
    "lemonade" (in any letter case) fails with a ValueError before any
    item is processed: no backend call is made, nothing is logged and no
    document is written. *)
Theorem run_experiment_unsupported_backend e data_items output_dir w :
  Py.lower (llm_type e) <> "claude" ->
  Py.lower (llm_type e) <> "lemonade" ->
  run_experiment claude lemonade now e data_items output_dir w
  = (Raised ("Unsupported LLM type: " +:+ llm_type e), w).
Proof.
  intros Hc Hl. unfold run_experiment, create_llm_client.
  apply String.eqb_neq in Hc, Hl. by rewrite Hc, Hl.
Qed.

End RunnerEdgeFacts.

Section MorePassFailFacts.
Import Eval.
Open Scope float_scope.

(** X3: a rubric with no correctness entry can neither pass on its
    qualitative score nor be vetoed: the verdict passes exactly when
    [similarity >= threshold], whatever the other ratings are. *)
Theorem missing_correctness_follows_similarity (similarity threshold : float)
    (analysis : gmap string CriterionJudgment) :
  analysis !! "correctness" = None ->
  exists v, determine_pass_fail similarity threshold (Some analysis) = Returned v
            /\ is_pass v = (threshold <=? similarity).
Proof.
  intros Habs.
  assert (Hl : extract_ratings analysis !! "correctness" = None).
  { rewrite extract_ratings_lookup by (repeat constructor). by rewrite Habs. }
  unfold determine_pass_fail.
  destruct (bool_decide (analysis = ∅)); [eauto|].
  destruct (normalized_score_returns (tally (extract_ratings analysis))) as [n ->].
  eexists. split; [reflexivity|]. cbn [is_pass].
  unfold final_pass, qualitative_pass, correctness_acceptable. rewrite Hl. cbn [default].
  rewrite (bool_decide_eq_false_2 ("" = "poor")) by done.
  rewrite bool_decide_eq_false_2.
  - by rewrite andb_false_r, orb_false_r.
  - intros Hin. repeat (apply elem_of_cons in Hin as [? | Hin]); try done.
    by apply elem_of_nil in Hin.
Qed.

End MorePassFailFacts.

Section ScoreBounds.
Import Eval Scoring.
Open Scope float_scope.

Lemma tally_totals (ratings : gmap string string) :
  (total_score (tally ratings), max_possible (tally ratings))
  = score_totals (rating_scores ratings).
Proof.
  unfold tally, score_totals, rating_scores, weights, criteria_names.
  cbn [foldl tally_step map zip zip_with fmap list_fmap snd].
  unfold score_of.
  destruct (ratings !! "correctness"), (ratings !! "completeness"),
           (ratings !! "conciseness"), (ratings !! "relevance"); reflexivity.
Qed.

Lemma normalized_score_quotient (ratings : gmap string string) :
  normalized_score (tally ratings)
  = Returned (quotient (score_totals (rating_scores ratings))).
Proof.
  rewrite <- tally_totals. unfold normalized_score, quotient, truediv. cbn [fst snd].
  destruct (0 <? max_possible (tally ratings)) eqn:Hpos; [|done].
  by rewrite (ltb_zero_eqb_zero _ Hpos).
Qed.

Lemma score_of_range (r : string) : score_of r ∈ [1; 2; 3; 4]%nat.
Proof.
  unfold score_of, score_map.
  destruct (decide (r = "excellent")) as [->|]; [cbn; set_solver|].
  destruct (decide (r = "good")) as [->|]; [cbn; set_solver|].
  destruct (decide (r = "fair")) as [->|]; [cbn; set_solver|].
  destruct (decide (r = "poor")) as [->|]; [cbn; set_solver|].
  rewrite !lookup_insert_ne, lookup_empty by done. cbn. set_solver.
Qed.

Ltac score_cases s H :=
  destruct s as [s|];
  [ cbn in H;
    repeat (apply elem_of_cons in H as [-> | H]); [ | | | | by apply elem_of_nil in H ]
  | clear H ].

Lemma quotient_bounds (s1 s2 s3 s4 : option nat) :
  in_range s1 -> in_range s2 -> in_range s3 -> in_range s4 ->
  let q := quotient (score_totals [s1; s2; s3; s4]) in
  (q <=? 1) = true
  /\ (q = 0 \/ (0.25 <=? q) = true)
  /\ ((s1, s2, s3, s4) = (None, None, None, None) -> q = 0)
  /\ ((s1, s2, s3, s4) <> (None, None, None, None) -> (0.25 <=? q) = true).
Proof.
  intros H1 H2 H3 H4.
  score_cases s1 H1; score_cases s2 H2; score_cases s3 H3; score_cases s4 H4;
    vm_compute; (split; [reflexivity|]);
    (split; [first [by left | by right]|]); split; congruence.
Qed.

End ScoreBounds.

Section ScoreTheorems.
Import Eval Scoring.
Open Scope float_scope.

Lemma rating_scores_in_range (ratings : gmap string string) :
  Forall in_range (rating_scores ratings).
Proof.
  unfold rating_scores, criteria_names. cbn [map].
  repeat constructor;
    match goal with |- in_range (_ <$> ?o) => destruct o end; cbn;
    auto using score_of_range.
Qed.

Lemma rating_scores_extract (analysis : gmap string CriterionJudgment) :
  rating_scores (extract_ratings analysis)
  = map (fun c => (fun j => score_of (stored_rating j)) <$> analysis !! c) criteria_names.
Proof.
  unfold rating_scores, criteria_names. cbn [map].
  rewrite !extract_ratings_lookup by (repeat constructor).
  by destruct (analysis !! "correctness"), (analysis !! "completeness"),
              (analysis !! "conciseness"), (analysis !! "relevance").
Qed.

(** X4: the normalized qualitative score of a verdict is at most 1; it is
    0 when the rubric has none of the four criteria and at least 0.25 when
    it has one. *)
Theorem qualitative_score_bounds (similarity threshold : float)
    (analysis : gmap string CriterionJudgment) (v : Verdict) (s : Scores) :
  determine_pass_fail similarity threshold (Some analysis) = Returned v ->
  scores v = Some s ->
  (qualitative_normalized s <=? 1) = true
  /\ ((forall c, c ∈ criteria_names -> analysis !! c = None) ->
      qualitative_normalized s = 0)
  /\ ((exists c, c ∈ criteria_names /\ is_Some (analysis !! c)) ->
      (0.25 <=? qualitative_normalized s) = true).
Proof.
  unfold determine_pass_fail. destruct (bool_decide (analysis = ∅)).
  { intros [= <-]. discriminate. }
  rewrite normalized_score_quotient. intros [= <-] [= <-].
  cbn [qualitative_normalized].
  pose proof (rating_scores_in_range (extract_ratings analysis)) as Hr.
  rewrite rating_scores_extract in *. unfold criteria_names in *. cbn [map] in *.
  apply Forall_cons in Hr as [H1 Hr]. apply Forall_cons in Hr as [H2 Hr].
  apply Forall_cons in Hr as [H3 Hr]. apply Forall_cons in Hr as [H4 _].
  destruct (quotient_bounds _ _ _ _ H1 H2 H3 H4) as (Hle & _ & Hzero & Hpos).
  split; [exact Hle|]. split.
  - intros Habs. apply Hzero. by rewrite !Habs by (repeat constructor).
  - intros (c & Hc & [j Hj]). apply Hpos.
    repeat (apply elem_of_cons in Hc as [-> | Hc]);
      [ | | | | by apply elem_of_nil in Hc ]; rewrite Hj; cbn; congruence.
Qed.

Lemma score_of_well_rated r : well_rated r -> score_of r ∈ [3; 4]%nat.
Proof.
  unfold well_rated. intros H.
  repeat (apply elem_of_cons in H as [-> | H]); [| |by apply elem_of_nil in H];
    vm_compute; set_solver.
Qed.

Lemma score_of_not_well_rated r : ~ well_rated r -> score_of r ∈ [1; 2]%nat.
Proof.
  unfold well_rated, score_of, score_map. intros H.
  destruct (decide (r = "excellent")) as [->|]; [destruct H; set_solver|].
  destruct (decide (r = "good")) as [->|]; [destruct H; set_solver|].
  destruct (decide (r = "fair")) as [->|]; [cbn; set_solver|].
  destruct (decide (r = "poor")) as [->|]; [cbn; set_solver|].
  rewrite !lookup_insert_ne, lookup_empty by done. cbn. set_solver.
Qed.

Ltac two_cases s H :=
  destruct s as [s|];
  [ cbn in H;
    repeat (apply elem_of_cons in H as [-> | H]); [ | | by apply elem_of_nil in H ]
  | clear H ].

Lemma quotient_high (s1 : nat) (s2 s3 s4 : option nat) :
  s1 ∈ [3; 4]%nat -> high s2 -> high s3 -> high s4 ->
  (0.6 <=? quotient (score_totals [Some s1; s2; s3; s4])) = true.
Proof.
  intros H1 H2 H3 H4.
  repeat (apply elem_of_cons in H1 as [-> | H1]); [ | | by apply elem_of_nil in H1 ];
    two_cases s2 H2; two_cases s3 H3; two_cases s4 H4; by vm_compute.
Qed.

Lemma quotient_low (s1 s2 s3 s4 : option nat) :
  low s1 -> low s2 -> low s3 -> low s4 ->
  (0.6 <=? quotient (score_totals [s1; s2; s3; s4])) = false.
Proof.
  intros H1 H2 H3 H4.
  two_cases s1 H1; two_cases s2 H2; two_cases s3 H3; two_cases s4 H4; by vm_compute.
Qed.

(** X5: a rubric whose correctness is rated good or excellent, and whose
    other criteria, where present, are rated good or excellent too, passes
    at every similarity and threshold. *)
Theorem well_rated_passes (similarity threshold : float)
    (analysis : gmap string CriterionJudgment) (j : CriterionJudgment) :
  analysis !! "correctness" = Some j ->
  (forall c j', c ∈ criteria_names -> analysis !! c = Some j' ->
     well_rated (stored_rating j')) ->
  exists v, determine_pass_fail similarity threshold (Some analysis) = Returned v
            /\ is_pass v = true.
Proof.
  intros Hj Hall. unfold determine_pass_fail.
  rewrite (lookup_nonempty _ _ _ Hj), normalized_score_quotient.
  eexists. split; [reflexivity|]. cbn [is_pass].
  assert (Hc : well_rated (stored_rating j)) by (apply (Hall "correctness"); [repeat constructor|done]).
  assert (Hl : extract_ratings analysis !! "correctness" = Some (stored_rating j)).
  { rewrite extract_ratings_lookup by (repeat constructor). by rewrite Hj. }
  assert (Hq : (0.6 <=? quotient (score_totals (rating_scores (extract_ratings analysis))))
               = true).
  { rewrite rating_scores_extract. unfold criteria_names. cbn [map]. rewrite Hj.
    cbn [fmap option_fmap option_map].
    apply quotient_high; [by apply score_of_well_rated|..];
      match goal with
      | |- high (_ <$> analysis !! ?c) =>
          destruct (analysis !! c) eqn:E; cbn; [|done];
          apply score_of_well_rated, (Hall c); [repeat constructor|done]
      end. }
  unfold final_pass, qualitative_pass, correctness_acceptable. rewrite Hq, Hl.
  assert (Hr : stored_rating j = "good" \/ stored_rating j = "excellent").
  { unfold well_rated in Hc.
    repeat (apply elem_of_cons in Hc as [Hc | Hc]); auto. by apply elem_of_nil in Hc. }
  destruct Hr as [-> | ->]; cbn; apply orb_true_r.
Qed.

(** X6: a rubric none of whose four criteria is rated good or excellent
    cannot pass on its qualitative score: a passing verdict then has
    [similarity >= threshold]. *)
Theorem low_ratings_need_similarity (similarity threshold : float)
    (analysis : gmap string CriterionJudgment) (v : Verdict) :
  (forall c j, c ∈ criteria_names -> analysis !! c = Some j ->
     ~ well_rated (stored_rating j)) ->
  determine_pass_fail similarity threshold (Some analysis) = Returned v ->
  is_pass v = true ->
  (threshold <=? similarity) = true.
Proof.
  intros Hall. unfold determine_pass_fail.
  destruct (bool_decide (analysis = ∅)); [by intros [= <-]|].
  rewrite normalized_score_quotient. intros [= <-]. cbn [is_pass].
  assert (Hq : (0.6 <=? quotient (score_totals (rating_scores (extract_ratings analysis))))
               = false).
  { rewrite rating_scores_extract. unfold criteria_names. cbn [map].
    apply quotient_low;
      match goal with
      | |- low (_ <$> analysis !! ?c) =>
          destruct (analysis !! c) eqn:E; cbn; [|done];
          apply score_of_not_well_rated, (Hall c); [repeat constructor|done]
      end. }
  unfold final_pass, qualitative_pass. rewrite Hq. cbn [andb]. rewrite orb_false_r.
  by destruct (bool_decide _).
Qed.

End ScoreTheorems.

Section MoreReportFacts.
Import Eval Report ReportVocabulary.
Open Scope float_scope.

Lemma load_models_data_length eval_files :
  length (load_models_data eval_files) = length (List.filter loads eval_files).
Proof.
  induction eval_files as [|[n [d|e]] fs IH]; cbn; [done| |done]. by rewrite IH.
Qed.

Lemma sort_reverse_perm {A} (key : A -> float) (l : list A) :
  sort_reverse key l ≡ₚ l.
Proof.
  unfold sort_reverse.
  by rewrite reverse_Permutation, stable_sort_perm, reverse_Permutation.
Qed.

(** X7: [generate_summary_report] raises exactly when no evaluation file
    loads; otherwise the models it reports are the loaded ones, each once,
    whatever their pass rates: a file that fails to load is skipped and
    nothing else is dropped or repeated. *)
Theorem summary_report_keeps_models
    (eval_files : list (string * Outcome EvalDocument)) :
  match generate_summary_report eval_files with
  | Returned report =>
      summary_data report ≡ₚ load_models_data eval_files
      /\ length (summary_data report) = length (List.filter loads eval_files)
      /\ (0 < length (List.filter loads eval_files))%nat
  | Raised _ => List.filter loads eval_files = []
  end.
Proof.
  unfold generate_summary_report.
  destruct eval_files as [|f fs]; [done|].
  pose proof (load_models_data_length (f :: fs)) as Hlen.
  destruct (load_models_data (f :: fs)) as [|m ms] eqn:Hload.
  - cbn [length] in Hlen. by destruct (List.filter loads (f :: fs)).
  - cbn [summary_data]. pose proof (sort_reverse_perm pass_rate (m :: ms)) as Hp.
    split; [done|]. rewrite Hp, Hlen.
    split; [done|]. rewrite <- Hlen. cbn. lia.
Qed.

(** X8: in a report over evaluations that are not summarization
    evaluations and whose pass rates are numbers, the model named best
    performer is the first of the ranking and no loaded model has a higher
    pass rate. *)
Theorem best_performer_has_top_pass_rate
    (eval_files : list (string * Outcome EvalDocument)) (report : SummaryReport) :
  Forall (fun model => is_number (pass_rate model) = true)
         (load_models_data eval_files) ->
  generate_summary_report eval_files = Returned report ->
  evaluation_type report <> "summarization" ->
  exists best,
    head (summary_data report) = Some best
    /\ best_performer (report_content report) = Some (name best)
    /\ head (ranking (report_content report)) = Some (name best, pass_rate best)
    /\ forall model, model ∈ load_models_data eval_files ->
         (pass_rate model <=? pass_rate best) = true.
Proof.
  intros Hn Hrep Htype. unfold generate_summary_report in Hrep.
  destruct eval_files as [|f fs]; [discriminate|].
  destruct (load_models_data (f :: fs)) as [|m ms] eqn:Hload; [discriminate|].
  injection Hrep as <-. cbn [evaluation_type report_content summary_data] in *.
  apply String.eqb_neq in Htype. rewrite Htype.
  destruct (sort_reverse_descending pass_rate (m :: ms) Hn) as [Hperm Hsorted].
  destruct (sort_reverse pass_rate (m :: ms)) as [|best rest] eqn:Hs.
  { by apply Permutation_nil_cons in Hperm. }
  exists best. repeat split.
  intros model Hm. rewrite <- Hperm in Hm.
  apply StronglySorted_inv in Hsorted as [_ Hall].
  apply elem_of_cons in Hm as [-> | Hm].
  - assert (Hb : is_number (pass_rate best) = true).
    { rewrite Forall_forall in Hn. apply Hn. rewrite <- Hperm. by left. }
    unfold is_number in Hb. rewrite FloatAxioms.eqb_spec in Hb.
    rewrite FloatAxioms.leb_spec. unfold SFleb. unfold SFeqb in Hb.
    by destruct (SFcompare _ _) as [[]|].
  - rewrite Forall_forall in Hall. by apply Hall.
Qed.

End MoreReportFacts.

Section AccountingFacts.
Import Batch Accounting.
Open Scope float_scope.

Context (claude : Client -> list CallRecord -> string -> Outcome ClaudeResponse).
Context (lemonade : Client -> list CallRecord -> string -> string -> Z -> float ->
                    Outcome LemonadeResponse).
Context (now : string).

Lemma effect_same w : effect 0 0 w w.
Proof. exists [], []. by rewrite !app_nil_r. Qed.

Lemma effect_trans n m u v w1 w2 w3 :
  effect n u w1 w2 -> effect m v w2 w3 -> effect (n + m) (u + v) w1 w3.
Proof.
  intros (c1 & l1 & Hc1 & <- & Hl1 & Hn1 & Hf1) (c2 & l2 & Hc2 & <- & Hl2 & Hn2 & Hf2).
  exists (c1 ++ c2), (l1 ++ l2).
  rewrite Hc2, Hc1, Hl2, Hl1, Hf2, Hf1, <- !app_assoc, List.filter_app, !length_app.
  repeat split; try done. lia.
Qed.

Lemma effect_step n w1 w2 w3 :
  effect 1 0 w1 w2 -> effect n 0 w2 w3 -> effect (S n) 0 w1 w3.
Proof. apply (effect_trans 1 n 0 0). Qed.

Lemma effect_log msg w : effect 0 1 w (log_error msg w).2.
Proof. exists [], [msg]. cbn. by rewrite app_nil_r. Qed.

(** A return value after a call that logs once iff it failed. *)
Lemma effect_call {A} (r : Outcome A) prompt msg w :
  effect 1 0 w
    (match r with
     | Returned _ => (record_call prompt r w).2
     | Raised e => (log_error (msg e) (record_call prompt r w).2).2
     end).
Proof.
  destruct r as [a|e].
  - exists [{| call_prompt := prompt; call_failure := None |}], [].
    cbn. by rewrite app_nil_r.
  - exists [{| call_prompt := prompt; call_failure := Some e |}], [msg e]. by cbn.
Qed.

Lemma effect_process_question_claude client q sp w :
  effect 1 0 w (process_question_claude claude client q sp w).2.
Proof.
  unfold process_question_claude, call_claude. rewrite bind_run.
  pose proof (effect_call (claude client (calls w) (question_prompt sp q))
                (question_prompt sp q)
                (fun e => "Error processing question with Claude: " +:+ e) w) as H.
  cbn [record_call fst]. by destruct (claude _ _ _).
Qed.

Lemma effect_process_question_lemonade client q sp mt t w :
  effect 1 0 w (process_question_lemonade lemonade client q sp mt t w).2.
Proof.
  unfold process_question_lemonade, call_lemonade. rewrite bind_run.
  pose proof (effect_call
                (lemonade client (calls w) (client_model client)
                          (question_prompt sp q) mt t)
                (question_prompt sp q)
                (fun e => "Error processing question with Lemonade: " +:+ e) w) as H.
  cbn [record_call fst]. by destruct (lemonade _ _ _ _ _ _).
Qed.

Lemma effect_ask_query e client transcript query w :
  effect 1 0 w (ask_query claude lemonade e client transcript query w).2.
Proof.
  unfold ask_query, call_claude, call_lemonade. destruct client as [m mt|m ps];
    rewrite bind_run; cbn [record_call fst].
  - pose proof (effect_call
                  (claude (ClaudeClient m mt) (calls w)
                          (context_prompt (system_prompt e) transcript query))
                  (context_prompt (system_prompt e) transcript query)
                  (fun e => "Error processing QA with Claude: " +:+ e) w) as H.
    by destruct (claude _ _ _).
  - pose proof (effect_call
                  (lemonade (LemonadeClient m ps) (calls w) m
                            (context_prompt (system_prompt e) transcript query)
                            (max_tokens e) (temperature e))
                  (context_prompt (system_prompt e) transcript query)
                  (fun e => "Error processing QA with Lemonade: " +:+ e) w) as H.
    by destruct (lemonade _ _ _ _ _ _).
Qed.

Lemma effect_ask_queries e client transcript queries : forall total w,
  effect (length queries) 0 w
         (ask_queries claude lemonade e client transcript queries total w).2.
Proof.
  induction queries as [|query rest IH]; intros total w; cbn [ask_queries length].
  - apply effect_same.
  - rewrite bind_run.
    eapply effect_step; [apply effect_ask_query | apply IH].
Qed.

Lemma effect_summarize_claude client transcript prompts : forall st w,
  effect (length prompts) 0 w
         (summarize_claude claude client transcript prompts st w).2.
Proof.
  induction prompts as [|[component template] rest IH]; intros st w;
    cbn [summarize_claude length].
  - apply effect_same.
  - rewrite !bind_run.
    eapply effect_step; [|apply IH].
    unfold call_claude. cbn [record_call fst snd].
    pose proof (effect_call
                  (claude client (calls w) (summary_prompt template transcript))
                  (summary_prompt template transcript)
                  (fun e => "Error processing " +:+ component
                            +:+ " with Claude: " +:+ e) w) as H.
    by destruct (claude _ _ _).
Qed.

Lemma effect_summarize_lemonade client transcript mt t prompts : forall st w,
  effect (length prompts) 0 w
         (summarize_lemonade lemonade client transcript mt t prompts st w).2.
Proof.
  induction prompts as [|[component template] rest IH]; intros st w;
    cbn [summarize_lemonade length].
  - apply effect_same.
  - rewrite !bind_run.
    eapply effect_step; [|apply IH].
    unfold call_lemonade. cbn [record_call fst snd].
    pose proof (effect_call
                  (lemonade client (calls w) (client_model client)
                            (summary_prompt template transcript) mt t)
                  (summary_prompt template transcript)
                  (fun e => "Error processing " +:+ component
                            +:+ " with Lemonade: " +:+ e) w) as H.
    by destruct (lemonade _ _ _ _ _ _).
Qed.

Lemma effect_process_item e client i data_item st w :
  effect (backend_calls data_item)
         (if supported data_item then 0 else 1) w
         (process_item claude lemonade e client i data_item st w).2.
Proof.
  destruct data_item as [q g|tr sf qs|tr gt sf|t];
    cbn [process_item backend_calls supported]; rewrite ?bind_run;
    cbn [mret M_ret snd].
  - destruct client; [apply effect_process_question_claude
                     | apply effect_process_question_lemonade].
  - apply effect_ask_queries.
  - destruct client;
      unfold process_summarization_claude, process_summarization_lemonade;
      rewrite bind_run; cbn [mret M_ret snd].
    + apply (effect_summarize_claude _ _ (_get_summary_prompts (system_prompt e))).
    + apply (effect_summarize_lemonade _ _ _ _ (_get_summary_prompts (system_prompt e))).
  - apply effect_log.
Qed.

Lemma effect_run_items e client data_items : forall i st w,
  effect (total_backend_calls data_items)
         (length (unsupported_items data_items)) w
         (run_items claude lemonade e client i data_items st w).2.
Proof.
  induction data_items as [|data_item rest IH]; intros i st w; cbn [run_items].
  - apply effect_same.
  - rewrite bind_run.
    pose proof (effect_trans _ _ _ _ _ _ _
                  (effect_process_item e client i data_item st w)
                  (IH (S i)
                      (process_item claude lemonade e client i data_item st w).1
                      (process_item claude lemonade e client i data_item st w).2))
      as H.
    unfold total_backend_calls, unsupported_items in *.
    cbn [fmap list_fmap List.filter].
    change (sum_list (?x :: ?l)) with (x + sum_list l)%nat.
    destruct (supported data_item); cbn [negb length] in *; exact H.
Qed.


End AccountingFacts.

Section TokenFacts.
Import Batch Accounting.
Open Scope float_scope.

Context (claude : Client -> list CallRecord -> string -> Outcome ClaudeResponse).
Context (lemonade : Client -> list CallRecord -> string -> string -> Z -> float ->
                    Outcome LemonadeResponse).
Context (now : string).

(** *** Lemonade runs *)








(** *** Claude runs *)

Lemma accumulate_usage_lookup total d key v :
  total !! key = Some v ->
  accumulate_usage total d !! key = Some (v + gain d key)%Z.
Proof.
  intros Hv. unfold accumulate_usage, gain. destruct d as [d|]; cbn.
  - case_bool_decide as Hd.
    + subst d. rewrite lookup_empty. cbn. by rewrite Z.add_0_r.
    + rewrite map_lookup_imap, Hv. done.
  - by rewrite Z.add_0_r.
Qed.

Lemma accumulate_usage_absent total d key :
  total !! key = None -> accumulate_usage total d !! key = None.
Proof.
  intros Hv. unfold accumulate_usage. destruct d as [d|]; [|done].
  case_bool_decide; [done|]. by rewrite map_lookup_imap, Hv.
Qed.

Lemma gain_zero_usage key : gain (Some zero_usage) key = 0%Z.
Proof.
  unfold gain, zero_usage. cbn.
  destruct (decide (key = "input_tokens")) as [->|]; [done|].
  rewrite lookup_insert_ne by done.
  destruct (decide (key = "output_tokens")) as [->|]; [done|].
  rewrite lookup_insert_ne by done.
  destruct (decide (key = "total_tokens")) as [->|]; [done|].
  by rewrite lookup_insert_ne by done.
Qed.

Lemma reported_total_app client before new1 new2 key :
  reported_total claude client before (new1 ++ new2) key
  = (reported_total claude client before new1 key
     + reported_total claude client (before ++ new1) new2 key)%Z.
Proof.
  revert before. induction new1 as [|c new1 IH]; intros before; cbn.
  - by rewrite app_nil_r.
  - rewrite IH, <- app_assoc. cbn. lia.
Qed.

Lemma metered_same client key w w' : calls w' = calls w -> metered claude client key 0 w w'.
Proof. intros H. exists []. by rewrite app_nil_r. Qed.

Lemma metered_trans client key g h w1 w2 w3 :
  metered claude client key g w1 w2 -> metered claude client key h w2 w3 ->
  metered claude client key (g + h) w1 w3.
Proof.
  intros (n1 & H1 & ->) (n2 & H2 & ->). exists (n1 ++ n2).
  by rewrite H2, H1, <- app_assoc, reported_total_app.
Qed.

(** One call on the Claude backend whose result takes its usage from
    the response, or is the zero dictionary if the call raised. *)
Lemma metered_call client prompt key w :
  let r := claude client (calls w) prompt in
  metered claude client key
    (gain (match r with
           | Returned response_data => claude_usage response_data
           | Raised _ => Some zero_usage
           end) key)
    w (record_call prompt r w).2.
Proof.
  cbn zeta. eexists [_]. split; [done|]. cbn [reported_total call_prompt].
  unfold reported. destruct (claude client (calls w) prompt).
  - lia.
  - rewrite gain_zero_usage. lia.
Qed.

Lemma calls_log_error msg w : calls (log_error msg w).2 = calls w.
Proof. done. Qed.

Lemma metered_process_question_claude client q sp key w :
  let out := process_question_claude claude client q sp w in
  metered claude client key (gain (usage out.1) key) w out.2.
Proof.
  cbn zeta. unfold process_question_claude, call_claude. rewrite bind_run.
  pose proof (metered_call client (question_prompt sp q) key w) as H.
  cbn zeta in H. cbn [record_call fst snd] in *.
  by destruct (claude client (calls w) (question_prompt sp q)).
Qed.

Lemma metered_ask_query e m mt transcript query key w :
  let out := ask_query claude lemonade e (ClaudeClient m mt) transcript query w in
  metered claude (ClaudeClient m mt) key (gain (usage out.1) key) w out.2.
Proof.
  cbn zeta. unfold ask_query, call_claude. rewrite bind_run.
  pose proof (metered_call (ClaudeClient m mt)
                (context_prompt (system_prompt e) transcript query) key w) as H.
  cbn zeta in H. cbn [record_call fst snd] in *.
  by destruct (claude _ (calls w) _).
Qed.

Lemma metered_ask_queries e m mt transcript key queries : forall total t v w,
  usage total = Some t -> t !! key = Some v ->
  let out := ask_queries claude lemonade e (ClaudeClient m mt)
                         transcript queries total w in
  exists g, metered claude (ClaudeClient m mt) key g w out.2
            /\ gain (usage out.1) key = (v + g)%Z.
Proof.
  induction queries as [|query rest IH]; intros total t v w Ht Hv; cbn zeta;
    cbn [ask_queries].
  - exists 0%Z. split; [by apply metered_same|].
    cbn [mret M_ret fst]. unfold gain. rewrite Ht. cbn. rewrite Hv. cbn. lia.
  - rewrite bind_run.
    pose proof (metered_ask_query e m mt transcript query key w) as Hq.
    cbn zeta in Hq.
    set (qr := ask_query claude lemonade e (ClaudeClient m mt) transcript query w) in *.
    match goal with |- context [ask_queries _ _ _ _ _ _ ?tot ?w'] =>
      destruct (IH tot (accumulate_usage t (usage qr.1))
                   (v + gain (usage qr.1) key)%Z w')
        as (g & Hg & Hgain) end.
    { cbn [usage]. rewrite Ht. by cbv [default from_option id]. }
    { by apply accumulate_usage_lookup. }
    eexists. split; [eapply metered_trans; [exact Hq | exact Hg]|].
    cbn zeta in Hgain. rewrite Hgain. lia.
Qed.

Lemma metered_summarize_claude client transcript key prompts : forall st v w,
  ss_usage st !! key = Some v ->
  let out := summarize_claude claude client transcript prompts st w in
  exists g, metered claude client key g w out.2
            /\ ss_usage out.1 !! key = Some (v + g)%Z.
Proof.
  induction prompts as [|[component template] rest IH]; intros st v w Hv; cbn zeta;
    cbn [summarize_claude].
  - exists 0%Z. split; [by apply metered_same|]. by rewrite Z.add_0_r.
  - rewrite !bind_run. unfold call_claude.
    pose proof (metered_call client (summary_prompt template transcript) key w) as Hc.
    cbn zeta in Hc. cbn [record_call fst snd] in *.
    destruct (claude client (calls w) (summary_prompt template transcript))
      as [response_data|err]; cbn [mret M_ret fst snd]; rewrite ?bind_run;
      cbn [mret M_ret fst snd].
    + match goal with |- context [summarize_claude _ _ _ _ ?s ?w'] =>
        destruct (IH s (v + gain (claude_usage response_data) key)%Z w')
          as (g & Hg & Hu) end.
      { cbn [ss_usage]. by apply accumulate_usage_lookup. }
      eexists. split; [eapply metered_trans; [exact Hc | exact Hg]|].
      cbn zeta in Hu. rewrite Hu. f_equal; lia.
    + match goal with |- context [summarize_claude _ _ _ _ ?s ?w'] =>
        destruct (IH s v w') as (g & Hg & Hu) end; [done|].
      assert (Hg' : metered claude client key g
                (record_call (summary_prompt template transcript)
                             (Raised (A:=ClaudeResponse) err) w).2
                (summarize_claude claude client transcript rest
                   {| ss_results := ss_results st ++ [(component, "ERROR: " +:+ err)];
                      ss_usage := ss_usage st;
                      ss_cost := ss_cost st;
                      ss_errors := ss_errors st ++ [component +:+ ": " +:+ err] |}
                   (log_error ("Error processing " +:+ component
                               +:+ " with Claude: " +:+ err)
                      (record_call (summary_prompt template transcript)
                                   (Raised (A:=ClaudeResponse) err) w).2).2).2)
        by exact Hg.
      eexists. split; [eapply metered_trans; [exact Hc | exact Hg']|].
      cbn zeta in Hu. rewrite Hu, gain_zero_usage. f_equal; lia.
Qed.

Lemma zero_usage_lookup key :
  key ∈ usage_keys -> zero_usage !! key = Some 0%Z.
Proof.
  intros H. unfold usage_keys in H.
  repeat (apply elem_of_cons in H as [-> | H]); try done.
  by apply elem_of_nil in H.
Qed.

Lemma zero_usage_absent key :
  key ∉ usage_keys -> zero_usage !! key = None.
Proof.
  intros H. unfold usage_keys in H. unfold zero_usage.
  rewrite !lookup_insert_ne; [done|..]; intros <-; apply H;
    repeat first [ by left | right ].
Qed.

Lemma metered_process_item e m mt i data_item key st v w :
  key ∈ usage_keys ->
  total_usage st !! key = Some v ->
  let out := process_item claude lemonade e (ClaudeClient m mt) i data_item st w in
  exists g, metered claude (ClaudeClient m mt) key g w out.2
            /\ total_usage out.1 !! key = Some (v + g)%Z.
Proof.
  intros Hkey Hv. cbn zeta.
  destruct data_item as [q g|tr sf qs|tr gt sf|t]; cbn [process_item];
    rewrite ?bind_run; cbn [mret M_ret fst snd accumulate total_usage].
  - eexists. split; [apply metered_process_question_claude|].
    by apply accumulate_usage_lookup.
  - destruct (metered_ask_queries e m mt tr key qs raw_start zero_usage 0%Z w
                eq_refl (zero_usage_lookup key Hkey)) as (g & Hg & Hgain).
    exists g. split; [exact Hg|].
    erewrite accumulate_usage_lookup by exact Hv. cbn zeta in Hgain.
    rewrite Hgain. f_equal; lia.
  - unfold process_summarization_claude. rewrite bind_run.
    cbn [mret M_ret fst snd].
    destruct (metered_summarize_claude (ClaudeClient m mt) tr key
                (_get_summary_prompts (system_prompt e)) summary_start 0%Z w
                (zero_usage_lookup key Hkey)) as (g & Hg & Hu).
    exists g. split; [exact Hg|].
    erewrite accumulate_usage_lookup by exact Hv.
    unfold gain, summary_result. cbn [usage mbind option_bind]. cbn zeta in Hu.
    rewrite Hu. cbn. f_equal; lia.
  - exists 0%Z. split; [by apply metered_same|]. by rewrite Z.add_0_r.
Qed.

Lemma metered_run_items e m mt key data_items : forall i st v w,
  key ∈ usage_keys ->
  total_usage st !! key = Some v ->
  let out := run_items claude lemonade e (ClaudeClient m mt) i data_items st w in
  exists g, metered claude (ClaudeClient m mt) key g w out.2
            /\ total_usage out.1 !! key = Some (v + g)%Z.
Proof.
  induction data_items as [|data_item rest IH]; intros i st v w Hkey Hv; cbn zeta;
    cbn [run_items].
  - exists 0%Z. split; [by apply metered_same|]. by rewrite Z.add_0_r.
  - rewrite bind_run.
    destruct (metered_process_item e m mt i data_item key st v w Hkey Hv)
      as (g & Hg & Hu).
    destruct (IH (S i) _ _
                 (process_item claude lemonade e (ClaudeClient m mt) i data_item st w).2
                 Hkey Hu) as (h & Hh & Hu').
    exists (g + h)%Z. split; [by eapply metered_trans|].
    cbn zeta in Hu'. rewrite Hu'. f_equal; lia.
Qed.

Lemma absent_process_item e client i data_item key st w :
  total_usage st !! key = None ->
  total_usage (process_item claude lemonade e client i data_item st w).1 !! key = None.
Proof.
  intros Hv.
  destruct data_item as [q g|tr sf qs|tr gt sf|t]; cbn [process_item];
    rewrite ?bind_run; cbn [mret M_ret fst snd accumulate total_usage];
    try done; by apply accumulate_usage_absent.
Qed.

Lemma absent_run_items e client key data_items : forall i st w,
  total_usage st !! key = None ->
  total_usage (run_items claude lemonade e client i data_items st w).1 !! key = None.
Proof.
  induction data_items as [|data_item rest IH]; intros i st w Hv; cbn [run_items];
    [done|].
  rewrite bind_run. by apply IH, absent_process_item.
Qed.

(** X11: on the Claude backend the token counts of the persisted
    document are, key by key, the sum of what the calls of the run
    reported (a call that raised, or that reported no usage or not that
    key, counts for nothing); keys other than the three token counts
    are never recorded, even if a response reports them. *)
Theorem claude_run_token_totals e data_items output_dir w0 :
  Py.lower (llm_type e) = "claude" ->
  let client := ClaudeClient (model e) (max_tokens e) in
  let out := run_experiment claude lemonade now e data_items output_dir w0 in
  exists doc new,
    persisted out = Some doc
    /\ calls out.2 = calls w0 ++ new
    /\ (forall key, key ∈ usage_keys ->
          md_total_usage (metadata doc) !! key
          = Some (reported_total claude client (calls w0) new key))
    /\ (forall key, key ∉ usage_keys ->
          md_total_usage (metadata doc) !! key = None).
Proof.
  intros Hkind. cbn zeta.
  assert (Hclient : create_llm_client e
                    = Returned (ClaudeClient (model e) (max_tokens e))).
  { unfold create_llm_client. by rewrite Hkind. }
  unfold run_experiment. rewrite Hclient, !bind_run.
  unfold write_file, persisted. cbn [mret M_ret fst snd files calls].
  rewrite lookup_insert_eq.
  destruct (effect_run_items claude lemonade e
              (ClaudeClient (model e) (max_tokens e)) data_items 0%nat run_start w0)
    as (new & _ & Hnew & _).
  eexists _, new. split; [done|]. split; [exact Hnew|].
  cbn [metadata output_data md_total_usage]. split.
  - intros key Hkey.
    destruct (metered_run_items e (model e) (max_tokens e) key data_items 0%nat
                run_start 0%Z w0 Hkey (zero_usage_lookup key Hkey))
      as (g & (new' & Hnew' & ->) & Hu).
    cbn zeta in Hu. rewrite Hu. rewrite Hnew in Hnew'.
    apply app_inv_head in Hnew'. by subst new'.
  - intros key Hkey. apply absent_run_items. cbn [run_start total_usage].
    by apply zero_usage_absent.
Qed.

End TokenFacts.

Section FilingFacts.
Import Batch Filing Analyze.
Open Scope float_scope.

Context (claude : Client -> list CallRecord -> string -> Outcome ClaudeResponse).
Context (lemonade : Client -> list CallRecord -> string -> string -> Z -> float ->
                    Outcome LemonadeResponse).
Context (now : string).

Lemma entry_matches_raw data_item entry :
  supported data_item = true ->
  entry_matches data_item entry ->
  is_raw data_item = match entry with TranscriptQAEntry _ _ _ => true | _ => false end.
Proof. by destruct data_item, entry. Qed.

Lemma analysis_of_filing e data_items entries :
  experiment_type e ∈ ["qa"; "summarization"] ->
  Forall2 entry_matches (List.filter supported data_items) entries ->
  analysis_of e entries = {[ filing_key e data_items := entries ]}.
Proof.
  intros He Hm. unfold analysis_of, filing_key.
  destruct (String.eqb (experiment_type e) "qa") eqn:Hqa.
  - destruct Hm as [|data_item entry items rest Hmatch _]; [done|].
    cbn [head].
    assert (Hs : supported data_item = true).
    { by destruct data_item, entry. }
    rewrite (entry_matches_raw _ _ Hs Hmatch). by destruct entry.
  - destruct (String.eqb (experiment_type e) "summarization") eqn:Hsum; [done|].
    apply String.eqb_neq in Hqa, Hsum.
    repeat (apply elem_of_cons in He as [He | He]); try done.
    by apply elem_of_nil in He.
Qed.

(** X12: a run of an experiment of type "qa" or "summarization" files
    all its result entries, one per supported item and in input order,
    under a single key of the document's analysis. A summarization
    experiment files under "summarization_results" whatever the items
    are; a Q&A experiment files everything under
    "transcript_qa_results" when the first supported item is a raw
    transcript, and under "qa_results" otherwise. *)
Theorem results_filed_under_one_key e client data_items output_dir w0 :
  create_llm_client e = Returned client ->
  experiment_type e ∈ ["qa"; "summarization"] ->
  let out := run_experiment claude lemonade now e data_items output_dir w0 in
  exists doc entries,
    persisted out = Some doc
    /\ doc_analysis doc = {[ filing_key e data_items := entries ]}
    /\ Forall2 entry_matches (List.filter supported data_items) entries
    /\ md_total_items (metadata doc) = length data_items.
Proof.
  intros Hclient He. cbn zeta.
  destruct (run_experiment_persists claude lemonade now e client data_items
              output_dir w0 Hclient) as (Hdoc & _ & _).
  destruct (run_items_state claude lemonade e client data_items 0 run_start w0)
    as (nr & ne & Hres & Hmatch & _).
  cbn [run_start results app] in Hres.
  eexists _, nr. split; [exact Hdoc|].
  cbn [doc_analysis output_data metadata md_total_items]. rewrite Hres.
  split; [by apply analysis_of_filing|]. by split.
Qed.

Context {Q : Type}.
Context (analyze_qa : LoadedResults -> list ResultEntry -> Outcome (Analysis Q)).
Context (analyze_summaries :
           LoadedResults -> list ResultEntry -> option string -> Outcome (Analysis Q)).

(** X13: the answers of a Q&A run that starts with a raw transcript are
    never analysed. Such a run files its results under
    "transcript_qa_results", which [analyze_with_claude] does not read:
    on the document of the run it returns the fixed analysis that says
    no results were found, with rating "error", without handing over to
    either analyser and without logging. *)
Theorem raw_transcript_run_not_analysed e client data_items output_dir w0
    groundtruth_path transcript source_file queries rest :
  create_llm_client e = Returned client ->
  experiment_type e = "qa" ->
  List.filter supported data_items = QARaw transcript source_file queries :: rest ->
  let out := run_experiment claude lemonade now e data_items output_dir w0 in
  exists doc,
    persisted out = Some doc
    /\ analyze_with_claude analyze_qa analyze_summaries
                           (Returned (reload doc)) groundtruth_path
       = (nothing_to_analyze, []).
Proof.
  intros Hclient Hqa Hfirst. cbn zeta.
  assert (He : experiment_type e ∈ ["qa"; "summarization"]).
  { rewrite Hqa. by left. }
  destruct (run_experiment_persists claude lemonade now e client data_items
              output_dir w0 Hclient) as (Hdoc & _ & _).
  destruct (run_items_state claude lemonade e client data_items 0 run_start w0)
    as (nr & ne & Hres & Hmatch & _).
  cbn [run_start results app] in Hres.
  eexists. split; [exact Hdoc|].
  unfold analyze_with_claude, reload.
  cbn [lr_analysis lr_qa_results doc_analysis output_data].
  rewrite Hres, (analysis_of_filing e data_items nr He Hmatch).
  unfold filing_key. rewrite Hqa, Hfirst.
  change (String.eqb "qa" "qa") with true. cbn [head is_raw].
  cbv [default from_option id]. by rewrite !lookup_singleton_ne.
Qed.

End FilingFacts.

Section StripFacts.
Import Loader.

Lemma chars_of_lstrip s :
  list_ascii_of_string (Py.lstrip s) = lstrip_chars (list_ascii_of_string s).
Proof. induction s as [|c s IH]; cbn; [done|]. by destruct (Py.isspace c). Qed.

Lemma chars_of_rstrip s :
  list_ascii_of_string (Py.rstrip s)
  = rev (lstrip_chars (rev (list_ascii_of_string s))).
Proof. unfold Py.rstrip. by rewrite chars_rev, chars_of_lstrip, chars_rev. Qed.

Lemma chars_inj s1 s2 :
  list_ascii_of_string s1 = list_ascii_of_string s2 -> s1 = s2.
Proof.
  intros H. rewrite <- (string_of_list_ascii_of_string s1),
              <- (string_of_list_ascii_of_string s2). by rewrite H.
Qed.

Lemma lstrip_chars_idem l : lstrip_chars (lstrip_chars l) = lstrip_chars l.
Proof.
  induction l as [|c l IH]; cbn; [done|].
  destruct (Py.isspace c) eqn:Hc; [done|]. cbn. by rewrite Hc.
Qed.

Lemma lstrip_chars_snoc l c :
  Py.isspace c = false -> lstrip_chars (l ++ [c]) = lstrip_chars l ++ [c].
Proof.
  intros Hc. induction l as [|a l IH]; cbn; [by rewrite Hc|].
  by destruct (Py.isspace a).
Qed.

(** Stripping the right end keeps a stripped left end. *)
Lemma lstrip_chars_rstrip l :
  lstrip_chars l = l ->
  lstrip_chars (rev (lstrip_chars (rev l))) = rev (lstrip_chars (rev l)).
Proof.
  destruct l as [|c r]; [done|]. cbn [lstrip_chars].
  destruct (Py.isspace c) eqn:Hc.
  - intros H. exfalso.
    assert (Hlen : forall m, (length (lstrip_chars m) <= length m)%nat).
    { induction m as [|a m IH]; cbn; [done|]. destruct (Py.isspace a); cbn; lia. }
    pose proof (Hlen r) as Hr. rewrite H in Hr. cbn in Hr. lia.
  - intros _. cbn [rev]. rewrite lstrip_chars_snoc by done.
    rewrite rev_app_distr. cbn. by rewrite Hc.
Qed.

Lemma strip_idempotent s : Py.strip (Py.strip s) = Py.strip s.
Proof.
  apply chars_inj. unfold Py.strip.
  rewrite !chars_of_rstrip, !chars_of_lstrip, !chars_of_rstrip, !chars_of_lstrip.
  set (x := lstrip_chars (list_ascii_of_string s)).
  assert (E : lstrip_chars (rev (lstrip_chars (rev x))) = rev (lstrip_chars (rev x)))
    by apply lstrip_chars_rstrip, lstrip_chars_idem.
  by rewrite E, rev_involutive, lstrip_chars_idem.
Qed.

Lemma truthy_nonempty s : Py.truthy_str s = true -> s <> "".
Proof. by destruct s. Qed.

End StripFacts.

Section LoaderFacts.
Import Batch Accounting Filing Loader.
Open Scope float_scope.

Context (fs : FileSystem).

Lemma default_queries_well_formed :
  _get_default_queries <> [] /\ Forall (fun query => query <> "") _get_default_queries.
Proof. split; [done|]. by repeat constructor. Qed.

Lemma filter_truthy_nonempty l :
  Forall (fun query => query <> "") (List.filter Py.truthy_str l).
Proof.
  induction l as [|x l IH]; cbn; [constructor|].
  destruct (Py.truthy_str x) eqn:Hx; [|done]. constructor; [|done].
  by apply truthy_nonempty.
Qed.

Lemma load_queries_well_formed groundtruth_file queries :
  _load_queries_from_groundtruth fs groundtruth_file = Returned queries ->
  queries <> [] /\ Forall (fun query => query <> "") queries.
Proof.
  unfold _load_queries_from_groundtruth.
  destruct (load_json fs groundtruth_file) as [g|]; [|done].
  destruct (default [] (gt_qa_pairs g)) as [|p ps]; [done|].
  pose proof (filter_truthy_nonempty (pair_query_text <$> p :: ps)) as Hf.
  destruct (List.filter _ _) as [|q qs]; [done|]. by intros [= <-].
Qed.

Lemma qa_items_well_formed (qa_pairs : list QAPair) :
  Forall (well_formed "qa")
         ((fun qa_pair => QA (pair_query_text qa_pair) (pair_answer_text qa_pair))
            <$> qa_pairs).
Proof. induction qa_pairs; cbn; by constructor. Qed.

Lemma groundtruth_file_well_formed groundtruth_file experiment_type items :
  _load_from_groundtruth_file fs groundtruth_file experiment_type = Returned items ->
  items <> [] /\ Forall (well_formed experiment_type) items.
Proof.
  unfold _load_from_groundtruth_file.
  destruct (load_json fs groundtruth_file) as [g|]; [|done].
  destruct (String.eqb experiment_type "qa") eqn:Hqa.
  { apply String.eqb_eq in Hqa. destruct (default [] (gt_qa_pairs g)) as [|p ps]; [done|].
    intros [= <-]. split; [done|]. subst experiment_type.
    apply (qa_items_well_formed (p :: ps)). }
  destruct (String.eqb experiment_type "summarization") eqn:Hsum; [|done].
  apply String.eqb_eq in Hsum. case_bool_decide; [done|].
  destruct (_ || _); [done|]. destruct (read_text fs _) as [text|]; [|done].
  destruct (Py.truthy_str (Py.strip text)) eqn:Ht; [|done]. cbn [negb].
  intros [= <-]. split; [done|]. repeat constructor; [done|..].
  - by apply truthy_nonempty.
  - apply strip_idempotent.
Qed.

Lemma transcript_file_well_formed transcript_file experiment_type queries_source items :
  _load_from_transcript_file fs transcript_file experiment_type queries_source
  = Returned items ->
  exists data_item, items = [data_item] /\ well_formed experiment_type data_item.
Proof.
  unfold _load_from_transcript_file.
  destruct (read_text fs transcript_file) as [text|]; [|done].
  destruct (Py.truthy_str (Py.strip text)) eqn:Ht; [|done]. cbn [negb].
  apply truthy_nonempty in Ht.
  destruct (String.eqb experiment_type "qa") eqn:Hqa.
  { apply String.eqb_eq in Hqa.
    destruct (truthy_path queries_source).
    - destruct (_load_queries_from_groundtruth fs _) as [queries|] eqn:Hq; [|done].
      apply load_queries_well_formed in Hq as [? ?].
      intros [= <-]. eexists. split; [done|]. cbn.
      repeat split; auto using strip_idempotent.
    - intros [= <-]. eexists. split; [done|]. cbn.
      destruct default_queries_well_formed.
      repeat split; auto using strip_idempotent. }
  destruct (String.eqb experiment_type "summarization") eqn:Hsum; [|done].
  apply String.eqb_eq in Hsum.
  intros [= <-]. eexists. split; [done|]. cbn.
  repeat split; auto using strip_idempotent.
Qed.

Lemma transcript_file_source transcript_file experiment_type queries_source items :
  _load_from_transcript_file fs transcript_file experiment_type queries_source
  = Returned items ->
  source_of <$> items = [Some transcript_file].
Proof.
  unfold _load_from_transcript_file.
  destruct (read_text fs transcript_file) as [text|]; [|done].
  destruct (negb _); [done|].
  destruct (String.eqb experiment_type "qa").
  { destruct (if truthy_path queries_source then _ else _); [|done]. by intros [= <-]. }
  destruct (String.eqb experiment_type "summarization"); [|done]. by intros [= <-].
Qed.

Lemma transcript_files_well_formed transcript_files experiment_type queries_source :
  forall data items,
    load_transcript_files fs transcript_files experiment_type queries_source data
    = Returned items ->
    exists new, items = data ++ new
                /\ Forall (well_formed experiment_type) new
                /\ source_of <$> new = Some <$> transcript_files.
Proof.
  induction transcript_files as [|f rest IH]; intros data items; cbn.
  - intros [= <-]. exists []. by rewrite app_nil_r.
  - destruct (_load_from_transcript_file fs f _ _) as [file_data|] eqn:Hf; [|done].
    intros (new & -> & Hnew & Hsrc)%IH.
    pose proof (transcript_file_source _ _ _ _ Hf) as Hs.
    apply transcript_file_well_formed in Hf as (data_item & -> & Hitem).
    exists (data_item :: new). rewrite <- app_assoc. split; [done|].
    split; [by constructor|]. cbn in *. by injection Hs as ->; rewrite Hsrc.
Qed.


(** What [load_data_from_source] hands over before the error handler. *)
Lemma load_inner_well_formed input_path experiment_type queries_source items :
  (if is_file fs input_path then
     if String.eqb (suffix fs input_path) ".json"
     then _load_from_groundtruth_file fs input_path experiment_type
     else _load_from_transcript_file fs input_path experiment_type queries_source
   else if is_dir fs input_path then
     _load_from_transcript_directory fs input_path experiment_type queries_source
   else Raised ("Input path not found: " +:+ input_path)) = Returned items ->
  items <> [] /\ Forall (well_formed experiment_type) items.
Proof.
  destruct (is_file fs input_path).
  - destruct (String.eqb _ _).
    + apply groundtruth_file_well_formed.
    + intros (data_item & -> & H)%transcript_file_well_formed.
      split; [done|]. by constructor.
  - destruct (is_dir fs input_path); [|done].
    unfold _load_from_transcript_directory.
    destruct (glob_txt fs _) as [|f files]; [done|].
    intros (new & -> & Hnew & Hsrc)%transcript_files_well_formed.
    cbn [app] in *. split; [|done]. intros ->. discriminate.
Qed.

Lemma load_data_from_source_cases input_path experiment_type queries_source w :
  let out := load_data_from_source fs input_path experiment_type queries_source w in
  match out.1 with
  | Returned items =>
      out.2 = w /\ items <> [] /\ Forall (well_formed experiment_type) items
  | Raised msg =>
      out.2 = {| calls := calls w;
                 error_log := error_log w
                                ++ ["Error loading data from source: " +:+ msg];
                 files := files w |}
  end.
Proof.
  cbn zeta. unfold load_data_from_source.
  match goal with |- context [match ?x with Returned _ => _ | Raised _ => _ end w] =>
    destruct x as [items|msg] eqn:Hload end; cbn; [|done].
  split; [done|]. by eapply load_inner_well_formed.
Qed.

Lemma well_formed_type experiment_type data_item :
  well_formed experiment_type data_item ->
  experiment_type ∈ ["qa"; "summarization"] /\ supported data_item = true.
Proof.
  destruct data_item as [q g|tr [sf|] qs|tr gt [sf|]|t]; cbn; try done.
  - intros ->. split; [by left|done].
  - intros (-> & _). split; [by left|done].
  - intros (-> & _). split; [right; by left|done].
Qed.

(** X14: the work items [load_data_from_source] returns are never of an
    unsupported kind and there is at least one: for a "qa" experiment
    they are Q&A pairs or raw transcripts that come with at least one
    question, none of them empty; for a "summarization" experiment they
    are transcripts; every transcript is stripped of surrounding white
    space and not empty. Loading leaves the world alone, except that a
    failure writes one line to the error log before it is raised
    again. *)
Theorem loaded_items_well_formed input_path experiment_type queries_source w :
  let out := load_data_from_source fs input_path experiment_type queries_source w in
  match out.1 with
  | Returned items =>
      out.2 = w /\ items <> [] /\ Forall (well_formed experiment_type) items
      /\ Forall (fun data_item => supported data_item = true) items
  | Raised msg =>
      out.2 = {| calls := calls w;
                 error_log := error_log w
                                ++ ["Error loading data from source: " +:+ msg];
                 files := files w |}
  end.
Proof.
  pose proof (load_data_from_source_cases input_path experiment_type queries_source w)
    as H. cbn zeta in *.
  destruct (load_data_from_source _ _ _ _ w).1 as [items|msg]; [|done].
  destruct H as (Hw & Hne & Hwf). repeat split; try done.
  eapply Forall_impl; [exact Hwf|]. intros x Hx. by apply well_formed_type in Hx as [_ ?].
Qed.

(** An experiment type other than "qa" and "summarization" never
    loads: whatever the input path holds, [load_data_from_source]
    raises. *)
Theorem unknown_experiment_type_never_loads input_path experiment_type
    queries_source w :
  experiment_type ∉ ["qa"; "summarization"] ->
  exists msg,
    (load_data_from_source fs input_path experiment_type queries_source w).1
    = Raised msg.
Proof.
  intros Htype.
  pose proof (load_data_from_source_cases input_path experiment_type queries_source w)
    as H. cbn zeta in *.
  destruct (load_data_from_source _ _ _ _ w).1 as [items|msg]; [|by eexists].
  destruct H as (_ & Hne & Hwf). destruct items as [|x items]; [done|].
  apply Forall_cons in Hwf as [Hx _]. by apply well_formed_type in Hx as [? _].
Qed.

Context (claude : Client -> list CallRecord -> string -> Outcome ClaudeResponse).
Context (lemonade : Client -> list CallRecord -> string -> string -> Z -> float ->
                    Outcome LemonadeResponse).
Context (now : string).

Lemma filter_supported_all items :
  Forall (fun data_item => supported data_item = true) items ->
  List.filter supported items = items
  /\ unsupported_items items = [].
Proof.
  unfold unsupported_items.
  induction 1 as [|x l Hx _ [IH1 IH2]]; [done|]. cbn. rewrite Hx. cbn.
  by rewrite IH1, IH2.
Qed.

(** X16: every work item that [load_data_from_source] returns is
    answered by [run_experiment]: the persisted document has exactly one
    result entry per loaded item, in order and under a single analysis
    key, its [total_items] is the number of entries, and the only lines
    the run writes to the error log are those of failed backend
    calls. *)
Theorem loaded_items_all_answered e client input_path queries_source output_dir
    items w0 w1 :
  load_data_from_source fs input_path (experiment_type e) queries_source w0
  = (Returned items, w1) ->
  create_llm_client e = Returned client ->
  let out := run_experiment claude lemonade now e items output_dir w1 in
  exists doc entries new lines,
    persisted out = Some doc
    /\ doc_analysis doc = {[ filing_key e items := entries ]}
    /\ Forall2 entry_matches items entries
    /\ md_total_items (metadata doc) = length entries
    /\ calls out.2 = calls w0 ++ new
    /\ error_log out.2 = error_log w0 ++ lines
    /\ length lines = length (List.filter call_failed new).
Proof.
  intros Hload Hclient. cbn zeta.
  pose proof (load_data_from_source_cases input_path (experiment_type e)
                queries_source w0) as H.
  cbn zeta in H. rewrite Hload in H. cbn [fst snd] in H.
  destruct H as (-> & Hne & Hwf).
  assert (Hsup : Forall (fun data_item => supported data_item = true) items).
  { eapply Forall_impl; [exact Hwf|]. intros x Hx. by apply well_formed_type in Hx as [_ ?]. }
  assert (He : experiment_type e ∈ ["qa"; "summarization"]).
  { destruct items as [|x items]; [done|].
    apply Forall_cons in Hwf as [Hx _]. by apply well_formed_type in Hx as [? _]. }
  destruct (filter_supported_all items Hsup) as [Hall Hnone].
  destruct (run_experiment_persists claude lemonade now e client items
              output_dir w0 Hclient) as (Hdoc & Hcalls & Hlog).
  destruct (run_items_state claude lemonade e client items 0 run_start w0)
    as (nr & ne & Hres & Hmatch & _).
  destruct (effect_run_items claude lemonade e client items 0%nat run_start w0)
    as (new & lines & Hc & _ & Hl & Hln & _).
  cbn [run_start results app] in Hres. rewrite Hall in Hmatch.
  rewrite Hnone in Hln. cbn [length] in Hln. rewrite Nat.add_0_r in Hln.
  exists (output_data now e items
            (run_items claude lemonade e client 0 items run_start w0).1), nr, new, lines.
  split; [exact Hdoc|].
  cbn [doc_analysis output_data metadata md_total_items]. rewrite Hres.
  split. { apply analysis_of_filing; [done|]. by rewrite Hall. }
  split; [done|]. split. { by apply Forall2_length in Hmatch. }
  rewrite Hcalls, Hlog. by repeat split.
Qed.

End LoaderFacts.

Section ConfigFacts.
Import Batch Loader Config.
Open Scope float_scope.

Lemma experiment_of_entry_configures exp_data e :
  experiment_of_entry exp_data = Returned e ->
  configures exp_data e /\ experiment_type e ∈ ["qa"; "summarization"].
Proof.
  unfold experiment_of_entry, required, post_init.
  unfold configures.
  destruct (en_name exp_data), (en_llm_type exp_data), (en_model exp_data),
    (en_system_prompt exp_data); try done.
  case_bool_decide as Ht; [|done]. intros [= <-].
  split; [by repeat split|exact Ht].
Qed.

Lemma parse_experiments_configures entries : forall experiments parsed,
  parse_experiments entries experiments = Returned parsed ->
  exists new, parsed = experiments ++ new
              /\ Forall2 configures entries new
              /\ Forall (fun e => experiment_type e ∈ ["qa"; "summarization"]) new.
Proof.
  induction entries as [|exp_data rest IH]; intros experiments parsed; cbn.
  - intros [= <-]. exists []. by rewrite app_nil_r.
  - destruct (experiment_of_entry exp_data) as [e|] eqn:He; [|done].
    apply experiment_of_entry_configures in He as [Hc Ht].
    intros (new & -> & Hnew & Htypes)%IH. exists (e :: new).
    rewrite <- app_assoc. split; [done|]. split; by constructor.
Qed.

(** X17: [load_config] is all or nothing. When it returns, the
    configuration has an "experiments" array and the experiments are its
    entries, one for one and in order: the four required keys as given,
    and "qa", 512, 0.7 and no parameters where the optional keys are
    missing; every experiment is of type "qa" or "summarization".
    One entry that lacks a required key or names another type makes the
    whole load raise, after one line to the error log. *)
Theorem load_config_all_or_nothing (config_data : Outcome ConfigDocument) (w : World) :
  let out := load_config config_data w in
  match out.1 with
  | Returned experiments =>
      out.2 = w
      /\ exists entries,
           config_data = Returned {| cfg_experiments := Some entries |}
           /\ Forall2 configures entries experiments
           /\ Forall (fun e => experiment_type e ∈ ["qa"; "summarization"]) experiments
  | Raised msg =>
      out.2 = {| calls := calls w;
                 error_log := error_log w ++ ["Error loading config file: " +:+ msg];
                 files := files w |}
  end.
Proof.
  cbn zeta. unfold load_config.
  destruct config_data as [[[entries|]]|e]; cbn; try done.
  destruct (parse_experiments entries []) as [parsed|msg] eqn:Hp; cbn; [|done].
  apply parse_experiments_configures in Hp as (new & -> & Hnew & Ht).
  split; [done|]. by exists entries.
Qed.

End ConfigFacts.

Section RunAllFacts.
Import Batch Accounting Loader Config.
Open Scope float_scope.

Context (claude : Client -> list CallRecord -> string -> Outcome ClaudeResponse).
Context (lemonade : Client -> list CallRecord -> string -> string -> Z -> float ->
                    Outcome LemonadeResponse).
Context (now : string).
Context (fs : World -> FileSystem).







End RunAllFacts.

Section EvaluateFacts.
Import Eval Batch Filing Analyze Evaluate.
Open Scope float_scope.

Context (tfidf_cosine : string -> string -> Outcome float).
Context (np_mean np_median np_std np_min np_max : list float -> Outcome float).

Lemma outcome_bind_returned {A B} (r : Outcome A) (f : A -> Outcome B) b :
  r ≫= f = Returned b -> exists a, r = Returned a /\ f a = Returned b.
Proof. destruct r as [a|e]; [|done]. intros H. by exists a. Qed.

Lemma score_results_lengths qa_results threshold : forall similarities pass_results scored,
  score_results tfidf_cosine qa_results threshold similarities pass_results
  = Returned scored ->
  length scored.1 = (length similarities + length qa_results)%nat
  /\ length scored.2 = (length pass_results + length qa_results)%nat.
Proof.
  induction qa_results as [|result rest IH]; intros sims passes scored; cbn.
  - intros [= <-]. cbn. lia.
  - intros (g & _ & (r & _ & H)%outcome_bind_returned)%outcome_bind_returned.
    apply IH in H as [-> ->]. rewrite !length_app. cbn. lia.
Qed.

Lemma count_true_le l : (count_true l <= length l)%nat.
Proof. unfold count_true. apply List.filter_length_le. Qed.

Ltac sf_order :=
  repeat match goal with
         | s : bool |- _ => destruct s
         | |- context [Z.compare ?a ?b] => destruct (Z.compare_spec a b)
         | H : context [Z.compare ?a ?b] |- _ => destruct (Z.compare_spec a b)
         | |- context [Pos.compare ?a ?b] => destruct (Pos.compare_spec a b)
         | H : context [Pos.compare ?a ?b] |- _ => destruct (Pos.compare_spec a b)
         end;
  cbn in *; try congruence; try lia.

Lemma SFltb_leb_false a b c :
  SFltb a b = true -> SFleb b c = true -> SFleb c a = false.
Proof.
  unfold SFltb, SFleb, SFcompare.
  destruct a as [sa|sa| |sa ma ea], b as [sb|sb| |sb mb eb], c as [sc|sc| |sc mc ec];
    cbn; try congruence;
    change (Pos.compare_cont Eq ?p ?q) with (Pos.compare p q); sf_order.
Qed.

(** Below [b], so not at or above a [c] that is at least [b]. *)
Lemma ltb_leb_false x b c :
  (x <? b) = true -> (b <=? c) = true -> (c <=? x) = false.
Proof. rewrite FloatAxioms.ltb_spec, !FloatAxioms.leb_spec. apply SFltb_leb_false. Qed.

Lemma rating_of_values pass_rate mean :
  rating_of pass_rate mean ∈ ["excellent"; "good"; "fair"; "poor"].
Proof.
  unfold rating_of.
  repeat match goal with |- context [if ?b then _ else _] => destruct b end;
    repeat first [ by left | right ].
Qed.

Lemma rating_of_low pass_rate mean :
  (pass_rate <? 0.6) = true -> rating_of pass_rate mean = "poor".
Proof.
  intros H. unfold rating_of.
  rewrite (ltb_leb_false pass_rate 0.6 0.9 H eq_refl),
          (ltb_leb_false pass_rate 0.6 0.8 H eq_refl),
          (ltb_leb_false pass_rate 0.6 0.6 H eq_refl). done.
Qed.

Lemma evaluate_loaded_returned (results : LoadedResults) (m : Metrics) :
  evaluate_loaded tfidf_cosine np_mean np_median np_std np_min np_max results
  = Returned m ->
  (0 < num_questions m)%nat
  /\ (exists analysis qa_results,
        lr_analysis results = Some analysis
        /\ analysis !! "qa_results" = Some qa_results
        /\ num_questions m = length qa_results)
  /\ (Z.of_nat (num_passed m) + num_failed m = Z.of_nat (num_questions m))%Z
  /\ (0 <= num_failed m)%Z
  /\ pass_rate m = Py.float_of_nat (num_passed m) / Py.float_of_nat (num_questions m)
  /\ accuracy m = pass_rate m
  /\ accuracy_percentage m = pass_rate m * 100.0
  /\ rating m ∈ ["excellent"; "good"; "fair"; "poor"]
  /\ ((pass_rate m <? 0.6) = true -> rating m = "poor").
Proof.
  unfold evaluate_loaded.
  intros (analysis & Han & H)%outcome_bind_returned.
  apply outcome_bind_returned in H as (qa_results & Hqa & H).
  apply outcome_bind_returned in H as (metadata & _ & H).
  apply outcome_bind_returned in H as (threshold & _ & H).
  apply outcome_bind_returned in H as (scored & Hscored & H).
  apply outcome_bind_returned in H as (tf & _ & H).
  apply outcome_bind_returned in H as (ts & _ & H).
  apply outcome_bind_returned in H as (mean & _ & H).
  apply outcome_bind_returned in H as (median & _ & H).
  apply outcome_bind_returned in H as (std & _ & H).
  apply outcome_bind_returned in H as (min & _ & H).
  apply outcome_bind_returned in H as (max & _ & H).
  apply outcome_bind_returned in H as (rate & Hrate & H).
  apply score_results_lengths in Hscored as [_ Hlen]. cbn [length] in Hlen.
  pose proof (count_true_le scored.2) as Hle.
  unfold int_truediv in Hrate.
  destruct (length qa_results) as [|n] eqn:Hn; [done|].
  injection Hrate as <-. injection H as <-. cbn -[Py.float_of_nat rating_of].
  rewrite Hlen. cbn -[Py.float_of_nat rating_of].
  unfold subscript in Han, Hqa.
  destruct (lr_analysis results) as [analysis'|]; [|done]. injection Han as ->.
  destruct (analysis !! "qa_results") as [qa'|] eqn:Hlook; [|done]. injection Hqa as ->.
  split; [lia|]. split; [by eauto|]. split; [lia|]. split; [lia|].
  split; [done|]. split; [done|]. split; [done|].
  split; [apply rating_of_values | apply rating_of_low].
Qed.


(** X19: when [evaluate] returns metrics, there was at least one
    question; [num_questions] is the number of results, [num_passed]
    and [num_failed] add up to it with neither negative; the pass rate
    is the accuracy, [num_passed / num_questions], and the percentage is
    a hundred times it; and the overall rating is one of "excellent",
    "good", "fair", "poor", "poor" whenever the pass rate is below
    0.6. *)
Theorem evaluate_metrics_consistent (results : LoadedResults) (m : Metrics) :
  evaluate_loaded tfidf_cosine np_mean np_median np_std np_min np_max results
  = Returned m ->
  (0 < num_questions m)%nat
  /\ (exists analysis qa_results,
        lr_analysis results = Some analysis
        /\ analysis !! "qa_results" = Some qa_results
        /\ num_questions m = length qa_results)
  /\ (Z.of_nat (num_passed m) + num_failed m = Z.of_nat (num_questions m))%Z
  /\ (0 <= num_failed m)%Z
  /\ pass_rate m = Py.float_of_nat (num_passed m) / Py.float_of_nat (num_questions m)
  /\ accuracy m = pass_rate m
  /\ accuracy_percentage m = pass_rate m * 100.0
  /\ rating m ∈ ["excellent"; "good"; "fair"; "poor"]
  /\ ((pass_rate m <? 0.6) = true -> rating m = "poor").
Proof. apply evaluate_loaded_returned. Qed.

(** [evaluate] never returns metrics for a results file without
    questions: the accuracy is guarded against an empty list, the pass
    rate is not, so whatever numpy makes of the empty list of
    similarities the call ends in an exception. *)
Theorem evaluate_without_questions_raises (results : LoadedResults)
    (analysis : gmap string (list ResultEntry)) :
  lr_analysis results = Some analysis ->
  analysis !! "qa_results" = Some [] ->
  exists msg,
    evaluate_loaded tfidf_cosine np_mean np_median np_std np_min np_max results
    = Raised msg.
Proof.
  intros Han Hqa.
  destruct (evaluate_loaded _ _ _ _ _ _ results) as [m|msg] eqn:Hm; [|by eexists].
  apply evaluate_loaded_returned in Hm as (Hpos & (a & q & Ha & Hq & Hlen) & _).
  rewrite Han in Ha. injection Ha as <-. rewrite Hqa in Hq. injection Hq as <-.
  cbn in Hlen. lia.
Qed.

Context (claude : Client -> list CallRecord -> string -> Outcome ClaudeResponse).
Context (lemonade : Client -> list CallRecord -> string -> string -> Z -> float ->
                    Outcome LemonadeResponse).
Context (now : string).

Lemma score_results_qa_entries qa_results threshold : forall similarities pass_results,
  Forall (fun entry => exists q g r, entry = QAEntry q g r) qa_results ->
  exists scored,
    score_results tfidf_cosine qa_results threshold similarities pass_results
    = Returned scored.
Proof.
  induction qa_results as [|entry rest IH]; intros sims passes Hall; cbn; [by eexists|].
  apply Forall_cons in Hall as [(q & g & r & ->) Hrest]. cbn. by apply IH.
Qed.

Lemma qa_items_qa_entries data_items entries :
  Forall (fun data_item => is_qa data_item = true) data_items ->
  Forall2 entry_matches (List.filter supported data_items) entries ->
  Forall (fun entry => exists q g r, entry = QAEntry q g r) entries.
Proof.
  intros Hall. revert entries.
  induction Hall as [|data_item rest Hqa _ IH]; intros entries; cbn.
  - intros ->%Forall2_nil_inv_l. constructor.
  - destruct data_item; try done. cbn.
    intros (entry & entries' & Hm & Hrest & ->)%Forall2_cons_inv_l.
    constructor; [|by apply IH]. destruct entry; try done. by eauto.
Qed.

(** X20: [evaluate] cannot be used on the documents that
    [run_experiment] writes: their metadata has no "test_file", so the
    call always ends in an exception. For a Q&A experiment over Q&A
    pairs everything else [evaluate] reads is there, and the exception
    is the KeyError for 'test_file'. *)
Theorem evaluate_rejects_run_documents e client data_items output_dir w0 :
  create_llm_client e = Returned client ->
  let out := run_experiment claude lemonade now e data_items output_dir w0 in
  exists doc msg,
    persisted out = Some doc
    /\ evaluate_loaded tfidf_cosine np_mean np_median np_std np_min np_max
                       (reload doc) = Raised msg
    /\ (experiment_type e = "qa" ->
        Forall (fun data_item => is_qa data_item = true) data_items ->
        msg = key_error "test_file").
Proof.
  intros Hclient. cbn zeta.
  destruct (run_experiment_persists claude lemonade now e client data_items
              output_dir w0 Hclient) as (Hdoc & _ & _).
  destruct (run_items_state claude lemonade e client data_items 0 run_start w0)
    as (nr & ne & Hres & Hmatch & _).
  cbn [run_start results app] in Hres.
  set (doc := output_data now e data_items
                (run_items claude lemonade e client 0 data_items run_start w0).1) in *.
  assert (Hraised : exists msg,
            evaluate_loaded tfidf_cosine np_mean np_median np_std np_min np_max
                            (reload doc) = Raised msg).
  { unfold evaluate_loaded, reload.
    cbn [lr_analysis lr_metadata lm_similarity_threshold lm_test_file subscript
         mbind Outcome_bind].
    destruct (subscript "qa_results" _) as [qa|]; cbn [mbind Outcome_bind]; [|by eexists].
    destruct (score_results _ _ _ _ _); by eexists. }
  destruct Hraised as [msg Hmsg]. exists doc, msg.
  split; [exact Hdoc|]. split; [exact Hmsg|].
  intros Hqa Hitems.
  pose proof (qa_items_qa_entries data_items nr Hitems Hmatch) as Hentries.
  revert Hmsg. unfold evaluate_loaded, reload.
  cbn [lr_analysis lr_metadata lm_similarity_threshold lm_test_file subscript
       mbind Outcome_bind doc doc_analysis output_data].
  rewrite Hres. unfold analysis_of. rewrite Hqa.
  change (String.eqb "qa" "qa") with true. cbv iota.
  assert (Hkey : match nr with
                 | TranscriptQAEntry _ _ _ :: _ => {[ "transcript_qa_results" := nr ]}
                 | _ => {[ "qa_results" := nr ]}
                 end = ({[ "qa_results" := nr ]} : gmap string (list ResultEntry))).
  { destruct Hentries as [|entry rest (q & g & r & ->) _]; done. }
  rewrite Hkey, lookup_singleton_eq. cbn [subscript mbind Outcome_bind].
  match goal with |- context [score_results _ _ ?t _ _] =>
    destruct (score_results_qa_entries nr t [] [] Hentries) as [scored ->] end.
  cbn [mbind Outcome_bind]. by intros [= <-].
Qed.

End EvaluateFacts.

Section SpanFacts.
Import Span.
Open Scope Z_scope.

#[local] Arguments String.append !s1 s2 : simpl nomatch.

Lemma find_range c s : -1 <= find c s < Z.of_nat (String.length s).
Proof.
  induction s as [|a r IH]; cbn [find String.length]; [lia|].
  destruct (Ascii.eqb a c); [lia|]. destruct (Z.ltb_spec (find c r) 0); lia.
Qed.

Lemma rfind_range c s : -1 <= rfind c s < Z.of_nat (String.length s).
Proof.
  induction s as [|a r IH]; cbn [rfind String.length]; [lia|].
  destruct (Z.leb_spec 0 (rfind c r)); [lia|]. destruct (Ascii.eqb a c); lia.
Qed.

(** Where [find] points: nothing before, the character there. *)
Lemma find_split c s :
  0 <= find c s ->
  exists pre post,
    s = pre +:+ String c post
    /\ ~ occurs c pre
    /\ Z.of_nat (String.length pre) = find c s.
Proof.
  induction s as [|a r IH]; cbn [find]; [lia|].
  destruct (Ascii.eqb a c) eqn:Hac.
  - apply Ascii.eqb_eq in Hac as ->. intros _. exists "", r.
    split; [done|]. split; [by intros []|done].
  - apply Ascii.eqb_neq in Hac.
    destruct (Z.ltb_spec (find c r) 0) as [|Hk]; [lia|]. intros _.
    destruct (IH Hk) as (pre & post & -> & Hpre & Hlen).
    exists (String a pre), post. split; [done|]. split.
    + intros [Heq | Hin]; [by apply Hac|by apply Hpre].
    + cbn [String.length]. lia.
Qed.

Lemma rfind_absent c s : rfind c s < 0 -> ~ occurs c s.
Proof.
  induction s as [|a r IH]; cbn [rfind]; [by intros _ []|].
  destruct (Z.leb_spec 0 (rfind c r)) as [|Hk]; [lia|].
  destruct (Ascii.eqb a c) eqn:Hac; [lia|]. apply Ascii.eqb_neq in Hac.
  intros _ [Heq | Hin]; [done|]. by apply IH.
Qed.

(** Where [rfind] points: the character there, nothing after. *)
Lemma rfind_split c s :
  0 <= rfind c s ->
  exists pre post,
    s = pre +:+ String c post
    /\ ~ occurs c post
    /\ Z.of_nat (String.length pre) = rfind c s.
Proof.
  induction s as [|a r IH]; cbn [rfind]; [lia|].
  destruct (Z.leb_spec 0 (rfind c r)) as [Hk|Hk].
  - intros _. destruct (IH Hk) as (pre & post & -> & Hpost & Hlen).
    exists (String a pre), post. split; [done|]. split; [done|].
    cbn [String.length]. lia.
  - destruct (Ascii.eqb a c) eqn:Hac; [|lia]. apply Ascii.eqb_eq in Hac as ->.
    intros _. exists "", r. split; [done|]. split; [by apply rfind_absent|done].
Qed.

(** An occurrence bounds [find] from above and [rfind] from below. *)
Lemma find_le c pre post :
  0 <= find c (pre +:+ String c post) <= Z.of_nat (String.length pre).
Proof.
  induction pre as [|a p IH]; cbn -[Z.of_nat Z.add].
  - rewrite Ascii.eqb_refl. lia.
  - destruct (Ascii.eqb a c); [lia|].
    destruct (Z.ltb_spec (find c (p +:+ String c post)) 0); lia.
Qed.

Lemma rfind_ge c pre post :
  Z.of_nat (String.length pre) <= rfind c (pre +:+ String c post).
Proof.
  induction pre as [|a p IH]; cbn -[Z.of_nat Z.add].
  - destruct (Z.leb_spec 0 (rfind c post)); [lia|]. rewrite Ascii.eqb_refl. lia.
  - destruct (Z.leb_spec 0 (rfind c (p +:+ String c post))); lia.
Qed.

Lemma length_append s1 s2 :
  String.length (s1 +:+ s2) = (String.length s1 + String.length s2)%nat.
Proof. induction s1 as [|a s1 IH]; cbn; [done|]. by rewrite IH. Qed.

Lemma append_assoc (s1 s2 s3 : string) : (s1 +:+ s2) +:+ s3 = s1 +:+ (s2 +:+ s3).
Proof. induction s1 as [|a s1 IH]; cbn; [done|]. by rewrite IH. Qed.

Lemma substring_skip pre s n :
  substring (String.length pre) n (pre +:+ s) = substring 0 n s.
Proof. induction pre as [|a pre IH]; cbn; [done|]. apply IH. Qed.

Lemma substring_take s post :
  substring 0 (String.length s) (s +:+ post) = s.
Proof.
  induction s as [|a s IH]; cbn; [by destruct post|]. by rewrite IH.
Qed.

(** Two splittings of one string, the first prefix the shorter: the
    second prefix continues the first. *)
Lemma split_order c d pre1 post1 pre2 post2 :
  pre1 +:+ String c post1 = pre2 +:+ String d post2 ->
  (String.length pre1 < String.length pre2)%nat ->
  exists mid, pre2 = pre1 +:+ String c mid /\ post1 = mid +:+ String d post2.
Proof.
  revert pre2. induction pre1 as [|a pre1 IH]; intros pre2; cbn.
  - destruct pre2 as [|b pre2]; cbn; [lia|]. intros [= <- ->] _. by exists pre2.
  - destruct pre2 as [|b pre2]; cbn; [lia|]. intros [= <- H] Hlen.
    destruct (IH pre2 H) as (mid & -> & ->); [lia|]. by exists mid.
Qed.

(** X21: the JSON that the analysers cut out of a reply of Claude is
    the text from the first opening brace to the last closing brace.
    There is one exactly when a closing brace follows an opening brace
    somewhere in the reply; the reply is then [pre ++ json ++ post] with
    no opening brace in [pre] and no closing brace in [post], and
    [json] opens with a brace and closes with one. A reply without such
    a pair of braces yields nothing and is never handed to the JSON
    parser. *)
Theorem json_content_spec (response_text : string) :
  match json_content response_text with
  | Some json =>
      exists pre mid post,
        response_text = pre +:+ json +:+ post
        /\ json = String "{" mid +:+ "}"
        /\ ~ occurs "{" pre
        /\ ~ occurs "}" post
  | None =>
      forall pre mid post,
        response_text <> pre +:+ String "{" (mid +:+ String "}" post)
  end.
Proof.
  unfold json_content.
  destruct ((0 <=? find "{" response_text)
            && (find "{" response_text <? rfind "}" response_text + 1)) eqn:Hcond.
  - apply andb_true_iff in Hcond as [Hstart%Z.leb_le Hend%Z.ltb_lt].
    destruct (find_split _ _ Hstart) as (pre1 & post1 & E1 & Hpre1 & Hlen1).
    assert (Hr0 : 0 <= rfind "}" response_text) by lia.
    destruct (rfind_split _ _ Hr0) as (pre2 & post2 & E2 & Hpost2 & Hlen2).
    assert (Hlt : (String.length pre1 < String.length pre2)%nat).
    { assert (String.length pre1 <> String.length pre2); [|lia].
      intros Heq. rewrite E1 in E2. clear -E2 Heq.
      revert pre2 E2 Heq. induction pre1 as [|a p IH]; intros [|b q]; cbn;
        try done. intros [= _ H] [= Hl]. by eapply IH. }
    destruct (split_order "{" "}" pre1 post1 pre2 post2) as (mid & -> & ->);
      [by rewrite <- E1|done|].
    exists pre1, mid, post2. unfold slice.
    rewrite <- Hlen1, <- Hlen2.
    replace (Z.to_nat (Z.of_nat (String.length (pre1 +:+ String "{" mid)) + 1
                       - Z.of_nat (String.length pre1)))
      with (String.length (String "{" mid +:+ "}")).
    2: { cbn [String.append String.length].
         rewrite ?length_append. cbn [String.length]. rewrite ?length_append.
         cbn [String.length]. lia. }
    rewrite Nat2Z.id, E1.
    assert (Hshape : String "{" (mid +:+ String "}" post2)
                     = (String "{" mid +:+ "}") +:+ post2).
    { by rewrite append_assoc. }
    rewrite Hshape, substring_skip, substring_take. by repeat split.
  - intros pre mid post E.
    pose proof (find_le "{" pre (mid +:+ String "}" post)) as Hf.
    pose proof (rfind_ge "}" (pre +:+ String "{" mid) post) as Hr.
    rewrite append_assoc in Hr. cbn -[Z.of_nat Z.add String.length] in Hr. rewrite <- E in Hf, Hr.
    rewrite length_append in Hr. cbn [String.length] in Hr.
    apply andb_false_iff in Hcond as [H%Z.leb_gt | H%Z.ltb_ge]; lia.
Qed.

End SpanFacts.

Section TemplateFacts.
Import Eval Batch Analyze Loader Evaluate Template.
Open Scope float_scope.

Context (fs : FileSystem) (now : string).

#[local] Arguments String.append !s1 s2 : simpl nomatch.

Lemma template_entries_length i qa_pairs :
  length (template_entries i qa_pairs) = length qa_pairs.
Proof. revert i. induction qa_pairs as [|p ps IH]; intros i; cbn; [done|]. by rewrite IH. Qed.

Lemma template_entries_lookup qa_pairs : forall i k qa_pair,
  qa_pairs !! k = Some qa_pair ->
  template_entries i qa_pairs !! k
  = Some (QAEntry (template_query qa_pair) (template_ground_truth qa_pair)
                  (placeholder (i + k))).
Proof.
  induction qa_pairs as [|p ps IH]; intros i [|k] qa_pair; try done.
  - intros [= ->]. cbn. by rewrite Nat.add_0_r.
  - intros H. rewrite Nat.add_succ_r. by apply (IH (S i) k qa_pair).
Qed.

Lemma substring_prefix (s t : string) : substring 0 (String.length s) (s +:+ t) = s.
Proof. induction s as [|a s IH]; cbn; [by destruct t|]. by rewrite IH. Qed.

Lemma substring_suffix (s t : string) :
  substring (String.length s) (String.length t) (s +:+ t) = t.
Proof.
  induction s as [|a s IH]; cbn; [|done].
  induction t as [|b t IHt]; cbn; [done|]. by rewrite IHt.
Qed.

Lemma length_app_string (s t : string) :
  String.length (s +:+ t) = (String.length s + String.length t)%nat.
Proof. induction s as [|a s IH]; cbn; [done|]. by rewrite IH. Qed.

(** The template of a groundtruth file named
    [<base>.groundtruth.json] is named [<base>.template.json]: the
    ".groundtruth" that ends the stem is dropped. *)
Theorem template_filename_drops_groundtruth (base : string) :
  template_filename (base +:+ ".groundtruth") = base +:+ ".template.json".
Proof.
  unfold template_filename, endswith.
  rewrite length_app_string.
  replace (String.length base + String.length ".groundtruth"
           - String.length ".groundtruth")%nat with (String.length base) by lia.
  rewrite substring_suffix, String.eqb_refl.
  replace (String.length ".groundtruth" <=? String.length base
           + String.length ".groundtruth")%nat with true
    by (symmetry; apply Nat.leb_le; lia).
  cbn [andb]. change (String.length ".groundtruth") with 12%nat.
  replace (String.length base + 12 - 12)%nat with (String.length base) by lia.
  by rewrite substring_prefix.
Qed.

Lemma create_template_cases groundtruth_file output_dir similarity_threshold w :
  let out := create_template fs now groundtruth_file output_dir
                             similarity_threshold w in
  match out.1 with
  | Returned (path, template) =>
      out.2 = w
      /\ exists groundtruth_data qa_pairs,
           load_json fs groundtruth_file = Returned groundtruth_data
           /\ gt_qa_pairs groundtruth_data = Some qa_pairs
           /\ qa_pairs <> []
           /\ tp_qa_results template = template_entries 0 qa_pairs
           /\ tp_test_file template = groundtruth_file
           /\ tp_similarity_threshold template = similarity_threshold
           /\ path = path_join fs output_dir
                       (template_filename (path_stem fs groundtruth_file))
  | Raised msg =>
      out.2 = {| calls := calls w;
                 error_log := error_log w ++ ["Error creating template: " +:+ msg];
                 files := files w |}
  end.
Proof.
  cbn zeta. unfold create_template.
  destruct (load_json fs groundtruth_file) as [g|e]; cbn; [|done].
  destruct (gt_qa_pairs g) as [[|p ps]|] eqn:Hq; cbn; try done.
  split; [done|]. exists g, (p :: ps). by repeat split.
Qed.

(** X22: [create_template] writes one entry per Q&A pair of the
    groundtruth file, in order: entry number k (from 1) has the pair's
    question ("question" before "query"), its reference answer ("answer"
    before "response" before "ground_truth") and the placeholder that
    names question k. It raises, after one line to the error log, when
    the file cannot be read or has no Q&A pair. *)
Theorem create_template_one_entry_per_pair groundtruth_file output_dir
    similarity_threshold w :
  let out := create_template fs now groundtruth_file output_dir
                             similarity_threshold w in
  match out.1 with
  | Returned (path, template) =>
      out.2 = w
      /\ exists groundtruth_data qa_pairs,
           load_json fs groundtruth_file = Returned groundtruth_data
           /\ gt_qa_pairs groundtruth_data = Some qa_pairs
           /\ qa_pairs <> []
           /\ length (tp_qa_results template) = length qa_pairs
           /\ forall k qa_pair,
                qa_pairs !! k = Some qa_pair ->
                tp_qa_results template !! k
                = Some (QAEntry (template_query qa_pair)
                                (template_ground_truth qa_pair)
                                (placeholder k))
  | Raised msg =>
      out.2 = {| calls := calls w;
                 error_log := error_log w ++ ["Error creating template: " +:+ msg];
                 files := files w |}
      /\ (load_json fs groundtruth_file = Raised msg
          \/ exists groundtruth_data,
               load_json fs groundtruth_file = Returned groundtruth_data
               /\ default [] (gt_qa_pairs groundtruth_data) = [])
  end.
Proof.
  cbn zeta. unfold create_template.
  destruct (load_json fs groundtruth_file) as [g|e]; cbn; [|by split; [|left]].
  destruct (gt_qa_pairs g) as [[|p ps]|] eqn:Hq; cbn.
  - split; [done|]. right. exists g. by rewrite Hq.
  - split; [done|]. exists g, (p :: ps). repeat split; try done.
    + cbn. by rewrite template_entries_length.
    + intros k qa_pair Hk. by apply (template_entries_lookup (p :: ps) 0 k).
  - split; [done|]. right. exists g. by rewrite Hq.
Qed.

Lemma read_alike_same qa_pair :
  read_alike qa_pair ->
  template_query qa_pair = pair_query_text qa_pair
  /\ template_ground_truth qa_pair = pair_answer_text qa_pair.
Proof.
  unfold read_alike, template_query, template_ground_truth, pair_query_text,
    pair_answer_text.
  destruct (pair_query qa_pair), (pair_question qa_pair), (pair_response qa_pair),
    (pair_answer qa_pair), (pair_ground_truth qa_pair); cbn;
    intros ([H1 | [H1 | H1]] & [H2 | [H2 | H2]] & H3); try done;
    try (by injection H1 as ->); try (by injection H2 as ->);
    try (by injection H1 as ->; injection H2 as ->);
    by specialize (H3 eq_refl eq_refl).
Qed.

Lemma template_entries_agree qa_pairs :
  Forall read_alike qa_pairs ->
  forall i,
    entry_question <$> template_entries i qa_pairs
    = item_question <$> ((fun qa_pair => QA (pair_query_text qa_pair)
                                            (pair_answer_text qa_pair)) <$> qa_pairs).
Proof.
  induction 1 as [|q qs Hq _ IH]; intros i; [done|].
  cbn. destruct (read_alike_same q Hq) as [-> ->]. f_equal. apply IH.
Qed.

(** X23: the template and the batch loader agree on a groundtruth file
    whose pairs they read alike: when both succeed on the same file, the
    template's entries and the loader's Q&A items carry the same
    questions and reference answers, pair by pair. (On a pair that has
    both "query" and "question", or both "response" and "answer", they
    prefer different keys.) *)
Theorem template_agrees_with_loader groundtruth_file output_dir similarity_threshold
    w path template items groundtruth_data qa_pairs :
  load_json fs groundtruth_file = Returned groundtruth_data ->
  gt_qa_pairs groundtruth_data = Some qa_pairs ->
  Forall read_alike qa_pairs ->
  (create_template fs now groundtruth_file output_dir similarity_threshold w).1
  = Returned (path, template) ->
  _load_from_groundtruth_file fs groundtruth_file "qa" = Returned items ->
  entry_question <$> tp_qa_results template = item_question <$> items.
Proof.
  intros Hload Hpairs Halike. unfold create_template, _load_from_groundtruth_file.
  rewrite Hload, Hpairs. cbn [default String.eqb].
  change (String.eqb "qa" "qa") with true. cbv iota.
  destruct qa_pairs as [|p ps]; [done|]. cbn [mret M_ret fst].
  intros [= <- <-] [= <-]. cbn [tp_qa_results].
  by apply (template_entries_agree (p :: ps)).
Qed.

Context (tfidf_cosine : string -> string -> Outcome float).
Context (np_mean np_median np_std np_min np_max : list float -> Outcome float).

Lemma score_results_template qa_results threshold : forall similarities pass_results,
  Forall (fun entry => exists q g r, entry = QAEntry q g r) qa_results ->
  exists scored,
    score_results tfidf_cosine qa_results threshold similarities pass_results
    = Returned scored
    /\ length scored.1 = (length similarities + length qa_results)%nat.
Proof.
  induction qa_results as [|entry rest IH]; intros sims passes Hall; cbn.
  - eexists. split; [done|]. cbn. lia.
  - apply Forall_cons in Hall as [(q & g & r & ->) Hrest]. cbn.
    destruct (IH (sims ++ [calculate_similarity tfidf_cosine g r])
                 (passes ++ [threshold <=? calculate_similarity tfidf_cosine g r])
                 Hrest) as (scored & -> & Hlen).
    eexists. split; [done|]. rewrite Hlen, length_app. cbn. lia.
Qed.

Lemma template_entries_qa i qa_pairs :
  Forall (fun entry => exists q g r, entry = QAEntry q g r)
         (template_entries i qa_pairs).
Proof.
  revert i. induction qa_pairs as [|p ps IH]; intros i; cbn; constructor; eauto.
Qed.

(** X24: a template that [create_template] wrote is a results file that
    [evaluate] accepts as it is: if numpy's five reductions return on
    the similarities, [evaluate] returns metrics, for as many questions
    as the groundtruth file has pairs, with the groundtruth file as test
    file and the threshold the template was created with. *)
Theorem evaluate_accepts_templates groundtruth_file output_dir similarity_threshold
    w path template :
  (create_template fs now groundtruth_file output_dir similarity_threshold w).1
  = Returned (path, template) ->
  (forall similarities, similarities <> [] ->
     exists a b c d e,
       np_mean similarities = Returned a /\ np_median similarities = Returned b
       /\ np_std similarities = Returned c /\ np_min similarities = Returned d
       /\ np_max similarities = Returned e) ->
  exists m,
    evaluate_loaded tfidf_cosine np_mean np_median np_std np_min np_max
                    (reload_template template) = Returned m
    /\ num_questions m = length (tp_qa_results template)
    /\ test_file m = groundtruth_file
    /\ threshold m = similarity_threshold.
Proof.
  intros Hcreate Hnp.
  pose proof (create_template_cases groundtruth_file output_dir
                similarity_threshold w) as H.
  cbn zeta in H. rewrite Hcreate in H.
  destruct H as (_ & g & qa_pairs & _ & _ & Hne & Hres & Htf & Hth & _).
  unfold evaluate_loaded, reload_template.
  cbn [lr_analysis lr_metadata lm_test_file lm_timestamp lm_similarity_threshold
       subscript mbind Outcome_bind].
  rewrite lookup_singleton_eq. cbn [subscript mbind Outcome_bind].
  destruct (score_results_template (tp_qa_results template)
              (tp_similarity_threshold template) [] []) as (scored & -> & Hlen).
  { rewrite Hres. apply template_entries_qa. }
  cbn [mbind Outcome_bind].
  destruct (Hnp scored.1) as (a & b & c & d & e & -> & -> & -> & -> & ->).
  { intros Hnil. rewrite Hnil, Hres, template_entries_length in Hlen.
    destruct qa_pairs; [done|]. cbn in Hlen. lia. }
  cbn [mbind Outcome_bind]. unfold int_truediv.
  destruct (length (tp_qa_results template)) as [|n] eqn:Hn.
  { rewrite Hres, template_entries_length in Hn. by destruct qa_pairs. }
  cbn [mbind Outcome_bind mret Outcome_ret]. eexists. split; [done|].
  cbn [num_questions test_file threshold]. by rewrite Htf, Hth.
Qed.

End TemplateFacts.

Section GenerateFacts.
Import Batch Loader Config Generate.
Open Scope float_scope.

Context (fs : FileSystem) (model_title : string -> string).

Lemma generated_entry_parses name model use_case prompt max_tokens temperature :
  use_case ∈ ["qa"; "summarization"] ->
  experiment_of_entry (entry name model use_case prompt max_tokens temperature)
  = Returned {| Batch.name := name; llm_type := "claude"; Batch.model := model;
                system_prompt := prompt; experiment_type := use_case;
                Batch.max_tokens := max_tokens; Batch.temperature := temperature;
                parameters := ∅ |}.
Proof.
  intros H. unfold experiment_of_entry, entry, required, post_init. cbn.
  by rewrite bool_decide_eq_true_2.
Qed.

Lemma generated_entry_rejected name model use_case prompt max_tokens temperature :
  use_case ∉ ["qa"; "summarization"] ->
  exists msg,
    experiment_of_entry (entry name model use_case prompt max_tokens temperature)
    = Raised msg.
Proof.
  intros H. unfold experiment_of_entry, entry, required, post_init. cbn.
  rewrite bool_decide_eq_false_2 by done. by eexists.
Qed.

Lemma generated_experiments_shape groundtruth_data :
  let entries := generated_experiments model_title groundtruth_data in
  Forall (generated_for (default "qa" (gt_use_case groundtruth_data))) entries
  /\ (3 <= length entries <= 6)%nat.
Proof.
  cbn zeta. unfold generated_experiments, model_variants. cbn [omap list_omap fst snd].
  set (use_case := default "qa" (gt_use_case groundtruth_data)).
  set (original_model := default "claude-sonnet-4-20250514" _).
  assert (Hvariants :
            (negb (String.eqb "claude-3-haiku-20240307" original_model)
             && negb (String.eqb "claude-3-opus-20240229" original_model) = true)
            \/ (negb (String.eqb "claude-3-haiku-20240307" original_model)
                && negb (String.eqb "claude-sonnet-4-20250514" original_model) = true)
            \/ (negb (String.eqb "claude-3-opus-20240229" original_model)
                && negb (String.eqb "claude-sonnet-4-20250514" original_model) = true)).
  { destruct (String.eqb_spec "claude-3-haiku-20240307" original_model) as [<-|];
      [right; right; done|].
    destruct (String.eqb_spec "claude-3-opus-20240229" original_model) as [<-|];
      [right; left; done|]. by left. }
  destruct (negb (String.eqb "claude-3-haiku-20240307" original_model)),
    (negb (String.eqb "claude-3-opus-20240229" original_model)),
    (negb (String.eqb "claude-sonnet-4-20250514" original_model)),
    (negb (_ =? 0.0));
    cbn [app length andb] in *;
    (split; [repeat constructor; unfold generated_for; eauto 10 | ]);
    try lia; destruct Hvariants as [? | [? | ?]]; done.
Qed.

Lemma parse_generated use_case entries :
  use_case ∈ ["qa"; "summarization"] ->
  Forall (generated_for use_case) entries ->
  forall experiments,
  exists parsed,
    parse_experiments entries experiments = Returned (experiments ++ parsed)
    /\ length parsed = length entries
    /\ Forall (fun e => experiment_type e = use_case
                        /\ exists client, create_llm_client e = Returned client)
              parsed.
Proof.
  intros Hcase. induction 1 as [|exp_data rest Hgen _ IH]; intros experiments;
    cbn [parse_experiments].
  - exists []. by rewrite app_nil_r.
  - destruct Hgen as (n & m & p & mt & t & ->).
    rewrite generated_entry_parses by done.
    destruct (IH (experiments ++
                  [{| Batch.name := n; llm_type := "claude"; Batch.model := m;
                      system_prompt := p; experiment_type := use_case;
                      Batch.max_tokens := mt; Batch.temperature := t;
                      parameters := ∅ |}])) as (parsed & -> & Hlen & Hall).
    eexists (_ :: parsed). rewrite <- app_assoc. split; [done|].
    split; [cbn; by rewrite Hlen|]. constructor; [|done].
    split; [done|]. by eexists.
Qed.

Lemma parse_rejected use_case exp_data rest experiments :
  use_case ∉ ["qa"; "summarization"] ->
  generated_for use_case exp_data ->
  exists msg, parse_experiments (exp_data :: rest) experiments = Raised msg.
Proof.
  intros Hcase (n & m & p & mt & t & ->). cbn [parse_experiments].
  destruct (generated_entry_rejected n m use_case p mt t Hcase) as [msg ->].
  by eexists.
Qed.

(** X25: the configuration that [create_config_from_groundtruth]
    generates has between three and six experiments, all on the Claude
    backend and all of the use case that the groundtruth metadata names
    ("qa" if it names none). When that use case is "qa" or
    "summarization", [load_config] loads the generated configuration,
    one experiment per entry, and every experiment gets a client; for
    any other use case the generated configuration is one that
    [load_config] rejects. *)
Theorem generated_config_loads groundtruth_file output_file w path config :
  (create_config_from_groundtruth fs model_title groundtruth_file output_file w).1
  = Returned (path, config) ->
  exists groundtruth_data entries,
    load_json fs groundtruth_file = Returned groundtruth_data
    /\ cfg_experiments config = Some entries
    /\ (3 <= length entries <= 6)%nat
    /\ let use_case := default "qa" (gt_use_case groundtruth_data) in
       (use_case ∈ ["qa"; "summarization"] ->
        exists experiments,
          load_config (Returned config) w = (Returned experiments, w)
          /\ length experiments = length entries
          /\ Forall (fun e => experiment_type e = use_case
                              /\ exists client, create_llm_client e = Returned client)
                    experiments)
       /\ (use_case ∉ ["qa"; "summarization"] ->
           exists msg, (load_config (Returned config) w).1 = Raised msg).
Proof.
  unfold create_config_from_groundtruth.
  destruct (load_json fs groundtruth_file) as [g|e]; [|done].
  cbn [mret M_ret fst]. intros [= <- <-].
  destruct (generated_experiments_shape g) as [Hgen Hlen]. cbn zeta in *.
  exists g, (generated_experiments model_title g).
  split; [done|]. split; [done|]. split; [done|]. split.
  - intros Hcase.
    destruct (parse_generated _ _ Hcase Hgen []) as (parsed & Hp & Hl & Hall).
    exists parsed. unfold load_config. cbn [cfg_experiments]. rewrite Hp. by cbn.
  - intros Hcase. unfold load_config. cbn [cfg_experiments].
    destruct (generated_experiments model_title g) as [|exp_data rest] eqn:He;
      [cbn in Hlen; lia|].
    apply Forall_cons in Hgen as [Hfirst _].
    destruct (parse_rejected _ exp_data rest [] Hcase Hfirst) as [msg ->].
    by eexists.
Qed.

End GenerateFacts.

Section SummariesFacts.
Import Eval Report Batch Span Evaluate Summaries.
Open Scope float_scope.

Context (claude : list CallRecord -> string -> Outcome ClaudeResponse).
Context (json_loads : string -> Outcome (gmap string AnalysisValue)).
Context (prompt_of : nat -> ResultEntry -> string).

Lemma analyze_summary_entry i summary_result st w :
  let out := analyze_summary claude json_loads prompt_of i summary_result st w in
  exists s,
    ls_per_question out.1 = ls_per_question st ++ [s]
    /\ summary_index s = i
    /\ sa_source_file s = entry_source_file summary_result
    /\ quality_stored s
    /\ exists c, calls out.2 = calls w ++ [c]
                 /\ call_prompt c = prompt_of i summary_result.
Proof.
  cbn zeta. unfold analyze_summary. rewrite bind_run. cbn [record_call fst snd].
  assert (Herr : forall e, quality_stored
                   {| summary_index := i;
                      sa_source_file := entry_source_file summary_result;
                      sa_analysis := error_analysis e;
                      sa_overall_quality := AText "error";
                      sa_usage := None; sa_cost := None |}
                 /\ forall u c, quality_stored (failed_summary i summary_result e u c)).
  { intros e. unfold quality_stored, failed_summary, error_analysis. cbn.
    split; [|intros _ _]; rewrite lookup_singleton_ne by done;
      (exists "error"; split; [done|]);
      intros H; repeat (apply elem_of_cons in H as [H | H]); try done;
      by apply elem_of_nil in H. }
  destruct (claude (calls w) (prompt_of i summary_result)) as [rd|e].
  2: { rewrite bind_run. cbn. eexists. repeat split; [apply Herr|]. by eexists. }
  destruct (json_content (content rd)) as [json|].
  - destruct (json_loads json) as [analysis|e].
    2: { rewrite bind_run. cbn. eexists. repeat split; [apply Herr|]. by eexists. }
    destruct (claude_usage rd) as [u|].
    2: { rewrite bind_run. cbn. eexists. repeat split; [apply Herr|]. by eexists. }
    destruct (claude_cost rd) as [c|].
    2: { rewrite bind_run. cbn. eexists. repeat split; [apply Herr|]. by eexists. }
    cbn. eexists. repeat split; [|by eexists].
    unfold quality_stored. cbn.
    destruct (analysis !! "overall_quality"); [done|]. cbn.
    exists "unknown". split; [done|].
    intros H; repeat (apply elem_of_cons in H as [H | H]); try done;
      by apply elem_of_nil in H.
  - destruct (claude_usage rd) as [u|].
    2: { rewrite bind_run. cbn. eexists. repeat split; [apply Herr|]. by eexists. }
    destruct (claude_cost rd) as [c|].
    2: { rewrite bind_run. cbn. eexists. repeat split; [apply Herr|]. by eexists. }
    cbn. eexists. repeat split; [|by eexists].
    apply (Herr "Failed to parse Claude response").
Qed.

Lemma analyze_summaries_entries summarization_results : forall i st w,
  let out := analyze_summaries claude json_loads prompt_of i summarization_results
                               st w in
  exists new new_calls,
    ls_per_question out.1 = ls_per_question st ++ new
    /\ length new = length summarization_results
    /\ (forall k s, new !! k = Some s ->
          summary_index s = (i + k)%nat
          /\ exists summary_result,
               summarization_results !! k = Some summary_result
               /\ sa_source_file s = entry_source_file summary_result)
    /\ Forall quality_stored new
    /\ calls out.2 = calls w ++ new_calls
    /\ length new_calls = length summarization_results.
Proof.
  induction summarization_results as [|r rest IH]; intros i st w; cbn zeta;
    cbn [analyze_summaries].
  - exists [], []. cbn. rewrite !app_nil_r. repeat split; try done.
  - rewrite bind_run.
    destruct (analyze_summary_entry i r st w) as (s & Hs & Hi & Hf & Hq & c & Hc & _).
    cbn zeta in *.
    destruct (IH (S i) (analyze_summary claude json_loads prompt_of i r st w).1
                 (analyze_summary claude json_loads prompt_of i r st w).2)
      as (new & nc & Hnew & Hlen & Hidx & Hqs & Hcalls & Hnc).
    cbn zeta in *. exists (s :: new), (c :: nc).
    rewrite Hnew, Hs, Hcalls, Hc, <- !app_assoc. cbn [app length].
    repeat split; try done; try lia.
    + destruct k as [|k]; cbn in H; [injection H as <-; lia|].
      destruct (Hidx k s0 H) as [-> _]. lia.
    + destruct k as [|k]; cbn in H; [injection H as <-; by exists r|].
      by destruct (Hidx k s0 H) as [_ ?].
    + by constructor.
Qed.

(** X26: [_analyze_summarization_results] gives every summarization
    result exactly one per-summary analysis, whatever Claude answers and
    also when a call raises: the entries come in the order of the
    results, entry k carries index k and the source file of result k,
    the number of summaries in the metrics is the number of results, one
    call goes to Claude per result, and the four quality counts never
    add up to more than the number of summaries. *)
Theorem one_analysis_per_summary (summarization_results : list ResultEntry)
    (w : World) :
  summarization_results <> [] ->
  let out := _analyze_summarization_results claude json_loads prompt_of
                                            summarization_results w in
  exists a new_calls,
    out.1 = Analysed a
    /\ length (san_per_question a) = length summarization_results
    /\ (forall k s, san_per_question a !! k = Some s ->
          summary_index s = k
          /\ exists summary_result,
               summarization_results !! k = Some summary_result
               /\ sa_source_file s = entry_source_file summary_result)
    /\ sm_total_summaries (san_metrics a) = length summarization_results
    /\ (sm_excellent_count (san_metrics a) + sm_good_count (san_metrics a)
        + sm_fair_count (san_metrics a) + sm_poor_count (san_metrics a)
        <= sm_total_summaries (san_metrics a))%nat
    /\ calls out.2 = calls w ++ new_calls
    /\ length new_calls = length summarization_results.
Proof.
  intros Hne. cbn zeta. unfold _analyze_summarization_results.
  destruct summarization_results as [|r rest]; [done|].
  rewrite bind_run. cbn [mret M_ret fst snd].
  destruct (analyze_summaries_entries (r :: rest) 0%nat
              {| ls_per_question := []; ls_total_usage := zero_usage;
                 ls_total_cost := zero_cost |} w)
    as (new & nc & Hnew & Hlen & Hidx & _ & Hcalls & Hnc).
  cbn zeta in *. cbn [ls_per_question app] in Hnew.
  eexists _, nc. split; [done|].
  cbn [summarize san_per_question san_metrics sm_total_summaries sm_excellent_count
       sm_good_count sm_fair_count sm_poor_count].
  rewrite Hnew. repeat split; try done.
  - by apply Hidx.
  - by apply Hidx.
  - clear. unfold count_quality. induction new as [|s l IH]; cbn; [lia|].
    destruct (sa_overall_quality s) as [q|]; cbn; [|lia].
    destruct (String.eqb_spec q "excellent") as [->|]; cbn; [lia|].
    destruct (String.eqb_spec q "good") as [->|]; cbn; [lia|].
    destruct (String.eqb_spec q "fair") as [->|]; cbn; [lia|].
    destruct (String.eqb_spec q "poor") as [->|]; cbn; lia.
Qed.

(** The report's count of one question, on the entry it was written
    from. *)
Lemma count_question_stored c s :
  quality_stored s ->
  count_question c (as_question s)
  = {| excellent_count := excellent_count c + count_quality "excellent" [s];
       good_count := good_count c + count_quality "good" [s];
       fair_count := fair_count c + count_quality "fair" [s];
       poor_count := poor_count c + count_quality "poor" [s] |}.
Proof.
  unfold quality_stored, count_question, as_question, count_quality. cbn.
  destruct c as [e g f p]. cbn.
  destruct (sa_analysis s !! "overall_quality") as [q|] eqn:Hq; cbn.
  - intros ->. destruct q as [q|j]; cbn.
    + destruct (String.eqb_spec q "excellent") as [->|]; cbn; [f_equal; lia|].
      destruct (String.eqb_spec q "good") as [->|]; cbn; [f_equal; lia|].
      destruct (String.eqb_spec q "fair") as [->|]; cbn; [f_equal; lia|].
      destruct (String.eqb_spec q "poor") as [->|]; cbn; f_equal; lia.
    + f_equal; lia.
  - intros (t & -> & Ht). cbn.
    destruct (String.eqb_spec t "excellent") as [->|]; [destruct Ht; by left|].
    destruct (String.eqb_spec t "good") as [->|]; [destruct Ht; right; by left|].
    destruct (String.eqb_spec t "fair") as [->|];
      [destruct Ht; right; right; by left|].
    destruct (String.eqb_spec t "poor") as [->|];
      [destruct Ht; right; right; right; by left|].
    cbn. f_equal; lia.
Qed.

Lemma count_quality_cons q s l :
  count_quality q (s :: l) = (count_quality q [s] + count_quality q l)%nat.
Proof.
  unfold count_quality. cbn.
  by destruct (match sa_overall_quality s with
               | AText r => String.eqb r q | AJudgment _ => false end).
Qed.

Lemma quality_counts_stored l : forall c,
  Forall quality_stored l ->
  foldl count_question c (as_question <$> l)
  = {| excellent_count := excellent_count c + count_quality "excellent" l;
       good_count := good_count c + count_quality "good" l;
       fair_count := fair_count c + count_quality "fair" l;
       poor_count := poor_count c + count_quality "poor" l |}.
Proof.
  induction l as [|s l IH]; intros c Hall.
  - destruct c. cbn. f_equal; lia.
  - apply Forall_cons in Hall as [Hs Hl]. cbn [fmap list_fmap foldl].
    rewrite IH by done. rewrite count_question_stored by done.
    cbn [excellent_count good_count fair_count poor_count].
    rewrite !(count_quality_cons _ s l). f_equal; lia.
Qed.

Lemma analysed_inv summarization_results w a :
  (_analyze_summarization_results claude json_loads prompt_of
                                  summarization_results w).1 = Analysed a ->
  exists st, a = summarize st
             /\ Forall quality_stored (ls_per_question st)
             /\ ls_per_question st <> [].
Proof.
  unfold _analyze_summarization_results.
  destruct summarization_results as [|r rest] eqn:Hres; [done|]. rewrite <- Hres.
  rewrite bind_run. cbn [mret M_ret fst snd]. intros [= <-].
  destruct (analyze_summaries_entries summarization_results 0%nat
              {| ls_per_question := []; ls_total_usage := zero_usage;
                 ls_total_cost := zero_cost |} w)
    as (new & nc & Hnew & Hlen & _ & Hq & _).
  cbn zeta in *. cbn [ls_per_question app] in Hnew.
  eexists. split; [done|]. rewrite Hnew. split; [done|].
  intros ->. rewrite Hres in Hlen. done.
Qed.

(** X27: the summary report counts the quality ratings of a
    summarization analysis as the analyser did: read back from the
    evaluation file, the numbers of summaries rated excellent, good,
    fair and poor are those of the analysis metrics. The report divides
    by the number of rated summaries and the analyser by the number of
    all summaries, so the two quality scores are the same number when
    every summary got one of the four ratings. *)
Theorem report_counts_match_analysis (summarization_results : list ResultEntry)
    (w : World) (a : SummarizationAnalysis) (model_name : string) :
  (_analyze_summarization_results claude json_loads prompt_of
                                  summarization_results w).1 = Analysed a ->
  let counts := quality_counts (model_info model_name (as_eval_document a)) in
  excellent_count counts = sm_excellent_count (san_metrics a)
  /\ good_count counts = sm_good_count (san_metrics a)
  /\ fair_count counts = sm_fair_count (san_metrics a)
  /\ poor_count counts = sm_poor_count (san_metrics a)
  /\ (total_summaries counts <= sm_total_summaries (san_metrics a))%nat
  /\ (total_summaries counts = sm_total_summaries (san_metrics a) ->
      quality_score counts = sm_quality_score (san_metrics a)).
Proof.
  intros (st & -> & Hq & Hne)%analysed_inv. cbn zeta.
  unfold quality_counts, model_info, as_eval_document.
  cbn [per_question doc_per_question summarize san_per_question san_metrics
       sm_total_summaries sm_excellent_count sm_good_count sm_fair_count
       sm_poor_count sm_quality_score].
  change (default [] (Some ?l)) with l.
  rewrite quality_counts_stored by done.
  cbn [excellent_count good_count fair_count poor_count total_summaries Nat.add].
  repeat split.
  - generalize (ls_per_question st). clear. intros new.
    unfold count_quality. induction new as [|s l IH]; cbn; [lia|].
    destruct (sa_overall_quality s) as [q|]; cbn; [|lia].
    destruct (String.eqb_spec q "excellent") as [->|]; cbn; [lia|].
    destruct (String.eqb_spec q "good") as [->|]; cbn; [lia|].
    destruct (String.eqb_spec q "fair") as [->|]; cbn; [lia|].
    destruct (String.eqb_spec q "poor") as [->|]; cbn; lia.
  - intros Htotal. unfold quality_score.
    cbn [excellent_count good_count fair_count poor_count total_summaries Nat.add].
    rewrite Htotal. by destruct (ls_per_question st).
Qed.

End SummariesFacts.

Section QAAnalysisFacts.
Import Eval Report Batch Analyze Span Evaluate Summaries QAAnalysis.
Open Scope float_scope.

Context (tfidf_cosine : string -> string -> Outcome float).
Context (claude : list CallRecord -> string -> Outcome ClaudeResponse).
Context (loads_rubric : string -> Outcome (gmap string CriterionJudgment)).
Context (loads_overall : string -> Outcome OverallReply).
Context (question_prompt_of : string -> string -> string -> float -> string).
Context (overall_prompt_of : float -> list QuestionAnalysis -> string).
Context (show_response : ClaudeResponse -> string).


(** The verdict without a rubric is [determine_pass_fail]'s. *)
Lemma similarity_only_verdict similarity threshold :
  determine_pass_fail similarity threshold None
  = Returned (similarity_only similarity threshold).
Proof. done. Qed.

Lemma prepare_qa_entry results threshold query ground_truth response :
  threshold_of results = Returned threshold ->
  prepare tfidf_cosine results (QAEntry query ground_truth response)
  = Returned (prepared tfidf_cosine threshold query ground_truth response).
Proof. intros H. unfold prepare. cbn. by rewrite H. Qed.

Lemma judge_analyses threshold query ground_truth response response_data w :
  let p := prepared tfidf_cosine threshold query ground_truth response in
  let out := judge loads_rubric show_response p response_data w in
  analyses tfidf_cosine threshold (QAEntry query ground_truth response) out.1
  /\ calls out.2 = calls w.
Proof.
  cbn zeta. unfold judge, analyses.
  set (p := prepared tfidf_cosine threshold query ground_truth response).
  change (p_threshold p) with threshold.
  destruct (json_content (content response_data)) as [json|];
    cbn [mbind Outcome_bind mret Outcome_ret].
  - destruct (loads_rubric json) as [rubric|e]; cbn [mbind Outcome_bind].
    + destruct (determine_pass_fail (p_similarity p) threshold (Some rubric))
        as [verdict|e] eqn:Hv; cbn [mbind Outcome_bind mret Outcome_ret M_ret fst snd].
      * split; [|done]. exists query, ground_truth, response. split; [done|].
        cbn zeta. fold p. by exists verdict.
      * rewrite bind_run. cbn [mret M_ret fst snd log_error calls].
        split; [|done]. by exists query, ground_truth, response.
    + rewrite bind_run. cbn [mret M_ret fst snd log_error calls].
      split; [|done]. by exists query, ground_truth, response.
  - rewrite bind_run. cbn [mret M_ret fst snd log_error calls].
    split; [|done]. by exists query, ground_truth, response.
Qed.

Lemma ask_run prompt w :
  ask claude prompt w
  = (claude (calls w) prompt,
     {| calls := calls w ++ [{| call_prompt := prompt;
                                call_failure := failure_of (claude (calls w) prompt) |}];
        error_log := error_log w; files := files w |}).
Proof. done. Qed.

(** The loop over the questions: the entries appended are the analyses
    of the first questions, one call each; the loop ends early exactly
    when a call raises, and that call is the last one made. *)
Lemma analyze_questions_entries results threshold qa_results :
  threshold_of results = Returned threshold ->
  Forall is_qa_entry qa_results ->
  forall per_question w,
    let out := analyze_questions tfidf_cosine claude loads_rubric question_prompt_of
                                 show_response results qa_results per_question w in
    exists done new,
      out.1.1 = per_question ++ done
      /\ calls out.2 = calls w ++ new
      /\ Forall2 (analyses tfidf_cosine threshold)
                 (take (length done) qa_results) done
      /\ match out.1.2 with
         | None =>
             length done = length qa_results
             /\ length new = length qa_results
             /\ Forall succeeded new
         | Some e =>
             (length done < length qa_results)%nat
             /\ exists ok c,
                  new = ok ++ [c] /\ length ok = length done
                  /\ Forall succeeded ok /\ call_failure c = Some e
         end.
Proof.
  intros Hth. induction 1 as [|qa_result rest (q & g & r & ->) _ IH];
    intros per_question w; cbn zeta; cbn [analyze_questions].
  - exists [], []. cbn. rewrite !app_nil_r. repeat split; try done; try constructor.
  - rewrite (prepare_qa_entry _ _ _ _ _ Hth). rewrite bind_run.
    set (prompt := question_prompt_of _ _ _ _).
    rewrite !ask_run. cbn [fst snd].
    destruct (claude (calls w) prompt) as [rd|e] eqn:Hcall; cbn [failure_of].
    + rewrite bind_run.
      set (w1 := {| calls := calls w ++ [{| call_prompt := prompt;
                                            call_failure := None |}];
                    error_log := error_log w; files := files w |}).
      destruct (judge_analyses threshold q g r rd w1) as [Hq Hcalls].
      cbn zeta in Hq, Hcalls.
      match goal with |- context [analyze_questions _ _ _ _ _ _ _ ?pq ?w'] =>
        destruct (IH pq w') as (done & new & Hdone & Hnew & Hall & Hend) end.
      cbn zeta in *.
      eexists (_ :: done), ({| call_prompt := prompt; call_failure := None |} :: new).
      rewrite Hdone, Hnew, Hcalls, <- !app_assoc. cbn [calls w1 app length take].
      split; [done|]. split; [by rewrite <- app_assoc|]. split; [by constructor|].
      match goal with |- match ?x with _ => _ end => destruct x as [e|] end.
      * destruct Hend as (Hlt & ok & c & -> & Hlen & Hok & Hc).
        split; [lia|]. eexists (_ :: ok), c. cbn [app length].
        repeat split; try done; [lia|]. by constructor.
      * destruct Hend as (Hl1 & Hl2 & Hok). repeat split; try lia.
        by constructor.
    + cbn [mret M_ret fst snd].
      exists [], [{| call_prompt := prompt; call_failure := Some e |}].
      rewrite app_nil_r. cbn [length take calls]. split; [done|]. split; [done|].
      split; [constructor|]. split; [lia|].
      exists [], {| call_prompt := prompt; call_failure := Some e |}.
      repeat split; try done; try constructor.
Qed.

Lemma raw_entries_all results threshold qa_results :
  threshold_of results = Returned threshold ->
  Forall is_qa_entry qa_results ->
  forall per_question,
  exists raw,
    raw_entries tfidf_cosine results qa_results per_question
    = Returned (per_question ++ raw)
    /\ Forall2 (raw_of tfidf_cosine threshold) qa_results raw.
Proof.
  intros Hth. induction 1 as [|qa_result rest (q & g & r & ->) _ IH];
    intros per_question; cbn [raw_entries].
  - exists []. by rewrite app_nil_r.
  - rewrite (prepare_qa_entry _ _ _ _ _ Hth). cbn [mbind Outcome_bind].
    match goal with |- context [raw_entries _ _ _ ?pq] =>
      destruct (IH pq) as (raw & -> & Hraw) end.
    eexists (_ :: raw). rewrite <- app_assoc. split; [done|].
    constructor; [|done]. by eexists _, _, _.
Qed.

Lemma analyze_overall_call threshold per_question w :
  let out := analyze_overall claude loads_overall overall_prompt_of threshold
                             per_question w in
  exists c,
    calls out.2 = calls w ++ [c]
    /\ match out.1 with
       | Returned _ => succeeded c
       | Raised e => call_failure c = Some e
       end.
Proof.
  cbn zeta. unfold analyze_overall, ask. rewrite bind_run. cbn [record_call fst snd].
  destruct (claude (calls w) _) as [rd|e]; [|by eexists].
  destruct (json_content (content rd)) as [json|]; [|by eexists].
  destruct (loads_overall json); by eexists.
Qed.

(** The errors that the analyser raises itself are no overload errors. *)
Lemma own_errors_not_overload :
  is_overload none_has_no_get = false
  /\ is_overload (key_error "metadata") = false
  /\ is_overload (key_error "similarity_threshold") = false.
Proof. by vm_compute. Qed.

Lemma sum_questions_error per_question : forall total_usage total_cost e,
  sum_questions per_question total_usage total_cost = Raised e ->
  e = none_has_no_get.
Proof.
  induction per_question as [|q rest IH]; intros tu tc e; cbn; [done|].
  destruct (usage_of q) as [[[u|] [c|]]|]; cbn; try by intros [= <-].
  all: apply IH.
Qed.

Lemma totals_error per_question usage cost e :
  (totals ← sum_questions per_question zero_usage zero_cost;
   total_usage ← add_usage_of totals.1 usage;
   total_cost ← add_cost_of totals.2 cost;
   mret (total_usage, total_cost)) = Raised e ->
  e = none_has_no_get.
Proof.
  destruct (sum_questions per_question zero_usage zero_cost) as [[tu tc]|e'] eqn:Hs;
    cbn [mbind Outcome_bind fst snd].
  - destruct usage as [u|]; cbn; [|by intros [= <-]].
    destruct cost as [c|]; cbn; [done|by intros [= <-]].
  - intros [= <-]. by eapply sum_questions_error.
Qed.

Lemma handle_error_cases results threshold qa_results per_question e :
  threshold_of results = Returned threshold ->
  Forall is_qa_entry qa_results ->
  if is_overload e then
    exists raw,
      handle_error tfidf_cosine results qa_results per_question e
      = Returned (AnalysedQA (partial_analysis (per_question ++ raw)))
      /\ Forall2 (raw_of tfidf_cosine threshold) qa_results raw
  else handle_error tfidf_cosine results qa_results per_question e = Raised e.
Proof.
  intros Hth Hqa. unfold handle_error. destruct (is_overload e); [|done].
  destruct (raw_entries_all results threshold qa_results Hth Hqa per_question)
    as (raw & -> & Hraw).
  by exists raw.
Qed.

(** What a run of the analyser comes to: either every call returned,
    and the analysis has one analysed entry per question (or the totals
    could not be summed and the error was raised); or the last call
    raised, and then the handler decides on the message of the error. *)
Lemma analyze_qa_cases results threshold qa_results w :
  threshold_of results = Returned threshold ->
  Forall is_qa_entry qa_results ->
  qa_results <> [] ->
  let out := _analyze_qa_results tfidf_cosine claude loads_rubric loads_overall
               question_prompt_of overall_prompt_of show_response
               results qa_results w in
  exists done ok,
    Forall2 (analyses tfidf_cosine threshold) (take (length done) qa_results) done
    /\ Forall succeeded ok
    /\ ((calls out.2 = calls w ++ ok
         /\ length ok = S (length qa_results)
         /\ length done = length qa_results
         /\ match out.1 with
            | Returned (AnalysedQA a) =>
                an_per_question a = done
                /\ is_Some (an_total_usage a)
                /\ rr_metrics (an_overall_rating a) ≫= (.!! "pass_rate")
                   = stated_pass_rate loads_overall
                       (claude (calls w ++ take (length qa_results) ok)
                               (overall_prompt_of threshold done))
            | Returned NoQAResults => False
            | Raised e => e = none_has_no_get
            end)
        \/ (exists c e,
              calls out.2 = calls w ++ ok ++ [c]
              /\ call_failure c = Some e
              /\ length ok = length done
              /\ if is_overload e then
                   exists raw,
                     out.1 = Returned (AnalysedQA (partial_analysis (done ++ raw)))
                     /\ Forall2 (raw_of tfidf_cosine threshold) qa_results raw
                 else out.1 = Raised e)).
Proof.
  intros Hth Hqa Hne. cbn zeta. unfold _analyze_qa_results.
  destruct qa_results as [|r0 rest0] eqn:Hres; [done|]. rewrite <- Hres in *.
  clear Hres r0 rest0 Hne. rewrite bind_run.
  destruct (analyze_questions_entries results threshold qa_results Hth Hqa [] w)
    as (done & new & Hdone & Hnew & Hall & Hend).
  cbn zeta in *. cbn [app] in Hdone.
  destruct (analyze_questions tfidf_cosine claude loads_rubric question_prompt_of
              show_response results qa_results [] w) as [[per_question failure] w1].
  cbn [fst snd] in *. subst per_question.
  destruct failure as [e|].
  - (* a question call raised *)
    destruct Hend as (Hlt & ok & c & -> & Hlen & Hok & Hc).
    exists done, ok. split; [done|]. split; [done|]. right. exists c, e.
    cbn [mret M_ret fst snd]. split; [done|]. split; [done|]. split; [done|].
    pose proof (handle_error_cases results threshold qa_results done e Hth Hqa) as H.
    by destruct (is_overload e).
  - destruct Hend as (Hl1 & Hl2 & Hok). rewrite Hth.
    rewrite bind_run.
    destruct (analyze_overall_call threshold done w1) as (c & Hc & Hcase).
    cbn zeta in *.
    assert (Hreply : forall rd,
              claude (calls w1) (overall_prompt_of threshold done) = Returned rd ->
              claude (calls w ++ take (length qa_results) (new ++ [c]))
                     (overall_prompt_of threshold done) = Returned rd).
    { intros rd <-. by rewrite <- Hl2, take_app_length, Hnew. }
    revert Hc Hcase Hreply. unfold analyze_overall. rewrite bind_run, ask_run.
    cbn [fst snd].
    destruct (claude (calls w1) (overall_prompt_of threshold done)) as [rd|e] eqn:Hrd;
      cbn [failure_of mret M_ret fst snd].
    2: { (* the overall call raised *)
      intros Hc Hcase _. exists done, new. split; [done|]. split; [done|]. right.
      exists c, e. rewrite Hc, Hnew, <- app_assoc.
      split; [done|]. split; [done|]. split; [lia|].
      pose proof (handle_error_cases results threshold qa_results done e Hth Hqa) as H.
      by destruct (is_overload e). }
    intros Hc Hcase Hreply. specialize (Hreply rd eq_refl).
    exists done, (new ++ [c]). split; [done|].
    split. { apply Forall_app. split; [done|]. constructor; [|constructor].
             revert Hcase.
             destruct (json_content (content rd)) as [json|]; [|done].
             by destruct (loads_overall json). }
    left.
    assert (Hcalls : forall A (m : M A),
              (forall w', calls (m w').2 = calls w') -> True) by done.
    clear Hcalls.
    set (rating_of_reply :=
           match json_content (content rd) with
           | Some json =>
               match loads_overall json with
               | Returned overall_analysis =>
                   default initial_rating (or_overall_rating overall_analysis)
               | Raised _ => initial_rating
               end
           | None => initial_rating
           end).
    assert (Hstated : rr_metrics rating_of_reply ≫= (.!! "pass_rate")
                      = stated_pass_rate loads_overall (Returned rd)).
    { unfold rating_of_reply, stated_pass_rate.
      destruct (json_content (content rd)) as [json|]; [|done].
      destruct (loads_overall json) as [[[rating|]]|]; done. }
    rewrite Hreply, <- Hstated. clear Hstated Hreply.
    pose proof own_errors_not_overload as (Hown & _).
    destruct (json_content (content rd)) as [json|];
      [destruct (loads_overall json) as [reply|e]|];
      cbn [mret M_ret fst snd] in *; rewrite ?bind_run;
      try rewrite bind_run in Hc; try rewrite bind_run in Hcase;
      cbn [mret M_ret fst snd log_error calls] in *;
      match goal with
      | |- context [match ?t with Returned _ => _ | Raised _ => _ end _] =>
          destruct t as [[tu tc]|e'] eqn:Ht
      end;
      try (apply totals_error in Ht as ->; unfold handle_error; rewrite Hown);
      cbn [mret M_ret fst snd calls];
      (split; [by rewrite Hc, Hnew, <- app_assoc|]);
      (split; [rewrite length_app; cbn; lia|]); (split; [done|]); try done;
      cbn [an_per_question an_total_usage an_overall_rating]; by eauto.
Qed.


(** X29: when a call to Claude raises an overload error (its message has
    "529" or, in any letter case, "overloaded"), [_analyze_qa_results]
    returns a partial analysis rated "pending", without totals, whose
    entries are the analysed entries of the questions answered before
    the failure followed by a raw entry for every result: after k
    successful calls it has k + n entries for n results, and each of the
    first k questions is in it twice. *)
Theorem overload_keeps_entries_and_appends_raw results threshold qa_results w ok c e :
  threshold_of results = Returned threshold ->
  Forall is_qa_entry qa_results ->
  qa_results <> [] ->
  let out := _analyze_qa_results tfidf_cosine claude loads_rubric loads_overall
               question_prompt_of overall_prompt_of show_response
               results qa_results w in
  calls out.2 = calls w ++ ok ++ [c] ->
  call_failure c = Some e ->
  is_overload e = true ->
  exists done raw,
    out.1 = Returned (AnalysedQA (partial_analysis (done ++ raw)))
    /\ length done = length ok
    /\ Forall2 (analyses tfidf_cosine threshold) (take (length ok) qa_results) done
    /\ Forall2 (raw_of tfidf_cosine threshold) qa_results raw
    /\ length (done ++ raw) = (length ok + length qa_results)%nat.
Proof.
  intros Hth Hqa Hne. cbn zeta.
  destruct (analyze_qa_cases results threshold qa_results w Hth Hqa Hne)
    as (done & ok' & Hall & Hok & Hcase).
  cbn zeta in Hcase. intros Hcalls Hfail Hover.
  destruct Hcase as [(Hc & _) | (c' & e' & Hc & Hfail' & Hlen & Hres)].
  - rewrite Hc in Hcalls. apply app_inv_head in Hcalls as ->.
    apply Forall_app in Hok as [_ Hlast]. apply Forall_cons in Hlast as [Hs _].
    unfold succeeded in Hs. congruence.
  - rewrite Hc in Hcalls. apply app_inv_head, app_inj_tail in Hcalls as [-> ->].
    assert (e' = e) as -> by congruence. rewrite Hover in Hres.
    destruct Hres as (raw & Hout & Hraw). exists done, raw.
    rewrite <- Hlen in Hall. repeat split; try done.
    rewrite length_app, Hlen. f_equal. symmetry. by eapply Forall2_length.
Qed.


End QAAnalysisFacts.

Section MoreWitnesses.
Import Eval Report Batch Samples MoreSamples Scoring Accounting.
Open Scope float_scope.

(** A configuration for the backend kind "OpenAI". *)
Lemma run_experiment_unsupported_backend_witness :
  Py.lower (llm_type openai_qa) <> "claude"
  /\ Py.lower (llm_type openai_qa) <> "lemonade"
  /\ run_experiment helpful_claude local_lemonade timestamp openai_qa
                    two_queries "out" empty_world
     = (Raised "Unsupported LLM type: OpenAI", empty_world).
Proof.
  assert (Hc : Py.lower (llm_type openai_qa) <> "claude") by (vm_compute; discriminate).
  assert (Hl : Py.lower (llm_type openai_qa) <> "lemonade") by (vm_compute; discriminate).
  split; [exact Hc|]. split; [exact Hl|].
  exact (run_experiment_unsupported_backend helpful_claude local_lemonade timestamp
           openai_qa two_queries "out" empty_world Hc Hl).
Defined.

(** A rubric that rates completeness excellent and says nothing of
    correctness, at a similarity below the threshold. *)
Lemma missing_correctness_follows_similarity_witness :
  completeness_only "excellent" !! "correctness" = None
  /\ (0.7 <=? 0.5) = false
  /\ exists v,
       determine_pass_fail 0.5 0.7 (Some (completeness_only "excellent")) = Returned v
       /\ is_pass v = (0.7 <=? 0.5).
Proof.
  split; [reflexivity|]. split; [reflexivity|].
  exact (missing_correctness_follows_similarity 0.5 0.7
           (completeness_only "excellent") eq_refl).
Defined.

(** A full rubric: correctness good, the rest fair. *)
Lemma qualitative_score_bounds_witness :
  exists v s,
    determine_pass_fail 0.5 0.7 (Some (rubric "good" "fair")) = Returned v
    /\ scores v = Some s
    /\ (qualitative_normalized s <=? 1) = true
    /\ ((forall c, c ∈ criteria_names -> rubric "good" "fair" !! c = None) ->
        qualitative_normalized s = 0)
    /\ ((exists c, c ∈ criteria_names /\ is_Some (rubric "good" "fair" !! c)) ->
        (0.25 <=? qualitative_normalized s) = true).
Proof.
  eexists _, _. split; [vm_compute; reflexivity|]. split; [reflexivity|].
  eapply (qualitative_score_bounds 0.5 0.7 (rubric "good" "fair"));
    [vm_compute; reflexivity | reflexivity].
Defined.

(** Correctness good and the other three excellent, at a similarity far
    below the threshold. *)
Lemma well_rated_passes_witness :
  rubric "good" "excellent" !! "correctness" = Some (rated "good")
  /\ (forall c j', c ∈ criteria_names -> rubric "good" "excellent" !! c = Some j' ->
        well_rated (stored_rating j'))
  /\ (0.7 <=? 0.1) = false
  /\ exists v,
       determine_pass_fail 0.1 0.7 (Some (rubric "good" "excellent")) = Returned v
       /\ is_pass v = true.
Proof.
  assert (Hall : forall c j', c ∈ criteria_names ->
            rubric "good" "excellent" !! c = Some j' -> well_rated (stored_rating j')).
  { intros c j' Hc. unfold criteria_names in Hc.
    repeat (apply elem_of_cons in Hc as [-> | Hc]); [ | | | | by apply elem_of_nil in Hc ];
      vm_compute; intros [= <-]; unfold well_rated;
      repeat first [ by left | right ]. }
  split; [reflexivity|]. split; [exact Hall|]. split; [reflexivity|].
  exact (well_rated_passes 0.1 0.7 (rubric "good" "excellent") (rated "good")
           eq_refl Hall).
Defined.

(** All four criteria rated fair, at a similarity above the threshold. *)
Lemma low_ratings_need_similarity_witness :
  (forall c j, c ∈ criteria_names -> rubric "fair" "fair" !! c = Some j ->
     ~ well_rated (stored_rating j))
  /\ exists v,
       determine_pass_fail 0.9 0.7 (Some (rubric "fair" "fair")) = Returned v
       /\ is_pass v = true
       /\ (0.7 <=? 0.9) = true.
Proof.
  assert (Hall : forall c j, c ∈ criteria_names ->
            rubric "fair" "fair" !! c = Some j -> ~ well_rated (stored_rating j)).
  { intros c j Hc. unfold criteria_names in Hc.
    repeat (apply elem_of_cons in Hc as [-> | Hc]); [ | | | | by apply elem_of_nil in Hc ];
      vm_compute; intros [= <-] Hw;
      repeat (apply elem_of_cons in Hw as [Hw | Hw]); try discriminate;
      by apply elem_of_nil in Hw. }
  split; [exact Hall|].
  eexists. split; [vm_compute; reflexivity|]. split; [reflexivity|].
  eapply (low_ratings_need_similarity 0.9 0.7 (rubric "fair" "fair") _ Hall);
    [vm_compute; reflexivity | reflexivity].
Defined.

(** Two Q&A evaluations, the lower pass rate first in file order. *)
Lemma best_performer_has_top_pass_rate_witness :
  Forall (fun model => is_number (pass_rate model) = true) (load_models_data qa_files)
  /\ exists report,
       generate_summary_report qa_files = Returned report
       /\ evaluation_type report <> "summarization"
       /\ exists best,
            head (summary_data report) = Some best
            /\ best_performer (report_content report) = Some (Report.name best)
            /\ head (ranking (report_content report))
               = Some (Report.name best, pass_rate best)
            /\ forall model, model ∈ load_models_data qa_files ->
                 (pass_rate model <=? pass_rate best) = true.
Proof.
  assert (Hn : Forall (fun model => is_number (pass_rate model) = true)
                      (load_models_data qa_files)) by (repeat constructor).
  split; [exact Hn|].
  eexists. split; [vm_compute; reflexivity|].
  assert (Ht : "rag" <> "summarization") by discriminate.
  split; [exact Ht|].
  eapply (best_performer_has_top_pass_rate qa_files _ Hn); [vm_compute; reflexivity|exact Ht].
Defined.



(** A raw transcript with two queries, answered by the hosted backend. *)
Lemma claude_run_token_totals_witness :
  Py.lower (llm_type claude_qa) = "claude"
  /\ exists doc new,
       persisted (run_experiment helpful_claude unreachable_lemonade timestamp
                                 claude_qa two_queries "out" empty_world) = Some doc
       /\ calls (run_experiment helpful_claude unreachable_lemonade timestamp
                                claude_qa two_queries "out" empty_world).2
          = calls empty_world ++ new
       /\ (forall key, key ∈ usage_keys ->
             md_total_usage (metadata doc) !! key
             = Some (reported_total helpful_claude (ClaudeClient "claude-sonnet" 512)
                                    (calls empty_world) new key))
       /\ (forall key, key ∉ usage_keys ->
             md_total_usage (metadata doc) !! key = None).
Proof.
  split; [reflexivity|].
  apply (claude_run_token_totals helpful_claude unreachable_lemonade timestamp
           claude_qa two_queries "out" empty_world).
  reflexivity.
Defined.

(** A Q&A run over a raw transcript followed by a Q&A pair. *)
Lemma results_filed_under_one_key_witness :
  create_llm_client claude_qa = Returned (ClaudeClient "claude-sonnet" 512)
  /\ experiment_type claude_qa ∈ ["qa"; "summarization"]
  /\ Filing.filing_key claude_qa transcript_then_question = "transcript_qa_results"
  /\ exists doc entries,
       persisted (run_experiment helpful_claude unreachable_lemonade timestamp
                                 claude_qa transcript_then_question "out" empty_world)
       = Some doc
       /\ doc_analysis doc
          = {[ Filing.filing_key claude_qa transcript_then_question := entries ]}
       /\ Forall2 entry_matches (List.filter supported transcript_then_question)
                  entries
       /\ md_total_items (metadata doc) = length transcript_then_question.
Proof.
  assert (He : experiment_type claude_qa ∈ ["qa"; "summarization"]) by (by left).
  split; [reflexivity|]. split; [exact He|]. split; [reflexivity|].
  exact (results_filed_under_one_key helpful_claude unreachable_lemonade timestamp
           claude_qa (ClaudeClient "claude-sonnet" 512) transcript_then_question
           "out" empty_world eq_refl He).
Defined.

(** The same run, handed to [analyze_with_claude] with analysers that
    would fail if they were called. *)
Lemma raw_transcript_run_not_analysed_witness :
  create_llm_client claude_qa = Returned (ClaudeClient "claude-sonnet" 512)
  /\ experiment_type claude_qa = "qa"
  /\ List.filter supported transcript_then_question
     = QARaw "Alice: ship it. Bob: agreed." (Some "standup.txt") ["Who attended?"]
       :: [QA "Who attended?" "Alice and Bob"]
  /\ exists doc,
       persisted (run_experiment helpful_claude unreachable_lemonade timestamp
                                 claude_qa transcript_then_question "out" empty_world)
       = Some doc
       /\ Analyze.analyze_with_claude
            (fun _ _ => Raised (A:=Analyze.Analysis unit) "called")
            (fun _ _ _ => Raised "called")
            (Returned (Analyze.reload doc)) None
          = (Analyze.nothing_to_analyze, []).
Proof.
  split; [reflexivity|]. split; [reflexivity|]. split; [reflexivity|].
  exact (raw_transcript_run_not_analysed helpful_claude unreachable_lemonade
           timestamp (fun _ _ => Raised "called") (fun _ _ _ => Raised "called")
           claude_qa (ClaudeClient "claude-sonnet" 512) transcript_then_question
           "out" empty_world None _ _ _ _ eq_refl eq_refl eq_refl).
Defined.

(** The transcript of the sample disk, loaded for a Q&A experiment and
    run against a backend that answers. *)
Lemma loaded_items_all_answered_witness :
  Loader.load_data_from_source standup_disk "notes/standup.txt"
                               (experiment_type claude_qa) None empty_world
  = (Returned standup_items, empty_world)
  /\ create_llm_client claude_qa = Returned (ClaudeClient "claude-sonnet" 512)
  /\ exists doc entries new lines,
       persisted (run_experiment helpful_claude unreachable_lemonade timestamp
                                 claude_qa standup_items "out" empty_world)
       = Some doc
       /\ doc_analysis doc = {[ Filing.filing_key claude_qa standup_items := entries ]}
       /\ Forall2 entry_matches standup_items entries
       /\ md_total_items (metadata doc) = length entries
       /\ calls (run_experiment helpful_claude unreachable_lemonade timestamp
                                claude_qa standup_items "out" empty_world).2
          = calls empty_world ++ new
       /\ error_log (run_experiment helpful_claude unreachable_lemonade timestamp
                                    claude_qa standup_items "out" empty_world).2
          = error_log empty_world ++ lines
       /\ length lines = length (List.filter call_failed new).
Proof.
  assert (Hload : Loader.load_data_from_source standup_disk "notes/standup.txt"
                    (experiment_type claude_qa) None empty_world
                  = (Returned standup_items, empty_world)) by (vm_compute; reflexivity).
  split; [exact Hload|]. split; [reflexivity|].
  exact (loaded_items_all_answered standup_disk helpful_claude unreachable_lemonade
           timestamp claude_qa (ClaudeClient "claude-sonnet" 512) "notes/standup.txt"
           None "out" standup_items empty_world empty_world Hload eq_refl).
Defined.


(** The two answered questions, of which the first passes. *)
Lemma evaluate_metrics_consistent_witness :
  exists m,
    Evaluate.evaluate_loaded exact_match_cosine first_of first_of first_of first_of
                             first_of answered_results = Returned m
    /\ (0 < Evaluate.num_questions m)%nat
    /\ (exists analysis qa_results,
          Analyze.lr_analysis answered_results = Some analysis
          /\ analysis !! "qa_results" = Some qa_results
          /\ Evaluate.num_questions m = length qa_results)
    /\ (Z.of_nat (Evaluate.num_passed m) + Evaluate.num_failed m
        = Z.of_nat (Evaluate.num_questions m))%Z
    /\ (0 <= Evaluate.num_failed m)%Z
    /\ Evaluate.pass_rate m
       = Py.float_of_nat (Evaluate.num_passed m)
         / Py.float_of_nat (Evaluate.num_questions m)
    /\ Evaluate.accuracy m = Evaluate.pass_rate m
    /\ Evaluate.accuracy_percentage m = Evaluate.pass_rate m * 100.0
    /\ Evaluate.rating m ∈ ["excellent"; "good"; "fair"; "poor"]
    /\ ((Evaluate.pass_rate m <? 0.6) = true -> Evaluate.rating m = "poor").
Proof.
  eexists. split; [vm_compute; reflexivity|].
  eapply (evaluate_metrics_consistent exact_match_cosine first_of first_of first_of
            first_of first_of answered_results).
  vm_compute; reflexivity.
Defined.

(** A Q&A run over three Q&A pairs. *)
Lemma evaluate_rejects_run_documents_witness :
  create_llm_client claude_qa = Returned (ClaudeClient "claude-sonnet" 512)
  /\ exists doc msg,
       persisted (run_experiment helpful_claude unreachable_lemonade timestamp
                                 claude_qa three_questions "out" empty_world)
       = Some doc
       /\ Evaluate.evaluate_loaded exact_match_cosine first_of first_of first_of
                                   first_of first_of (Analyze.reload doc)
          = Raised msg
       /\ (experiment_type claude_qa = "qa" ->
           Forall (fun data_item => Evaluate.is_qa data_item = true) three_questions ->
           msg = Evaluate.key_error "test_file").
Proof.
  split; [reflexivity|].
  exact (evaluate_rejects_run_documents exact_match_cosine first_of first_of first_of
           first_of first_of helpful_claude unreachable_lemonade timestamp claude_qa
           (ClaudeClient "claude-sonnet" 512) three_questions "out" empty_world
           eq_refl).
Defined.

(** The groundtruth of the sample disk, whose pairs name each question
    and each answer once. *)
Lemma template_agrees_with_loader_witness :
  Loader.load_json standup_disk "gt/standup.groundtruth.json"
  = Returned standup_groundtruth
  /\ Loader.gt_qa_pairs standup_groundtruth = Some standup_pairs
  /\ Forall Template.read_alike standup_pairs
  /\ exists path template items,
       (Template.create_template standup_disk timestamp "gt/standup.groundtruth.json"
                                 "templates" 0.7 empty_world).1
       = Returned (path, template)
       /\ Loader._load_from_groundtruth_file standup_disk
            "gt/standup.groundtruth.json" "qa" = Returned items
       /\ Template.entry_question <$> Template.tp_qa_results template
          = Template.item_question <$> items.
Proof.
  assert (Halike : Forall Template.read_alike standup_pairs).
  { apply Forall_cons; split.
    - split; [by right; left|]. split; [by right; left|]. intros [=].
    - apply Forall_cons; split; [|by apply Forall_nil].
      split; [by left|]. split; [by left|]. cbn. intros _ H. discriminate H. }
  split; [reflexivity|]. split; [reflexivity|]. split; [exact Halike|].
  eexists _, _, _. split; [vm_compute; reflexivity|].
  split; [vm_compute; reflexivity|].
  eapply (template_agrees_with_loader standup_disk timestamp
            "gt/standup.groundtruth.json" "templates" 0.7 empty_world _ _ _
            standup_groundtruth standup_pairs eq_refl eq_refl Halike);
    vm_compute; reflexivity.
Defined.

(** The template of the sample groundtruth, evaluated as it is. *)
Lemma evaluate_accepts_templates_witness :
  (forall similarities, similarities <> [] ->
     exists a b c d e,
       first_of similarities = Returned a /\ first_of similarities = Returned b
       /\ first_of similarities = Returned c /\ first_of similarities = Returned d
       /\ first_of similarities = Returned e)
  /\ exists path template,
       (Template.create_template standup_disk timestamp "gt/standup.groundtruth.json"
                                 "templates" 0.7 empty_world).1
       = Returned (path, template)
       /\ exists m,
            Evaluate.evaluate_loaded exact_match_cosine first_of first_of first_of
                                     first_of first_of
                                     (Template.reload_template template)
            = Returned m
            /\ Evaluate.num_questions m = length (Template.tp_qa_results template)
            /\ Evaluate.test_file m = "gt/standup.groundtruth.json"
            /\ Evaluate.threshold m = 0.7.
Proof.
  assert (Hnp : forall similarities, similarities <> [] ->
            exists a b c d e,
              first_of similarities = Returned a /\ first_of similarities = Returned b
              /\ first_of similarities = Returned c
              /\ first_of similarities = Returned d
              /\ first_of similarities = Returned e).
  { intros [|x l] H; [done|]. by exists x, x, x, x, x. }
  split; [exact Hnp|].
  eexists _, _. split; [vm_compute; reflexivity|].
  eapply (evaluate_accepts_templates standup_disk timestamp exact_match_cosine
            first_of first_of first_of first_of first_of
            "gt/standup.groundtruth.json" "templates" 0.7 empty_world);
    [vm_compute; reflexivity | exact Hnp].
Defined.

(** A configuration generated from the sample groundtruth. *)
Lemma generated_config_loads_witness :
  exists path config,
    (Generate.create_config_from_groundtruth standup_disk same_title
       "gt/standup.groundtruth.json" "configs/standup.json" empty_world).1
    = Returned (path, config)
    /\ exists groundtruth_data entries,
         Loader.load_json standup_disk "gt/standup.groundtruth.json"
         = Returned groundtruth_data
         /\ Config.cfg_experiments config = Some entries
         /\ (3 <= length entries <= 6)%nat
         /\ let use_case := default "qa" (Loader.gt_use_case groundtruth_data) in
            (use_case ∈ ["qa"; "summarization"] ->
             exists experiments,
               Config.load_config (Returned config) empty_world
               = (Returned experiments, empty_world)
               /\ length experiments = length entries
               /\ Forall (fun e => experiment_type e = use_case
                                   /\ exists client,
                                        create_llm_client e = Returned client)
                         experiments)
            /\ (use_case ∉ ["qa"; "summarization"] ->
                exists msg,
                  (Config.load_config (Returned config) empty_world).1 = Raised msg).
Proof.
  eexists _, _. split; [vm_compute; reflexivity|].
  eapply (generated_config_loads standup_disk same_title
            "gt/standup.groundtruth.json" "configs/standup.json" empty_world).
  vm_compute; reflexivity.
Defined.

(** Two summaries, analysed by a backend that replies with JSON. *)
Lemma one_analysis_per_summary_witness :
  summarized <> []
  /\ exists a new_calls,
       (Summaries._analyze_summarization_results judging_claude excellent_summary
          asks_summary summarized empty_world).1 = Summaries.Analysed a
       /\ length (Summaries.san_per_question a) = length summarized
       /\ (forall k s, Summaries.san_per_question a !! k = Some s ->
             Summaries.summary_index s = k
             /\ exists summary_result,
                  summarized !! k = Some summary_result
                  /\ Summaries.sa_source_file s
                     = Summaries.entry_source_file summary_result)
       /\ Summaries.sm_total_summaries (Summaries.san_metrics a) = length summarized
       /\ (Summaries.sm_excellent_count (Summaries.san_metrics a)
           + Summaries.sm_good_count (Summaries.san_metrics a)
           + Summaries.sm_fair_count (Summaries.san_metrics a)
           + Summaries.sm_poor_count (Summaries.san_metrics a)
           <= Summaries.sm_total_summaries (Summaries.san_metrics a))%nat
       /\ calls (Summaries._analyze_summarization_results judging_claude
                   excellent_summary asks_summary summarized empty_world).2
          = calls empty_world ++ new_calls
       /\ length new_calls = length summarized.
Proof.
  assert (Hne : summarized <> []) by discriminate.
  split; [exact Hne|].
  exact (one_analysis_per_summary judging_claude excellent_summary asks_summary
           summarized empty_world Hne).
Defined.

(** The same analysis, read back by the summary report. *)
Lemma report_counts_match_analysis_witness :
  exists a,
    (Summaries._analyze_summarization_results judging_claude excellent_summary
       asks_summary summarized empty_world).1 = Summaries.Analysed a
    /\ let counts :=
         Report.quality_counts
           (Report.model_info "model_a" (Summaries.as_eval_document a)) in
       Report.excellent_count counts
       = Summaries.sm_excellent_count (Summaries.san_metrics a)
       /\ Report.good_count counts = Summaries.sm_good_count (Summaries.san_metrics a)
       /\ Report.fair_count counts = Summaries.sm_fair_count (Summaries.san_metrics a)
       /\ Report.poor_count counts = Summaries.sm_poor_count (Summaries.san_metrics a)
       /\ (Report.total_summaries counts
           <= Summaries.sm_total_summaries (Summaries.san_metrics a))%nat
       /\ (Report.total_summaries counts
           = Summaries.sm_total_summaries (Summaries.san_metrics a) ->
           Report.quality_score counts
           = Summaries.sm_quality_score (Summaries.san_metrics a)).
Proof.
  eexists. split; [vm_compute; reflexivity|].
  eapply (report_counts_match_analysis judging_claude excellent_summary asks_summary
            summarized empty_world _ "model_a").
  vm_compute; reflexivity.
Defined.


(** The two answered questions, against a backend that answers the
    first call and is overloaded at the second. *)
Lemma overload_keeps_entries_and_appends_raw_witness :
  QAAnalysis.threshold_of answered_results = Returned 0.7
  /\ Forall QAAnalysis.is_qa_entry answered
  /\ answered <> []
  /\ QAAnalysis.is_overload "Error code: 529 - Overloaded" = true
  /\ calls (QAAnalysis._analyze_qa_results exact_match_cosine tiring_claude
              good_rubric stated_overall asks asks_overall shows
              answered_results answered empty_world).2
     = calls empty_world
       ++ [{| call_prompt := "Who attended?"; call_failure := None |}]
       ++ [{| call_prompt := "What was decided?";
              call_failure := Some "Error code: 529 - Overloaded" |}]
  /\ exists done raw,
       (QAAnalysis._analyze_qa_results exact_match_cosine tiring_claude good_rubric
          stated_overall asks asks_overall shows answered_results answered
          empty_world).1
       = Returned (QAAnalysis.AnalysedQA (QAAnalysis.partial_analysis (done ++ raw)))
       /\ length done = 1%nat
       /\ Forall2 (QAAnalysis.analyses exact_match_cosine 0.7) (take 1 answered) done
       /\ Forall2 (QAAnalysis.raw_of exact_match_cosine 0.7) answered raw
       /\ length (done ++ raw) = (1 + length answered)%nat.
Proof.
  assert (Hqa : Forall QAAnalysis.is_qa_entry answered).
  { repeat constructor; by eexists _, _, _. }
  assert (Hne : answered <> []) by discriminate.
  assert (Hcalls :
            calls (QAAnalysis._analyze_qa_results exact_match_cosine tiring_claude
                     good_rubric stated_overall asks asks_overall shows
                     answered_results answered empty_world).2
            = calls empty_world
              ++ [{| call_prompt := "Who attended?"; call_failure := None |}]
              ++ [{| call_prompt := "What was decided?";
                     call_failure := Some "Error code: 529 - Overloaded" |}])
    by (vm_compute; reflexivity).
  split; [reflexivity|]. split; [exact Hqa|]. split; [exact Hne|].
  split; [vm_compute; reflexivity|]. split; [exact Hcalls|].
  exact (overload_keeps_entries_and_appends_raw exact_match_cosine tiring_claude
           good_rubric stated_overall asks asks_overall shows answered_results 0.7
           answered empty_world
           [{| call_prompt := "Who attended?"; call_failure := None |}]
           {| call_prompt := "What was decided?";
              call_failure := Some "Error code: 529 - Overloaded" |}
           "Error code: 529 - Overloaded" eq_refl Hqa Hne Hcalls eq_refl eq_refl).
Defined.


End MoreWitnesses.
